(** * pycloudflare.models: a shallow embedding and its verified properties

    The module [pycloudflare/models.py] is a client-side object model over a
    DNS provider's REST API: [User], [Zone], [ZoneSettings] and [Record].
    Objects live in a store and refer to each other by location, the remote
    service is a parameter, and every request sent to it is appended to a log,
    so that "no request is made" and "a fresh listing is fetched" are
    statements about that log. *)

From Stdlib Require Import ZArith Sorting.Sorted.
From stdpp Require Import base option list gmap strings fin_maps.


(** ** Python values *)

(** The scalar values that the provider's JSON blobs carry and that callers
    assign to attributes. *)
Inductive value : Type :=
| VNone
| VBool (b : bool)
| VInt (n : Z)
| VStr (s : string).

#[global] Instance value_eq_dec : EqDecision value.
Proof. solve_decision. Defined.

(** A JSON object of the provider (a Python [dict] with [str] keys). *)
Abbreviation dict := (gmap string value).

Inductive exn : Type :=
| AttributeError
| KeyError
| TypeError
| ValueError
| ServiceError (code : nat).

#[global] Instance exn_eq_dec : EqDecision exn.
Proof. solve_decision. Defined.

(** Outcome of running a piece of Python code: a value, a raised exception,
    or [Wrong] when the store holds no object at a location that is
    dereferenced (references of a running program never dangle, so [Wrong]
    is never produced from a well-formed store). *)
Inductive result (A : Type) : Type :=
| Ok (a : A)
| Raise (e : exn)
| Wrong.
Arguments Ok {A} a.
Arguments Raise {A} e.
Arguments Wrong {A}.

(** [bool] is a subclass of [int]: [True == 1] and [False == 0]. *)
Definition as_num (v : value) : option Z :=
  match v with
  | VBool b => Some (Z.b2z b)
  | VInt n => Some n
  | _ => None
  end.

(** Python's [==] on scalars. *)
Definition py_eq (a b : value) : bool :=
  match a, b with
  | VNone, VNone => true
  | VStr s, VStr t => String.eqb s t
  | _, _ =>
      match as_num a, as_num b with
      | Some m, Some n => Z.eqb m n
      | _, _ => false
      end
  end.

(** Python 3's [<] on scalars: numbers with numbers, strings with strings
    (code point by code point), [TypeError] otherwise. *)
Definition py_lt (a b : value) : result bool :=
  match a, b with
  | VStr s, VStr t => Ok (String.ltb s t)
  | _, _ =>
      match as_num a, as_num b with
      | Some m, Some n => Ok (Z.ltb m n)
      | _, _ => Raise TypeError
      end
  end.

(** Truth value of a scalar, as [if v:] and [not v] take it. *)
Definition truthy (v : value) : bool :=
  match v with
  | VNone => false
  | VBool b => b
  | VInt n => negb (Z.eqb n 0%Z)
  | VStr s => negb (String.eqb s "")
  end.

(** [<] on 2-tuples: the first position where the tuples differ (by [==])
    decides, by [<] on the items there. *)
Definition tuple_lt (a b : value * value) : result bool :=
  if py_eq a.1 b.1 then
    if py_eq a.2 b.2 then Ok false else py_lt a.2 b.2
  else py_lt a.1 b.1.

(** ** Python dicts keyed by arbitrary scalars

    [by_name] in [Zone.records] and [_settings] in [ZoneSettings] are keyed
    by values taken from the provider's blobs. They are kept as association
    lists in insertion order, with keys compared by [==], and a key that is
    already present keeps its first spelling, as in Python. *)
Section pydict.
Context {A : Type}.

Definition pydict := list (value * A).

Fixpoint pd_lookup (k : value) (d : pydict) : option A :=
  match d with
  | [] => None
  | (k', a) :: d' => if py_eq k' k then Some a else pd_lookup k d'
  end.

(** Rebinds [k] to [f] of its current binding; a new key goes last. *)
Fixpoint pd_upsert (f : option A → A) (k : value) (d : pydict) : pydict :=
  match d with
  | [] => [(k, f None)]
  | (k', a') :: d' =>
      if py_eq k' k then (k', f (Some a')) :: d'
      else (k', a') :: pd_upsert f k d'
  end.

(** [d[k] = a] *)
Definition pd_insert (k : value) (a : A) (d : pydict) : pydict :=
  pd_upsert (λ _, a) k d.
End pydict.
Arguments pydict A : clear implicits.

(** ** [list.sort(key=...)]

    The keys are computed first, then the list is sorted stably, comparing
    keys with [<] only. The model is the stable insertion sort; when a
    comparison raises, so does the sort. *)
Section sort.
Context {A K : Type} (lt : K → K → result bool).

Fixpoint insert_sorted (x : K * A) (l : list (K * A)) : result (list (K * A)) :=
  match l with
  | [] => Ok [x]
  | y :: l' =>
      match lt y.1 x.1 with
      | Ok true =>
          match insert_sorted x l' with
          | Ok r => Ok (y :: r)
          | Raise e => Raise e
          | Wrong => Wrong
          end
      | Ok false => Ok (x :: y :: l')
      | Raise e => Raise e
      | Wrong => Wrong
      end
  end.

Fixpoint sort_decorated (l : list (K * A)) : result (list (K * A)) :=
  match l with
  | [] => Ok []
  | x :: l' =>
      match sort_decorated l' with
      | Ok r => insert_sorted x r
      | Raise e => Raise e
      | Wrong => Wrong
      end
  end.
End sort.

(** [a] may come before [b] in a sorted list: [b < a] is false. *)
Definition not_after {K : Type} (lt : K → K → result bool) (a b : K) : Prop :=
  lt b a = Ok false.

(** The order of the keys [(type, content)]. *)
Definition key_le : value * value → value * value → Prop := not_after tuple_lt.

(** A sort key made of two strings. *)
Definition has_string_key {A} (k : value * value * A) : Prop :=
  ∃ t c : string, k.1 = (VStr t, VStr c).

(** ** Attribute slots

    [ZoneSettings] and [Record] let [__setattr__] rebind their four own
    attributes to whatever the caller assigns. A slot therefore holds either
    the object the constructor put there ([Obj]) or a scalar assigned over
    it ([Raw]). *)
Inductive slot (A : Type) : Type :=
| Obj (a : A)
| Raw (v : value).
Arguments Obj {A} a.
Arguments Raw {A} v.

(** [x.attr] for an attribute that scalars do not have. *)
Definition slot_object {A} (s : slot A) : result A :=
  match s with
  | Obj a => Ok a
  | Raw _ => Raise AttributeError
  end.

(** [name in x]: key membership on a dict, substring test on a [str],
    [TypeError] on the other scalars. *)
Definition slot_contains {A} (has : A → bool) (name : string) (s : slot A) : result bool :=
  match s with
  | Obj a => Ok (has a)
  | Raw (VStr t) => Ok (bool_decide (is_Some (String.index 0 name t)))
  | Raw _ => Raise TypeError
  end.

(** [x[name]]: scalars are not subscriptable by a [str]. *)
Definition slot_getitem {A B} (get : A → option B) (s : slot A) : result B :=
  match s with
  | Obj a => match get a with Some b => Ok b | None => Raise KeyError end
  | Raw _ => Raise TypeError
  end.

(** [x[name] = v]: scalars do not support item assignment. *)
Definition slot_setitem {A} (set : A → A) (s : slot A) : result (slot A) :=
  match s with
  | Obj a => Ok (Obj (set a))
  | Raw _ => Raise TypeError
  end.

(** Truth value of [x], as [if x:] takes it. *)
Definition slot_truthy {A} (nonempty : A → bool) (s : slot A) : bool :=
  match s with
  | Obj a => nonempty a
  | Raw v => truthy v
  end.

Definition dict_has (name : string) (d : dict) : bool :=
  bool_decide (is_Some (d !! name)).

Definition dict_nonempty (d : dict) : bool :=
  negb (bool_decide (d = ∅)).

(** ** The store *)

Definition loc := nat.

(** [CloudFlareService(api_key, email)]: the handle through which requests
    are sent. *)
Record service : Type := CloudFlareService {
  svc_api_key : value;
  svc_email : value;
}.

#[global] Instance service_eq_dec : EqDecision service.
Proof. solve_decision. Defined.

(** A [User]: [email], [service], and the [cached_property] [zones]
    ([None] while the property cache holds no entry for it). *)
Record UserObj : Type := mkUser {
  u_email : value;
  u_service : service;
  u_zones : option (list loc);
}.

(** A [Zone]: [user], [service], [_data], and the cached properties
    [settings] and [records]. *)
Record ZoneObj : Type := mkZone {
  z_user : loc;
  z_service : service;
  z_data : dict;
  z_settings : option loc;
  z_records : option (pydict (list loc));
}.

(** A [ZoneSettings]: [zone], [service], [_settings], [_updates]. *)
Record SettingsObj : Type := mkSettings {
  s_zone : slot loc;
  s_service : slot service;
  s_settings : slot (pydict dict);
  s_updates : slot dict;
}.

(** A [Record]: [zone], [service], [_data], [_updates]. *)
Record RecordObj : Type := mkRecord {
  r_zone : slot loc;
  r_service : slot service;
  r_data : slot dict;
  r_updates : slot dict;
}.

(** Modelled from the spec: the requests that [pycloudflare.services], which
    is not among the sources, sends to the provider (its external interface:
    [getZones], [deleteZone], [getDnsRecords], [createDnsRecord],
    [updateDnsRecord], [deleteDnsRecord], [getZoneSettings],
    [setZoneSettings]). The three listings stand for a
    [CloudFlarePageIterator] over the endpoint, drained page by page. *)
Inductive request : Type :=
| get_zones
| delete_zone (zone_id : value)
| get_dns_records (zone_id : value)
| create_dns_record (zone_id : value) (data : dict)
| update_dns_record (zone_id record_id : value) (data : slot dict)
| delete_dns_record (zone_id record_id : value)
| get_zone_settings (zone_id : value)
| set_zone_settings (zone_id : value) (items : list dict).

(** Modelled from the spec: what a request of [pycloudflare.services] gives
    back. A listing is a finite sequence of blobs drawn from successive
    pages, which yields its items and then either stops or raises; a
    creation or update returns a blob or raises; a deletion or bulk update
    returns nothing or raises. *)
Definition response (q : request) : Type :=
  match q with
  | get_zones | get_dns_records _ | get_zone_settings _ =>
      (list dict * option exn)%type
  | create_dns_record _ _ | update_dns_record _ _ _ => (exn + dict)%type
  | delete_zone _ | delete_dns_record _ _ | set_zone_settings _ _ => option exn
  end.

Section models.

(** The provider. [pycloudflare.services] is taken as a parameter: a state
    of the remote side and, for each request sent through a service handle,
    the response and the next state. *)
Context {server : Type}.
Variable remote : ∀ q : request, service → server → response q * server.

Record world : Type := mkWorld {
  w_users : gmap loc UserObj;
  w_zones : gmap loc ZoneObj;
  w_settings : gmap loc SettingsObj;
  w_records : gmap loc RecordObj;
  w_remote : server;
  w_log : list (service * request);
}.

Definition with_users (f : gmap loc UserObj → gmap loc UserObj) (w : world) : world :=
  mkWorld (f (w_users w)) (w_zones w) (w_settings w) (w_records w) (w_remote w) (w_log w).

Definition with_zones (f : gmap loc ZoneObj → gmap loc ZoneObj) (w : world) : world :=
  mkWorld (w_users w) (f (w_zones w)) (w_settings w) (w_records w) (w_remote w) (w_log w).

Definition with_settings (f : gmap loc SettingsObj → gmap loc SettingsObj) (w : world) : world :=
  mkWorld (w_users w) (w_zones w) (f (w_settings w)) (w_records w) (w_remote w) (w_log w).

Definition with_records (f : gmap loc RecordObj → gmap loc RecordObj) (w : world) : world :=
  mkWorld (w_users w) (w_zones w) (w_settings w) (f (w_records w)) (w_remote w) (w_log w).

(** ** The monad of Python code: state, and exceptions that keep the state *)

Definition M (A : Type) : Type := world → result A * world.

Definition ret {A} (a : A) : M A := λ w, (Ok a, w).

Definition raise {A} (e : exn) : M A := λ w, (Raise e, w).

Definition bind {A B} (m : M A) (k : A → M B) : M B :=
  λ w, match m w with
       | (Ok a, w') => k a w'
       | (Raise e, w') => (Raise e, w')
       | (Wrong, w') => (Wrong, w')
       end.

Definition lift {A} (r : result A) : M A := λ w, (r, w).

Notation "x <- m ;; k" := (bind m (λ x, k))
  (at level 100, m at next level, right associativity).
Notation "m ;;; k" := (bind m (λ _, k))
  (at level 100, right associativity).

(** [for x in items: acc = body(acc, x)] *)
Fixpoint for_each {A B} (items : list A) (body : B → A → M B) (acc : B) : M B :=
  match items with
  | [] => ret acc
  | x :: items' => acc' <- body acc x ;; for_each items' body acc'
  end.

(** The same loop over a listing, which may raise after its last item. *)
Definition for_listing {A B} (l : list A * option exn) (body : B → A → M B) (acc : B) : M B :=
  acc' <- for_each l.1 body acc ;;
  match l.2 with
  | Some e => raise e
  | None => ret acc'
  end.

(** Sends [q] through [svc]; the request is logged. *)
Definition call (svc : service) (q : request) : M (response q) :=
  λ w, let (r, s') := remote q svc (w_remote w) in
       (Ok r, mkWorld (w_users w) (w_zones w) (w_settings w) (w_records w)
                      s' (w_log w ++ [(svc, q)])).

Definition returned {A} (r : exn + A) : M A :=
  match r with
  | inl e => raise e
  | inr a => ret a
  end.

Definition completed (r : option exn) : M unit :=
  match r with
  | Some e => raise e
  | None => ret tt
  end.

Definition get_user (u : loc) : M UserObj :=
  λ w, (match w_users w !! u with Some o => Ok o | None => Wrong end, w).

Definition get_zone (z : loc) : M ZoneObj :=
  λ w, (match w_zones w !! z with Some o => Ok o | None => Wrong end, w).

Definition get_settings (s : loc) : M SettingsObj :=
  λ w, (match w_settings w !! s with Some o => Ok o | None => Wrong end, w).

Definition get_record (r : loc) : M RecordObj :=
  λ w, (match w_records w !! r with Some o => Ok o | None => Wrong end, w).

(** ** property_caching *)

(** Modelled from the spec: the [property_caching] package is not among the
    sources. A [cached_property] is computed on first access and kept, so
    later reads return the kept value until it is invalidated;
    [clear_property_cache(obj, name)] drops the kept value, and does nothing
    when there is none ([User.create_host_zone] deletes records of a zone
    whose [records] were never read). The kept values are the [option]
    fields of [UserObj] and [ZoneObj]. *)
Definition set_cache_zones (u : loc) (c : option (list loc)) : M unit :=
  λ w, (Ok tt, with_users (alter (λ o, mkUser (u_email o) (u_service o) c) u) w).

Definition set_cache_settings (z : loc) (c : option loc) : M unit :=
  λ w, (Ok tt, with_zones (alter (λ o, mkZone (z_user o) (z_service o) (z_data o) c (z_records o)) z) w).

Definition set_cache_records (z : loc) (c : option (pydict (list loc))) : M unit :=
  λ w, (Ok tt, with_zones (alter (λ o, mkZone (z_user o) (z_service o) (z_data o) (z_settings o) c) z) w).

(** ** class Zone *)

(** [Zone(user, data)] *)
Definition new_Zone (user : loc) (data : dict) : M loc :=
  uo <- get_user user ;;
  λ w, let z := fresh (dom (w_zones w)) in
       (Ok z, with_zones (insert z (mkZone user (u_service uo) data None None)) w).

(** [Zone.__getattr__] *)
Definition Zone_getattr (name : string) (z : loc) : M value :=
  zo <- get_zone z ;;
  match z_data zo !! name with
  | Some v => ret v
  | None => raise AttributeError
  end.

(** [Zone.delete] *)
Definition Zone_delete (z : loc) : M unit :=
  zo <- get_zone z ;;
  zid <- Zone_getattr "id" z ;;
  r <- call (z_service zo) (delete_zone zid) ;;
  completed r ;;;
  set_cache_zones (z_user zo) None.

(** ** class User *)

(** [User.zones], a [cached_property]: [list(self.iter_zones())] *)
Definition User_zones (u : loc) : M (list loc) :=
  uo <- get_user u ;;
  match u_zones uo with
  | Some zs => ret zs
  | None =>
      l <- call (u_service uo) get_zones ;;
      zs <- for_listing l (λ acc zone, z <- new_Zone u zone ;; ret (acc ++ [z])) [] ;;
      set_cache_zones u (Some zs) ;;;
      ret zs
  end.

(** ** class Record *)

(** [Record(zone, data)] *)
Definition new_Record (zone : loc) (data : dict) : M loc :=
  zo <- get_zone zone ;;
  λ w, let r := fresh (dom (w_records w)) in
       (Ok r, with_records
                (insert r (mkRecord (Obj zone) (Obj (z_service zo)) (Obj data) (Obj ∅))) w).

(** [Record.__getattr__], which Python calls for a name that is neither an
    instance attribute nor a class attribute. *)
Definition Record_getattr (name : string) (r : loc) : M value :=
  ro <- get_record r ;;
  staged <- lift (slot_contains (dict_has name) name (r_updates ro)) ;;
  if staged : bool then lift (slot_getitem (λ d : dict, d !! name) (r_updates ro))
  else
    fetched <- lift (slot_contains (dict_has name) name (r_data ro)) ;;
    if fetched : bool then lift (slot_getitem (λ d : dict, d !! name) (r_data ro))
    else raise AttributeError.

(** The names that [Record.__setattr__] hands to [object.__setattr__]. *)
Definition Record_own_attributes : list string :=
  ["zone"; "service"; "_data"; "_updates"].

(** [super(Record, self).__setattr__(name, value)] for one of the four
    names above: the attribute is rebound to the value. *)
Definition Record_rebind (name : string) (v : value) (ro : RecordObj) : RecordObj :=
  if decide (name = "zone") then mkRecord (Raw v) (r_service ro) (r_data ro) (r_updates ro)
  else if decide (name = "service") then mkRecord (r_zone ro) (Raw v) (r_data ro) (r_updates ro)
  else if decide (name = "_data") then mkRecord (r_zone ro) (r_service ro) (Raw v) (r_updates ro)
  else mkRecord (r_zone ro) (r_service ro) (r_data ro) (Raw v).

Definition put_record (r : loc) (ro : RecordObj) : M unit :=
  λ w, (Ok tt, with_records (insert r ro) w).

(** [Record.__setattr__] *)
Definition Record_setattr (name : string) (v : value) (r : loc) : M unit :=
  ro <- get_record r ;;
  if bool_decide (name ∈ Record_own_attributes) then
    put_record r (Record_rebind name v ro)
  else
    fetched <- lift (slot_contains (dict_has name) name (r_data ro)) ;;
    if fetched : bool then
      u <- lift (slot_setitem (λ d : dict, <[name := v]> d) (r_updates ro)) ;;
      put_record r (mkRecord (r_zone ro) (r_service ro) (r_data ro) u)
    else raise AttributeError.

(** [Record.save] *)
Definition Record_save (r : loc) : M unit :=
  ro <- get_record r ;;
  if slot_truthy dict_nonempty (r_updates ro) then
    svc <- lift (slot_object (r_service ro)) ;;
    z <- lift (slot_object (r_zone ro)) ;;
    zid <- Zone_getattr "id" z ;;
    rid <- Record_getattr "id" r ;;
    reply <- call svc (update_dns_record zid rid (r_updates ro)) ;;
    result <- returned reply ;;
    d <- lift (slot_object (r_data ro)) ;;
    put_record r (mkRecord (r_zone ro) (r_service ro) (Obj (result ∪ d)) (r_updates ro)) ;;;
    renamed <- lift (slot_contains (dict_has "name") "name" (r_updates ro)) ;;
    (if renamed : bool then set_cache_records z None else ret tt) ;;;
    put_record r (mkRecord (r_zone ro) (r_service ro) (Obj (result ∪ d)) (Obj ∅))
  else ret tt.

(** [Record.delete] *)
Definition Record_delete (r : loc) : M unit :=
  ro <- get_record r ;;
  svc <- lift (slot_object (r_service ro)) ;;
  z <- lift (slot_object (r_zone ro)) ;;
  zid <- Zone_getattr "id" z ;;
  rid <- Record_getattr "id" r ;;
  reply <- call svc (delete_dns_record zid rid) ;;
  completed reply ;;;
  set_cache_records z None.

(** ** class Zone, continued *)

(** [for record in self.iter_records(): acc = body(acc, record)] *)
Definition Zone_iter_records {B} (z : loc) (body : B → loc → M B) (acc : B) : M B :=
  zo <- get_zone z ;;
  zid <- Zone_getattr "id" z ;;
  l <- call (z_service zo) (get_dns_records zid) ;;
  for_listing l (λ acc record, r <- new_Record z record ;; body acc r) acc.

(** [by_name.setdefault(name, []).append(record)] *)
Definition setdefault_append (name : value) (record : loc)
    (by_name : pydict (list loc)) : pydict (list loc) :=
  pd_upsert (λ o, default [] o ++ [record]) name by_name.

(** The key function [lambda r: (r.type, r.content)], paired with [r]. *)
Definition Record_sort_key (r : loc) : M (value * value * loc) :=
  t <- Record_getattr "type" r ;;
  c <- Record_getattr "content" r ;;
  ret (t, c, r).

(** [value.sort(key=lambda r: (r.type, r.content))] *)
Definition sort_records (l : list loc) : M (list loc) :=
  keyed <- for_each l (λ acc r, k <- Record_sort_key r ;; ret (acc ++ [k])) [] ;;
  sorted <- lift (sort_decorated tuple_lt keyed) ;;
  ret (sorted.*2).

(** The body of [Zone.records]. *)
Definition Zone_records_body (z : loc) : M (pydict (list loc)) :=
  by_name <- Zone_iter_records z
               (λ by_name r, name <- Record_getattr "name" r ;;
                             ret (setdefault_append name r by_name)) [] ;;
  for_each by_name (λ acc kv, l <- sort_records kv.2 ;; ret (acc ++ [(kv.1, l)])) [].

(** [Zone.records], a [cached_property]: the getter and its cache. When the
    getter raises [AttributeError] Python hands the read to
    [Zone.__getattr__]; that second step is not part of this function. *)
Definition Zone_records (z : loc) : M (pydict (list loc)) :=
  zo <- get_zone z ;;
  match z_records zo with
  | Some by_name => ret by_name
  | None =>
      by_name <- Zone_records_body z ;;
      set_cache_records z (Some by_name) ;;;
      ret by_name
  end.

(** The payload that [Zone.create_record] builds. *)
Definition create_record_data (name type content ttl proxied priority : value) : dict :=
  let data : dict :=
    <["proxied" := proxied]> (<["ttl" := ttl]> (<["content" := content]>
      (<["type" := type]> (<["name" := name]> ∅)))) in
  if py_eq type (VStr "MX") then <["priority" := priority]> data else data.

(** [Zone.create_record] *)
Definition Zone_create_record (z : loc)
    (name type content ttl proxied priority : value) : M loc :=
  let data := create_record_data name type content ttl proxied priority in
  zo <- get_zone z ;;
  zid <- Zone_getattr "id" z ;;
  reply <- call (z_service zo) (create_dns_record zid data) ;;
  record <- returned reply ;;
  set_cache_records z None ;;;
  new_Record z record.

(** ** class ZoneSettings *)

Definition put_settings (s : loc) (so : SettingsObj) : M unit :=
  λ w, (Ok tt, with_settings (insert s so) w).

Definition settings_has (name : string) (d : pydict dict) : bool :=
  bool_decide (is_Some (pd_lookup (VStr name) d)).

(** [ZoneSettings._get_settings] *)
Definition ZoneSettings_get_settings (s : loc) : M unit :=
  so <- get_settings s ;;
  put_settings s (mkSettings (s_zone so) (s_service so) (Obj []) (s_updates so)) ;;;
  svc <- lift (slot_object (s_service so)) ;;
  z <- lift (slot_object (s_zone so)) ;;
  zid <- Zone_getattr "id" z ;;
  l <- call svc (get_zone_settings zid) ;;
  for_listing l
    (λ _ setting,
       match setting !! "id" with
       | None => raise KeyError
       | Some id =>
           so' <- get_settings s ;;
           st <- lift (slot_setitem (pd_insert id setting) (s_settings so')) ;;
           put_settings s (mkSettings (s_zone so') (s_service so') st (s_updates so'))
       end) tt.

(** [ZoneSettings(zone)] *)
Definition new_ZoneSettings (zone : loc) : M loc :=
  zo <- get_zone zone ;;
  s <- (λ w, let s := fresh (dom (w_settings w)) in
             (Ok s, with_settings
                      (insert s (mkSettings (Obj zone) (Obj (z_service zo)) (Obj []) (Obj ∅))) w)) ;;
  ZoneSettings_get_settings s ;;;
  so <- get_settings s ;;
  put_settings s (mkSettings (s_zone so) (s_service so) (s_settings so) (Obj ∅)) ;;;
  ret s.

(** [Zone.settings], a [cached_property]: the getter and its cache, as for
    [Zone.records]. *)
Definition Zone_settings (z : loc) : M loc :=
  zo <- get_zone z ;;
  match z_settings zo with
  | Some s => ret s
  | None =>
      s <- new_ZoneSettings z ;;
      set_cache_settings z (Some s) ;;;
      ret s
  end.

(** [ZoneSettings.__getattr__] *)
Definition ZoneSettings_getattr (name : string) (s : loc) : M value :=
  so <- get_settings s ;;
  staged <- lift (slot_contains (dict_has name) name (s_updates so)) ;;
  if staged : bool then lift (slot_getitem (λ d : dict, d !! name) (s_updates so))
  else
    known <- lift (slot_contains (settings_has name) name (s_settings so)) ;;
    if known : bool then
      setting <- lift (slot_getitem (pd_lookup (VStr name)) (s_settings so)) ;;
      match (setting : dict) !! "value" with
      | Some v => ret v
      | None => raise KeyError
      end
    else raise AttributeError.

Definition ZoneSettings_own_attributes : list string :=
  ["zone"; "service"; "_settings"; "_updates"].

Definition ZoneSettings_rebind (name : string) (v : value) (so : SettingsObj) : SettingsObj :=
  if decide (name = "zone") then mkSettings (Raw v) (s_service so) (s_settings so) (s_updates so)
  else if decide (name = "service") then mkSettings (s_zone so) (Raw v) (s_settings so) (s_updates so)
  else if decide (name = "_settings") then mkSettings (s_zone so) (s_service so) (Raw v) (s_updates so)
  else mkSettings (s_zone so) (s_service so) (s_settings so) (Raw v).

(** [ZoneSettings.__setattr__] *)
Definition ZoneSettings_setattr (name : string) (v : value) (s : loc) : M unit :=
  so <- get_settings s ;;
  if bool_decide (name ∈ ZoneSettings_own_attributes) then
    put_settings s (ZoneSettings_rebind name v so)
  else
    known <- lift (slot_contains (settings_has name) name (s_settings so)) ;;
    if negb known then raise AttributeError
    else
      setting <- lift (slot_getitem (pd_lookup (VStr name)) (s_settings so)) ;;
      match (setting : dict) !! "editable" with
      | None => raise KeyError
      | Some editable =>
          if negb (truthy editable) then raise ValueError
          else
            u <- lift (slot_setitem (λ d : dict, <[name := v]> d) (s_updates so)) ;;
            put_settings s (mkSettings (s_zone so) (s_service so) (s_settings so) u)
      end.

(** [[{'id': name, 'value': value} for name, value in iteritems(updates)]].
    The items come in the order of the names; Python yields them in the
    order in which the edits were staged. *)
Definition settings_items (updates : dict) : list dict :=
  (λ kv, <["id" := VStr kv.1]> (<["value" := kv.2]> (∅ : dict))) <$> map_to_list updates.

(** [ZoneSettings.save] *)
Definition ZoneSettings_save (s : loc) : M unit :=
  so <- get_settings s ;;
  if negb (slot_truthy dict_nonempty (s_updates so)) then ret tt
  else
    updates <- lift (slot_object (s_updates so)) ;;
    svc <- lift (slot_object (s_service so)) ;;
    z <- lift (slot_object (s_zone so)) ;;
    zid <- Zone_getattr "id" z ;;
    reply <- call svc (set_zone_settings zid (settings_items updates)) ;;
    completed reply ;;;
    ZoneSettings_get_settings s ;;;
    so' <- get_settings s ;;
    put_settings s (mkSettings (s_zone so') (s_service so') (s_settings so') (Obj ∅)).

(** ** Notions used in the statements *)

(** Code that leaves the store as it found it. *)
Definition readonly {A} (m : M A) : Prop :=
  ∀ w, (m w).2 = w.

(** Code that sends no request. *)
Definition quiet {A} (m : M A) : Prop :=
  ∀ w, w_log (m w).2 = w_log w ∧ w_remote (m w).2 = w_remote w.

(** The cached index of [z] is gone from the store [w]: the next read of
    [Zone.records] sends the listing request again. *)
Definition records_invalidated (z : loc) (w : world) : Prop :=
  ∃ zo zid,
    w_zones w !! z = Some zo ∧ z_records zo = None ∧
    z_data zo !! "id" = Some zid ∧
    w_log (Zone_records z w).2
      = w_log w ++ [(z_service zo, get_dns_records zid)].

End models.

(** ** A small provider and a small store

    Closed instances of the statements below are evaluated on them. *)

Definition example_service : service :=
  CloudFlareService (VStr "k3y") (VStr "ops@example.com").

Definition blob (fields : list (string * value)) : dict := list_to_map fields.

(** What the provider lists for a zone: four records, two names. *)
Definition example_listing : list dict :=
  [ blob [("id", VStr "r1"); ("name", VStr "www"); ("type", VStr "TXT");
          ("content", VStr "v=spf1 -all")];
    blob [("id", VStr "r2"); ("name", VStr "www"); ("type", VStr "A");
          ("content", VStr "2.2.2.2")];
    blob [("id", VStr "r3"); ("name", VStr "mail"); ("type", VStr "MX");
          ("content", VStr "mx1.example.com"); ("priority", VInt 10)];
    blob [("id", VStr "r4"); ("name", VStr "www"); ("type", VStr "A");
          ("content", VStr "1.1.1.1")] ].

Definition example_setting_blobs : list dict :=
  [ blob [("id", VStr "always_online"); ("value", VStr "on");
          ("editable", VBool true)];
    blob [("id", VStr "plan"); ("value", VStr "free");
          ("editable", VBool false)] ].

(** The provider counts the requests it has served; an update answers with
    the fields it was sent. *)
Definition example_remote (q : request) (svc : service) (served : nat)
    : response q * nat :=
  match q as q' return response q' * nat with
  | get_zones =>
      (([blob [("id", VStr "z1"); ("name", VStr "example.com")]], None), S served)
  | get_dns_records _ => ((example_listing, None), S served)
  | get_zone_settings _ => ((example_setting_blobs, None), S served)
  | create_dns_record _ data => (inr (<["id" := VStr "r9"]> data), S served)
  | update_dns_record _ _ (Obj fields) => (inr fields, S served)
  | update_dns_record _ _ (Raw _) => (inl (ServiceError 400), S served)
  | delete_zone _ => (None, S served)
  | delete_dns_record _ _ => (None, S served)
  | set_zone_settings _ _ => (None, S served)
  end.

Definition example_user : UserObj :=
  mkUser (VStr "ops@example.com") example_service (Some [0; 1]).

(** A zone whose records index has been built ... *)
Definition example_zone : ZoneObj :=
  mkZone 0 example_service
         (blob [("id", VStr "z1"); ("name", VStr "example.com")])
         None (Some [(VStr "www", [0])]).

(** ... and one whose index has not. *)
Definition example_zone_unread : ZoneObj :=
  mkZone 0 example_service
         (blob [("id", VStr "z2"); ("name", VStr "example.org")]) None None.

(** A record of the first zone, with a pending rename. *)
Definition example_record_data : dict :=
  blob [("id", VStr "r0"); ("name", VStr "www"); ("type", VStr "A");
        ("content", VStr "3.3.3.3"); ("ttl", VInt 1)].

Definition example_record : RecordObj :=
  mkRecord (Obj 0) (Obj example_service) (Obj example_record_data)
           (Obj (blob [("name", VStr "web")])).

Definition example_descriptors : pydict dict :=
  [ (VStr "always_online",
     blob [("id", VStr "always_online"); ("value", VStr "on");
           ("editable", VBool true)]);
    (VStr "plan",
     blob [("id", VStr "plan"); ("value", VStr "free");
           ("editable", VBool false)]) ].

(** Settings with no pending edit, settings with one ... *)
Definition example_settings : SettingsObj :=
  mkSettings (Obj 0) (Obj example_service) (Obj example_descriptors) (Obj ∅).

Definition example_settings_edited : SettingsObj :=
  mkSettings (Obj 0) (Obj example_service) (Obj example_descriptors)
             (Obj (blob [("always_online", VStr "off")])).

(** ... and settings among which the provider lists one called [zone]. *)
Definition example_settings_odd : SettingsObj :=
  mkSettings (Obj 0) (Obj example_service)
             (Obj [(VStr "zone",
                    blob [("id", VStr "zone"); ("value", VStr "apex");
                          ("editable", VBool false)])])
             (Obj ∅).

Definition example_world : world (server := nat) :=
  mkWorld {[ 0 := example_user ]}
          (<[ 1 := example_zone_unread ]> {[ 0 := example_zone ]})
          (<[ 2 := example_settings_odd ]>
             (<[ 1 := example_settings_edited ]> {[ 0 := example_settings ]}))
          {[ 0 := example_record ]}
          0 [].

(** ** More of the module *)

Section models_more.
Context {server : Type}.
Variable remote : ∀ q : request, service → server → response q * server.

Notation "x <- m ;; k" := (bind (server := server) m (λ x, k))
  (at level 100, m at next level, right associativity).

(** [User(email, api_key)]: [self.email = email] and
    [self.service = CloudFlareService(api_key, email)]; nothing is cached
    yet. *)
Definition new_User (email api_key : value) : M (server := server) loc :=
  λ w, let u := fresh (dom (w_users w)) in
       (Ok u, with_users (insert u (mkUser email (CloudFlareService api_key email) None)) w).

(** [sorted(xs)]: the stable sort by [<] on the items themselves. *)
Definition sorted_values (xs : list value) : result (list value) :=
  match sort_decorated py_lt ((λ x, (x, tt)) <$> xs) with
  | Ok r => Ok (r.*1)
  | Raise e => Raise e
  | Wrong => Wrong
  end.

(** Iterating a [str] yields its characters. A string is a sequence of
    bytes here, which are the characters of ASCII text. *)
Definition characters (t : string) : list value :=
  (λ c, VStr (String c EmptyString)) <$> String.list_ascii_of_string t.

(** [ZoneSettings.__iter__]: [iter(sorted(self._settings))] *)
Definition ZoneSettings_iter (s : loc) : M (server := server) (list value) :=
  so <- get_settings s ;;
  match s_settings so with
  | Obj st => lift (sorted_values (st.*1))
  | Raw (VStr t) => lift (sorted_values (characters t))
  | Raw _ => raise TypeError
  end.

(** The record [r] has the sort key [k], up to [==]: its [type] and its
    [content] read as values equal to those of [k]. *)
Definition keyed_as (w : world (server := server)) (k : value * value) (r : loc) : Prop :=
  match (Record_sort_key r w).1 with
  | Ok key => py_eq key.1.1 k.1 = true ∧ py_eq key.1.2 k.2 = true
  | _ => False
  end.

#[global] Instance keyed_as_dec w k r : Decision (keyed_as w k r).
Proof. unfold keyed_as. destruct (Record_sort_key r w).1; apply _. Defined.

(** Code that leaves one component of the store (the zones, the users,
    ...) as it found it. *)
Definition preserves {X A} (part : world (server := server) → X)
    (m : M (server := server) A) : Prop :=
  ∀ w, part (m w).2 = part w.

End models_more.

(** ** Reading an attribute *)

(** What a read [obj.name] evaluates to, for [obj] a [Record] or a
    [ZoneSettings]: one of the four attributes that [__init__] sets, a
    function of the class bound to the object, an attribute that every
    object has, or what [__getattr__] returned. *)
Inductive attribute : Type :=
| TheZone (z : slot loc)
| TheService (svc : slot service)
| TheDict (d : slot dict)
| TheSettings (st : slot (pydict dict))
| BoundMethod (name : string)
| Inherited (name : string)
| Value (v : value).

(** The functions that the body of [class Record] defines. The class
    attribute [_data = ()] is hidden by the instance attribute of the same
    name. *)
Definition Record_methods : list string :=
  ["__init__"; "__getattr__"; "__setattr__"; "save"; "delete"; "__repr__"].

(** The functions that the body of [class ZoneSettings] defines. *)
Definition ZoneSettings_methods : list string :=
  ["__init__"; "_get_settings"; "__getattr__"; "__setattr__"; "save"; "__iter__";
   "__repr__"].

Section attribute_lookup.
Context {server : Type}.

(** The names that a read finds on every instance without the class body
    defining them: the attributes of [object], and those that the class
    statement adds ([__dict__], [__module__], ...). *)
Variable object_has : string → bool.

Notation "x <- m ;; k" := (bind (server := server) m (λ x, k))
  (at level 100, m at next level, right associativity).

(** [record.name]: the attributes of the instance, then those of the class
    and of [object]; [Record.__getattr__] is called when none of them has
    the name. *)
Definition Record_read (name : string) (r : loc) : M (server := server) attribute :=
  ro <- get_record r ;;
  if decide (name = "zone") then ret (TheZone (r_zone ro))
  else if decide (name = "service") then ret (TheService (r_service ro))
  else if decide (name = "_data") then ret (TheDict (r_data ro))
  else if decide (name = "_updates") then ret (TheDict (r_updates ro))
  else if bool_decide (name ∈ Record_methods) then ret (BoundMethod name)
  else if object_has name then ret (Inherited name)
  else v <- Record_getattr name r ;; ret (Value v).

(** [settings.name], in the same way, with [ZoneSettings.__getattr__]. *)
Definition ZoneSettings_read (name : string) (s : loc) : M (server := server) attribute :=
  so <- get_settings s ;;
  if decide (name = "zone") then ret (TheZone (s_zone so))
  else if decide (name = "service") then ret (TheService (s_service so))
  else if decide (name = "_settings") then ret (TheSettings (s_settings so))
  else if decide (name = "_updates") then ret (TheDict (s_updates so))
  else if bool_decide (name ∈ ZoneSettings_methods) then ret (BoundMethod name)
  else if object_has name then ret (Inherited name)
  else v <- ZoneSettings_getattr name s ;; ret (Value v).

End attribute_lookup.

(** The attributes of [object], with those that a class statement adds, in
    CPython 3. *)
Definition object_attributes : list string :=
  ["__class__"; "__delattr__"; "__dict__"; "__dir__"; "__doc__"; "__eq__";
   "__format__"; "__ge__"; "__getattribute__"; "__getstate__"; "__gt__";
   "__hash__"; "__init_subclass__"; "__le__"; "__lt__"; "__module__"; "__ne__";
   "__new__"; "__reduce__"; "__reduce_ex__"; "__sizeof__"; "__str__";
   "__subclasshook__"; "__weakref__"].

Definition object_has_attribute (name : string) : bool :=
  bool_decide (name ∈ object_attributes).

(** Two sort keys that [==] does not tell apart. *)
Definition same_key (a b : value * value) : Prop :=
  py_eq a.1 b.1 = true ∧ py_eq a.2 b.2 = true.

#[global] Instance same_key_dec a b : Decision (same_key a b).
Proof. unfold same_key. apply _. Defined.

(** The id under which [_get_settings] files a listed setting. *)
Definition setting_id (setting : dict) : value := default VNone (setting !! "id").

(** The snapshot that [_get_settings] builds from a listing, item by item. *)
Definition settings_snapshot (items : list dict) : pydict dict :=
  foldl (λ st setting, pd_insert (setting_id setting) setting st) [] items.

(** A provider that refuses every request. *)
Definition refusing_remote (q : request) (svc : service) (served : nat)
    : response q * nat :=
  match q as q' return response q' * nat with
  | get_zones => (([], Some (ServiceError 503)), S served)
  | get_dns_records _ => (([], Some (ServiceError 503)), S served)
  | get_zone_settings _ => (([], Some (ServiceError 503)), S served)
  | create_dns_record _ _ => (inl (ServiceError 503), S served)
  | update_dns_record _ _ _ => (inl (ServiceError 503), S served)
  | delete_zone _ => (Some (ServiceError 503), S served)
  | delete_dns_record _ _ => (Some (ServiceError 503), S served)
  | set_zone_settings _ _ => (Some (ServiceError 503), S served)
  end.

(** A provider that accepts a bulk update of settings and then fails while
    listing them, after the first two. *)
Definition flaky_remote (q : request) (svc : service) (served : nat)
    : response q * nat :=
  match q as q' return response q' * nat with
  | get_zone_settings _ => ((example_setting_blobs, Some (ServiceError 502)), S served)
  | get_dns_records _ =>
      ((take 2 example_listing ++ [blob [("id", VStr "r5"); ("type", VStr "A")]], None),
       S served)
  | q' => example_remote q' svc served
  end.

(** A record with a pending edit that is no rename, and one with none. *)
Definition example_record_retimed : RecordObj :=
  mkRecord (Obj 0) (Obj example_service) (Obj example_record_data)
           (Obj (blob [("ttl", VInt 300)])).

Definition example_record_clean : RecordObj :=
  mkRecord (Obj 0) (Obj example_service) (Obj example_record_data) (Obj ∅).

(** Settings with a descriptor that has neither [value] nor [editable]. *)
Definition example_settings_bare : SettingsObj :=
  mkSettings (Obj 0) (Obj example_service)
             (Obj [(VStr "beta", blob [("id", VStr "beta")])]) (Obj ∅).

(** A user whose zones were not read yet. *)
Definition example_user_new : UserObj :=
  mkUser (VStr "dev@example.com")
         (CloudFlareService (VStr "k3y2") (VStr "dev@example.com")) None.

(** A record of another type. *)
Definition example_record_text : RecordObj :=
  mkRecord (Obj 0) (Obj example_service)
           (Obj (blob [("id", VStr "r9"); ("name", VStr "www"); ("type", VStr "TXT");
                       ("content", VStr "v=spf1 -all")]))
           (Obj ∅).

Definition example_world_more : world (server := nat) :=
  with_users (insert 1 example_user_new)
    (with_settings (insert 3 example_settings_bare)
       (with_records
          (λ rs, <[ 3 := example_record_text ]>
                   (<[ 2 := example_record_clean ]> (<[ 1 := example_record_retimed ]> rs)))
          example_world)).

(** * Properties *)

(** ** The sort on examples *)

Example sort_decorated_strings :
  sort_decorated tuple_lt
    [((VStr "MX", VStr "b"), 1%nat); ((VStr "A", VStr "z"), 2%nat);
     ((VStr "MX", VStr "a"), 3%nat); ((VStr "A", VStr "z"), 4%nat)]
  = Ok [((VStr "A", VStr "z"), 2%nat); ((VStr "A", VStr "z"), 4%nat);
        ((VStr "MX", VStr "a"), 3%nat); ((VStr "MX", VStr "b"), 1%nat)].
Proof. reflexivity. Qed.

Example sort_decorated_mixed :
  sort_decorated tuple_lt
    [((VStr "A", VInt 1), 1%nat); ((VStr "A", VStr "x"), 2%nat)]
  = Raise TypeError.
Proof. reflexivity. Qed.

(** ** The order that [sort] compares keys with *)

Lemma string_ltb_false_leb s t : String.ltb t s = false ↔ String.leb s t = true.
Proof.
  unfold String.ltb, String.leb. rewrite (String.compare_antisym t s).
  destruct (String.compare s t); simpl; split; congruence.
Qed.

Lemma string_nlt_trans s t u :
  String.ltb t s = false → String.ltb u t = false → String.ltb u s = false.
Proof.
  rewrite !string_ltb_false_leb. intros H1 H2.
  apply Is_true_true. apply Is_true_true in H1, H2.
  exact (transitivity (R := String.le) H1 H2).
Qed.

Lemma string_nlt_antisym s t :
  String.ltb t s = false → String.ltb s t = false → s = t.
Proof.
  rewrite !string_ltb_false_leb. intros H1 H2. by apply String.leb_antisym.
Qed.

Lemma string_lt_asym s t : String.ltb s t = true → String.ltb t s = false.
Proof.
  unfold String.ltb. rewrite (String.compare_antisym t s).
  destruct (String.compare s t); simpl; congruence.
Qed.

Lemma string_lt_irrefl s : String.ltb s s = false.
Proof.
  destruct (String.ltb s s) eqn:H; [|done].
  by rewrite (string_lt_asym _ _ H) in H.
Qed.

(** Splits on the shapes of the values in the goal and turns the boolean
    comparisons of integers and strings into propositions. *)
Ltac by_shape :=
  repeat match goal with
         | b : bool |- _ => destruct b
         | v : value |- _ => destruct v as [| [] | ? | ?]
         end;
  cbn [py_eq py_lt as_num Z.b2z]; try done;
  repeat match goal with
         | |- _ → _ => intros ?
         | H : Ok _ = Ok _ |- _ => injection H as H
         | H : String.eqb _ _ = true |- _ => apply String.eqb_eq in H; subst
         | H : String.eqb _ _ = false |- _ => apply String.eqb_neq in H
         | H : Z.eqb _ _ = true |- _ => apply Z.eqb_eq in H
         | H : Z.eqb _ _ = false |- _ => apply Z.eqb_neq in H
         | H : Z.ltb _ _ = true |- _ => apply Z.ltb_lt in H
         | H : Z.ltb _ _ = false |- _ => apply Z.ltb_ge in H
         end;
  try done;
  repeat match goal with
         | |- Ok _ = Ok _ => f_equal
         | |- Z.eqb _ _ = true => apply Z.eqb_eq
         | |- Z.eqb _ _ = false => apply Z.eqb_neq
         | |- Z.ltb _ _ = true => apply Z.ltb_lt
         | |- Z.ltb _ _ = false => apply Z.ltb_ge
         | |- String.eqb _ _ = true => apply String.eqb_eq
         | |- String.eqb _ _ = false => apply String.eqb_neq
         end;
  try done; try lia.

Lemma py_eq_refl a : py_eq a a = true.
Proof. by_shape; by rewrite ?String.eqb_refl. Qed.

Lemma py_eq_sym a b : py_eq a b = py_eq b a.
Proof.
  destruct a as [| [] | m | s], b as [| [] | n | t];
    cbn [py_eq as_num Z.b2z]; try done; try apply Z.eqb_sym.
  apply String.eqb_sym.
Qed.

Lemma py_eq_trans a b c : py_eq a b = true → py_eq b c = true → py_eq a c = true.
Proof. by_shape. Qed.

Lemma py_lt_eq_l a b c : py_eq a b = true → py_lt a c = py_lt b c.
Proof. by_shape; f_equal; lia. Qed.

Lemma py_lt_eq_r a b c : py_eq a b = true → py_lt c a = py_lt c b.
Proof. by_shape; f_equal; lia. Qed.

Lemma py_lt_asym a b : py_lt a b = Ok true → py_lt b a = Ok false.
Proof. by_shape. by apply string_lt_asym. Qed.

Lemma py_lt_neq a b : py_lt a b = Ok true → py_eq a b = false.
Proof.
  by_shape. intros ->.
  match goal with H : String.ltb _ _ = true |- _ =>
    by rewrite string_lt_irrefl in H end.
Qed.

Lemma py_nlt_trans a b c :
  py_lt b a = Ok false → py_lt c b = Ok false → py_lt c a = Ok false.
Proof. by_shape. eauto using string_nlt_trans. Qed.

Lemma py_nlt_antisym a b :
  py_lt b a = Ok false → py_lt a b = Ok false → py_eq a b = true.
Proof. by_shape. eauto using string_nlt_antisym. Qed.

Lemma tuple_lt_asym a b : tuple_lt a b = Ok true → tuple_lt b a = Ok false.
Proof.
  destruct a as [a1 a2], b as [b1 b2]. unfold tuple_lt. cbn [fst snd].
  rewrite (py_eq_sym b1 a1), (py_eq_sym b2 a2).
  destruct (py_eq a1 b1); [destruct (py_eq a2 b2); [done|]|]; apply py_lt_asym.
Qed.

Lemma key_le_trans a b c : key_le a b → key_le b c → key_le a c.
Proof.
  destruct a as [a1 a2], b as [b1 b2], c as [c1 c2].
  unfold key_le, not_after, tuple_lt. cbn [fst snd].
  destruct (py_eq b1 a1) eqn:Hba1, (py_eq c1 b1) eqn:Hcb1.
  - rewrite (py_eq_trans _ _ _ Hcb1 Hba1).
    destruct (py_eq b2 a2) eqn:Hba2, (py_eq c2 b2) eqn:Hcb2.
    + by rewrite (py_eq_trans _ _ _ Hcb2 Hba2).
    + intros _ H. rewrite <- (py_lt_eq_r _ _ c2 Hba2). by destruct (py_eq c2 a2).
    + intros H _. rewrite (py_lt_eq_l _ _ a2 Hcb2). by destruct (py_eq c2 a2).
    + intros H1 H2. rewrite (py_nlt_trans _ _ _ H1 H2). by destruct (py_eq c2 a2).
  - intros _ H. rewrite <- (py_lt_eq_r _ _ c1 Hba1).
    destruct (py_eq c1 a1) eqn:Hca1; [|done].
    rewrite py_eq_sym in Hba1.
    by rewrite (py_eq_trans _ _ _ Hca1 Hba1) in Hcb1.
  - intros H _. rewrite (py_lt_eq_l _ _ a1 Hcb1).
    destruct (py_eq c1 a1) eqn:Hca1; [|done].
    rewrite py_eq_sym in Hcb1.
    by rewrite (py_eq_trans _ _ _ Hcb1 Hca1) in Hba1.
  - intros H1 H2. rewrite (py_nlt_trans _ _ _ H1 H2).
    destruct (py_eq c1 a1) eqn:Hca1; [|done].
    rewrite (py_lt_eq_l _ _ b1 Hca1) in H2.
    pose proof (py_nlt_antisym _ _ H2 H1) as Hab. by rewrite Hab in Hba1.
Qed.

(** ** The insertion sort *)

Section sort_facts.
Context {A K : Type} (lt : K → K → result bool).
Hypothesis lt_asym : ∀ a b, lt a b = Ok true → lt b a = Ok false.
Hypothesis le_trans : ∀ a b c,
  not_after lt a b → not_after lt b c → not_after lt a c.

Lemma insert_sorted_perm (x : K * A) l r :
  insert_sorted lt x l = Ok r → r ≡ₚ x :: l.
Proof.
  revert r. induction l as [|y l IH]; intros r; simpl.
  - by intros [= <-].
  - destruct (lt y.1 x.1) as [[|] | e |]; try done.
    + destruct (insert_sorted lt x l) as [r' | e |]; try done.
      intros [= <-]. rewrite (IH r' eq_refl). apply Permutation_swap.
    + by intros [= <-].
Qed.

Lemma insert_sorted_sorted (x : K * A) l r :
  insert_sorted lt x l = Ok r →
  StronglySorted (not_after lt) (l.*1) → StronglySorted (not_after lt) (r.*1).
Proof.
  revert r. induction l as [|y l IH]; intros r; simpl.
  - intros [= <-] _. repeat constructor.
  - destruct (lt y.1 x.1) as [[|] | e |] eqn:Hlt; try done.
    + destruct (insert_sorted lt x l) as [r' | e |] eqn:Hins; try done.
      intros [= <-] Hs. apply StronglySorted_inv in Hs as [Hs Hall].
      simpl. constructor; [by apply IH|].
      apply insert_sorted_perm in Hins. rewrite Hins. simpl.
      constructor; [by apply lt_asym | done].
    + intros [= <-] Hs. simpl. constructor; [done|].
      constructor; [done|].
      apply StronglySorted_inv in Hs as [_ Hall].
      eapply Forall_impl; [exact Hall|]. intros z Hz. by eapply le_trans.
Qed.

Lemma sort_decorated_perm (l r : list (K * A)) :
  sort_decorated lt l = Ok r → r ≡ₚ l.
Proof.
  revert r. induction l as [|x l IH]; intros r; simpl.
  - by intros [= <-].
  - destruct (sort_decorated lt l) as [r' | e |]; try done.
    intros Hins. rewrite (insert_sorted_perm _ _ _ Hins). by rewrite (IH r').
Qed.

Lemma sort_decorated_sorted (l r : list (K * A)) :
  sort_decorated lt l = Ok r → StronglySorted (not_after lt) (r.*1).
Proof.
  revert r. induction l as [|x l IH]; intros r; simpl.
  - intros [= <-]. constructor.
  - destruct (sort_decorated lt l) as [r' | e |]; try done.
    intros Hins. eapply insert_sorted_sorted; eauto.
Qed.
End sort_facts.

(** ** Dicts keyed by scalars *)

Section pydict_facts.
Context {A : Type}.
Implicit Types (d : pydict A) (k : value).

Lemma pd_lookup_upsert f k k' d :
  pd_lookup k (pd_upsert f k' d)
  = if py_eq k' k then Some (f (pd_lookup k d)) else pd_lookup k d.
Proof.
  induction d as [|[k0 a] d IH]; simpl.
  - by destruct (py_eq k' k).
  - destruct (py_eq k0 k') eqn:H0; simpl.
    + destruct (py_eq k' k) eqn:H1.
      * by rewrite (py_eq_trans _ _ _ H0 H1).
      * destruct (py_eq k0 k) eqn:H2; [|done].
        rewrite py_eq_sym in H0. by rewrite (py_eq_trans _ _ _ H0 H2) in H1.
    + rewrite IH. destruct (py_eq k0 k) eqn:H2; [|done].
      destruct (py_eq k' k) eqn:H1; [|done].
      rewrite py_eq_sym in H1. by rewrite (py_eq_trans _ _ _ H2 H1) in H0.
Qed.

Lemma pd_lookup_elem_of k d a :
  pd_lookup k d = Some a → ∃ k0, (k0, a) ∈ d ∧ py_eq k0 k = true.
Proof.
  induction d as [|[k0 a0] d IH]; simpl; [done|].
  destruct (py_eq k0 k) eqn:H0.
  - intros [= <-]. exists k0. split; [left | done].
  - intros H. destruct (IH H) as (k1 & Hin & Heq). exists k1. split; [by right | done].
Qed.
End pydict_facts.

Section properties.
Context {server : Type}.
Variable remote : ∀ q : request, service → server → response q * server.

Implicit Types (w : world (server := server)) (v : value).
Local Abbreviation M := (M (server := server)).
Local Abbreviation readonly := (@readonly server _).
Local Abbreviation quiet := (@quiet server _).

(** Runs the straight-line part of a method on a store whose relevant
    objects are known. *)
Ltac run :=
  repeat first
    [ progress
        cbv beta delta
          [bind ret raise lift get_user get_zone get_settings get_record
           put_record put_settings set_cache_zones set_cache_records
           set_cache_settings returned completed Zone_getattr]
    | progress
        cbn beta iota zeta delta
          [slot_contains slot_getitem slot_setitem slot_object slot_truthy
           fst snd w_users w_zones w_settings w_records w_remote w_log
           with_users with_zones with_settings with_records]
    | match goal with
      | H : ?x = _ |- context [?x] => rewrite H
      end ].

Lemma dict_has_true name (d : dict) v : d !! name = Some v → dict_has name d = true.
Proof. intros H. unfold dict_has. rewrite H. apply bool_decide_eq_true_2. eauto. Qed.

Lemma dict_has_false name (d : dict) : d !! name = None → dict_has name d = false.
Proof.
  intros H. unfold dict_has. rewrite H. apply bool_decide_eq_false_2.
  by intros [? ?].
Qed.

Lemma settings_has_true name (st : pydict dict) x :
  pd_lookup (VStr name) st = Some x → settings_has name st = true.
Proof. intros H. unfold settings_has. rewrite H. apply bool_decide_eq_true_2. eauto. Qed.

Lemma settings_has_false name (st : pydict dict) :
  pd_lookup (VStr name) st = None → settings_has name st = false.
Proof.
  intros H. unfold settings_has. rewrite H. apply bool_decide_eq_false_2.
  by intros [? ?].
Qed.

(** ** Stepping through sequences and loops *)

Lemma bind_Ok {A B} (m : M A) (k : A → M B) w a w1 :
  m w = (Ok a, w1) → bind m k w = k a w1.
Proof. intros H. unfold bind. by rewrite H. Qed.

Lemma bind_Ok_inv {A B} (m : M A) (k : A → M B) w b w2 :
  bind m k w = (Ok b, w2) → ∃ a w1, m w = (Ok a, w1) ∧ k a w1 = (Ok b, w2).
Proof.
  unfold bind. destruct (m w) as [[a | e |] w1]; intros H; [eauto | done | done].
Qed.

Lemma for_each_cons {A B} (x : A) items (body : B → A → M B) acc w a w1 :
  body acc x w = (Ok a, w1) →
  for_each (x :: items) body acc w = for_each items body a w1.
Proof. intros H. simpl. by apply bind_Ok. Qed.

(** ** Code that reads the store only, and code that sends no request *)

Lemma readonly_quiet {A} (m : M A) : readonly m → quiet m.
Proof. intros H w. by rewrite H. Qed.

Lemma readonly_ret {A} (a : A) : readonly (ret a).
Proof. done. Qed.

Lemma readonly_raise {A} e : readonly (raise (A := A) e).
Proof. done. Qed.

Lemma readonly_lift {A} (x : result A) : readonly (lift x).
Proof. done. Qed.

Lemma readonly_bind {A B} (m : M A) (k : A → M B) :
  readonly m → (∀ a, readonly (k a)) → readonly (bind m k).
Proof.
  intros Hm Hk w. unfold bind. specialize (Hm w).
  destruct (m w) as [[a | e |] w1]; simpl in *; subst; [apply Hk | done | done].
Qed.

Lemma quiet_bind {A B} (m : M A) (k : A → M B) :
  quiet m → (∀ a, quiet (k a)) → quiet (bind m k).
Proof.
  intros Hm Hk w. unfold bind. specialize (Hm w).
  destruct (m w) as [[a | e |] w1]; simpl in *; [|done|done].
  destruct (Hk a w1) as [-> ->]. done.
Qed.

Lemma readonly_for_each {A B} (items : list A) (body : B → A → M B) acc :
  (∀ acc x, readonly (body acc x)) → readonly (for_each items body acc).
Proof.
  intros Hbody. revert acc. induction items as [|x items IH]; intros acc; simpl.
  - apply readonly_ret.
  - apply readonly_bind; [apply Hbody | intros a; apply IH].
Qed.

Lemma quiet_for_each {A B} (items : list A) (body : B → A → M B) acc :
  (∀ acc x, quiet (body acc x)) → quiet (for_each items body acc).
Proof.
  intros Hbody. revert acc. induction items as [|x items IH]; intros acc; simpl.
  - apply readonly_quiet, readonly_ret.
  - apply quiet_bind; [apply Hbody | intros a; apply IH].
Qed.

Lemma quiet_for_listing {A B} (l : list A * option exn) (body : B → A → M B) acc :
  (∀ acc x, quiet (body acc x)) → quiet (for_listing l body acc).
Proof.
  intros Hbody. apply quiet_bind; [by apply quiet_for_each|].
  intros a. destruct l.2; by apply readonly_quiet.
Qed.

Lemma readonly_get_zone z : readonly (get_zone z).
Proof. done. Qed.

Lemma readonly_get_user u : readonly (get_user u).
Proof. done. Qed.

Lemma readonly_get_record r : readonly (get_record r).
Proof. done. Qed.

Lemma readonly_get_settings s : readonly (get_settings s).
Proof. done. Qed.

Lemma readonly_Record_getattr name r : readonly (Record_getattr name r).
Proof.
  apply readonly_bind; [done|]. intros ro.
  apply readonly_bind; [done|]. intros [|]; [done|].
  apply readonly_bind; [done|]. by intros [|].
Qed.

Lemma readonly_Record_sort_key r : readonly (Record_sort_key r).
Proof.
  apply readonly_bind; [apply readonly_Record_getattr|]. intros t.
  apply readonly_bind; [apply readonly_Record_getattr|]. done.
Qed.

Lemma readonly_sort_records l : readonly (sort_records l).
Proof.
  apply readonly_bind.
  - apply readonly_for_each. intros acc r.
    apply readonly_bind; [apply readonly_Record_sort_key | done].
  - intros keyed. apply readonly_bind; done.
Qed.

Lemma quiet_new_Record z data : quiet (new_Record z data).
Proof. apply quiet_bind; [by apply readonly_quiet | done]. Qed.

Lemma quiet_new_Zone u data : quiet (new_Zone u data).
Proof. apply quiet_bind; [by apply readonly_quiet | done]. Qed.

(** ** Reading attributes *)

Lemma Record_getattr_staged w r ro u name v :
  w_records w !! r = Some ro → r_updates ro = Obj u → u !! name = Some v →
  Record_getattr name r w = (Ok v, w).
Proof.
  intros Hr Hu Hv. unfold Record_getattr. run.
  rewrite (dict_has_true _ _ _ Hv). run. done.
Qed.

Lemma Record_getattr_fetched w r ro u d name v :
  w_records w !! r = Some ro → r_updates ro = Obj u → u !! name = None →
  r_data ro = Obj d → d !! name = Some v →
  Record_getattr name r w = (Ok v, w).
Proof.
  intros Hr Hu Hn Hd Hv. unfold Record_getattr. run.
  rewrite (dict_has_false _ _ Hn). run.
  rewrite (dict_has_true _ _ _ Hv). run. done.
Qed.

Lemma Record_getattr_unknown w r ro u d name :
  w_records w !! r = Some ro → r_updates ro = Obj u → u !! name = None →
  r_data ro = Obj d → d !! name = None →
  Record_getattr name r w = (Raise AttributeError, w).
Proof.
  intros Hr Hu Hn Hd Hv. unfold Record_getattr. run.
  rewrite (dict_has_false _ _ Hn). run.
  rewrite (dict_has_false _ _ Hv). run. done.
Qed.

(** What [self.id] evaluates to on a record: the staged value first. *)
Lemma Record_getattr_union w r ro u d name v :
  w_records w !! r = Some ro → r_updates ro = Obj u → r_data ro = Obj d →
  (u ∪ d) !! name = Some v →
  Record_getattr name r w = (Ok v, w).
Proof.
  intros Hr Hu Hd Hv. apply lookup_union_Some_raw in Hv as [Hv | [Hn Hv]].
  - eapply Record_getattr_staged; eauto.
  - eapply Record_getattr_fetched; eauto.
Qed.

Lemma ZoneSettings_getattr_staged w s so u name v :
  w_settings w !! s = Some so → s_updates so = Obj u → u !! name = Some v →
  ZoneSettings_getattr name s w = (Ok v, w).
Proof.
  intros Hs Hu Hv. unfold ZoneSettings_getattr. run.
  rewrite (dict_has_true _ _ _ Hv). run. done.
Qed.

Lemma ZoneSettings_getattr_fetched w s so u st name setting v :
  w_settings w !! s = Some so → s_updates so = Obj u → u !! name = None →
  s_settings so = Obj st → pd_lookup (VStr name) st = Some setting →
  setting !! "value" = Some v →
  ZoneSettings_getattr name s w = (Ok v, w).
Proof.
  intros Hs Hu Hn Hst Hl Hv. unfold ZoneSettings_getattr. run.
  rewrite (dict_has_false _ _ Hn). run.
  rewrite (settings_has_true _ _ _ Hl). run. done.
Qed.

Lemma ZoneSettings_getattr_unknown w s so u st name :
  w_settings w !! s = Some so → s_updates so = Obj u → u !! name = None →
  s_settings so = Obj st → pd_lookup (VStr name) st = None →
  ZoneSettings_getattr name s w = (Raise AttributeError, w).
Proof.
  intros Hs Hu Hn Hst Hl. unfold ZoneSettings_getattr. run.
  rewrite (dict_has_false _ _ Hn). run.
  rewrite (settings_has_false _ _ Hl). run. done.
Qed.

(** ** Writing attributes *)

Lemma not_own_attribute (names : list string) name :
  name ∉ names → bool_decide (name ∈ names) = false.
Proof. intros H. by apply bool_decide_eq_false_2. Qed.

(** C5, amended. For a [Record] and a name other than its four own
    attributes ([zone], [service], [_data], [_updates]): writing a name that
    is absent from the snapshot raises [AttributeError] and leaves the whole
    store, the pending edits included, as it was; writing a name that is in
    the snapshot stages the value in the pending edits, and neither the log
    of requests nor the remote state changes. *)
Theorem Record_setattr_field w r ro d name v :
  w_records w !! r = Some ro →
  name ∉ Record_own_attributes →
  r_data ro = Obj d →
  (d !! name = None → Record_setattr name v r w = (Raise AttributeError, w)) ∧
  (is_Some (d !! name) → ∀ u, r_updates ro = Obj u →
     ∃ w', Record_setattr name v r w = (Ok tt, w') ∧
           w_records w' =
             <[r := mkRecord (r_zone ro) (r_service ro) (r_data ro)
                             (Obj (<[name := v]> u))]> (w_records w) ∧
           w_log w' = w_log w ∧ w_remote w' = w_remote w ∧
           w_zones w' = w_zones w ∧ w_users w' = w_users w ∧
           w_settings w' = w_settings w).
Proof.
  intros Hr Hown Hd. split.
  - intros Hn. unfold Record_setattr. run.
    rewrite (not_own_attribute _ _ Hown). run.
    rewrite (dict_has_false _ _ Hn). run. done.
  - intros [x Hx] u Hu. eexists. split.
    + unfold Record_setattr. run.
      rewrite (not_own_attribute _ _ Hown). run.
      rewrite (dict_has_true _ _ _ Hx). run. reflexivity.
    + simpl. by rewrite Hd.
Qed.

(** C4, amended. For a [ZoneSettings] and a setting-id other than its four
    own attributes ([zone], [service], [_settings], [_updates]) that is in
    the fetched snapshot with a false [editable] flag: writing it raises
    [ValueError] and leaves the whole store as it was, so the pending edits
    are unchanged and no request is logged. *)
Theorem ZoneSettings_setattr_not_editable w s so st name v setting editable :
  w_settings w !! s = Some so →
  name ∉ ZoneSettings_own_attributes →
  s_settings so = Obj st →
  pd_lookup (VStr name) st = Some setting →
  setting !! "editable" = Some editable →
  truthy editable = false →
  ZoneSettings_setattr name v s w = (Raise ValueError, w).
Proof.
  intros Hs Hown Hst Hl He Ht. unfold ZoneSettings_setattr. run.
  rewrite (not_own_attribute _ _ Hown). run.
  rewrite (settings_has_true _ _ _ Hl). run. done.
Qed.

(** ** Saving *)

(** C7. [ZoneSettings.save] with no pending edit returns at once: the store,
    the log of requests and the remote state are all unchanged. *)
Theorem ZoneSettings_save_nothing_pending w s so :
  w_settings w !! s = Some so →
  s_updates so = Obj ∅ →
  ZoneSettings_save remote s w = (Ok tt, w).
Proof.
  intros Hs Hu. unfold ZoneSettings_save. run. done.
Qed.

(** C8. [Record.save] with pending edits sends them to the update endpoint
    under the zone's id and the record's id, in one request and no other;
    the response is merged into the snapshot key by key, so that a key of
    the response takes the response's value and a key absent from it keeps
    the snapshot's; the pending edits are then empty. *)
Theorem Record_save_merges_response w r ro svc z zo zid u d rid res s' :
  w_records w !! r = Some ro →
  r_service ro = Obj svc → r_zone ro = Obj z →
  w_zones w !! z = Some zo → z_data zo !! "id" = Some zid →
  r_updates ro = Obj u → u ≠ ∅ →
  r_data ro = Obj d →
  (u ∪ d) !! "id" = Some rid →
  remote (update_dns_record zid rid (Obj u)) svc (w_remote w) = (inr res, s') →
  ∃ w', Record_save remote r w = (Ok tt, w') ∧
        w_log w' = w_log w ++ [(svc, update_dns_record zid rid (Obj u))] ∧
        w_remote w' = s' ∧
        w_records w' !! r
          = Some (mkRecord (Obj z) (Obj svc) (Obj (res ∪ d)) (Obj ∅)) ∧
        (∀ k x, res !! k = Some x → (res ∪ d) !! k = Some x) ∧
        (∀ k, res !! k = None → (res ∪ d) !! k = d !! k).
Proof.
  intros Hr Hsvc Hz Hzo Hzid Hu Hne Hd Hrid Hrem.
  pose proof (Record_getattr_union _ _ _ _ _ _ _ Hr Hu Hd Hrid) as Hget.
  assert (dict_nonempty u = true) as Hnonempty.
  { unfold dict_nonempty. by rewrite bool_decide_eq_false_2. }
  destruct (dict_has "name" u) eqn:Hname;
    (eexists; split; [|split; [|split; [|split; [|split]]]];
     [ unfold Record_save; run; unfold call; run; reflexivity
     | reflexivity
     | reflexivity
     | simpl; by rewrite lookup_insert_eq
     | intros k x Hk; by apply lookup_union_Some_l
     | intros k Hk; by apply lookup_union_r ]).
Qed.

(** ** Creating records *)

Lemma py_eq_str a t : py_eq a (VStr t) = true ↔ a = VStr t.
Proof.
  destruct a as [| b | n | s]; simpl; try (split; [done | discriminate]).
  rewrite String.eqb_eq. split; [by intros -> | by intros [= ->]].
Qed.

Lemma create_record_data_fields (name type content ttl proxied priority : value) :
  let data := create_record_data name type content ttl proxied priority in
  (is_Some (data !! "priority") ↔ type = VStr "MX") ∧
  (type = VStr "MX" → data !! "priority" = Some priority) ∧
  data !! "name" = Some name ∧ data !! "type" = Some type ∧
  data !! "content" = Some content ∧ data !! "ttl" = Some ttl ∧
  data !! "proxied" = Some proxied.
Proof.
  unfold create_record_data.
  destruct (py_eq type (VStr "MX")) eqn:Hmx.
  - apply py_eq_str in Hmx as ->. cbv zeta.
    repeat split; try done; eauto.
  - assert (type ≠ VStr "MX") as Hne.
    { intros Heq. apply py_eq_str in Heq. congruence. }
    cbv zeta. repeat split; try done.
    intros [x Hx]. by simplify_map_eq.
Qed.

(** C3. Whatever the arguments of [Zone.create_record], the payload posted
    to the records endpoint has a [priority] field exactly when [type] is
    ["MX"] (and then it is the [priority] argument), and always has [name],
    [type], [content], [ttl] and [proxied] with the arguments' values. *)
Theorem create_record_payload w z zo zid
    (name type content ttl proxied priority : value) :
  w_zones w !! z = Some zo →
  z_data zo !! "id" = Some zid →
  ∃ data,
    w_log (Zone_create_record remote z name type content ttl proxied priority w).2
      = w_log w ++ [(z_service zo, create_dns_record zid data)] ∧
    (is_Some (data !! "priority") ↔ type = VStr "MX") ∧
    (type = VStr "MX" → data !! "priority" = Some priority) ∧
    data !! "name" = Some name ∧ data !! "type" = Some type ∧
    data !! "content" = Some content ∧ data !! "ttl" = Some ttl ∧
    data !! "proxied" = Some proxied.
Proof.
  intros Hz Hid.
  exists (create_record_data name type content ttl proxied priority).
  split; [|apply create_record_data_fields].
  unfold Zone_create_record. run. unfold call.
  destruct (remote _ _ _) as [[e | record] s']; run; [done|].
  unfold new_Record. run.
  destruct (alter _ z (w_zones w) !! z); run; done.
Qed.

(** ** Which record a save or a delete addresses *)

Lemma dict_nonempty_true (u : dict) : u ≠ ∅ → dict_nonempty u = true.
Proof. intros H. unfold dict_nonempty. by rewrite bool_decide_eq_false_2. Qed.

(** The one request of a [save] with pending edits. *)
Lemma Record_save_log w r ro svc z zo zid u rid :
  w_records w !! r = Some ro →
  r_service ro = Obj svc → r_zone ro = Obj z →
  w_zones w !! z = Some zo → z_data zo !! "id" = Some zid →
  r_updates ro = Obj u → u ≠ ∅ →
  Record_getattr "id" r w = (Ok rid, w) →
  w_log (Record_save remote r w).2
    = w_log w ++ [(svc, update_dns_record zid rid (Obj u))].
Proof.
  intros Hr Hsvc Hz Hzo Hzid Hu Hne Hget.
  pose proof (dict_nonempty_true _ Hne) as Hnonempty.
  unfold Record_save. run. unfold call.
  destruct (remote _ _ _) as [[e | res] s']; run; [done|].
  destruct (r_data ro); run; [|done].
  destruct (dict_has "name" u); run; done.
Qed.

(** The one request of a [delete]. *)
Lemma Record_delete_log w r ro svc z zo zid rid :
  w_records w !! r = Some ro →
  r_service ro = Obj svc → r_zone ro = Obj z →
  w_zones w !! z = Some zo → z_data zo !! "id" = Some zid →
  Record_getattr "id" r w = (Ok rid, w) →
  w_log (Record_delete remote r w).2
    = w_log w ++ [(svc, delete_dns_record zid rid)].
Proof.
  intros Hr Hsvc Hz Hzo Hzid Hget.
  unfold Record_delete. run. unfold call.
  destruct (remote _ _ _) as [[e|] s']; run; done.
Qed.

(** C10. Once an edit to [id] is staged on a record whose snapshot has an
    [id], [self.id] evaluates to the staged value, and the requests that
    [save] and [delete] then send carry the staged value as the record id,
    not the snapshot's. *)
Theorem staged_id_redirects_requests w r ro svc z zo zid u d old v :
  w_records w !! r = Some ro →
  r_service ro = Obj svc → r_zone ro = Obj z →
  w_zones w !! z = Some zo → z_data zo !! "id" = Some zid →
  r_updates ro = Obj u → r_data ro = Obj d →
  d !! "id" = Some old →
  ∃ w1, Record_setattr "id" v r w = (Ok tt, w1) ∧
        Record_getattr "id" r w1 = (Ok v, w1) ∧
        w_log (Record_save remote r w1).2
          = w_log w ++ [(svc, update_dns_record zid v (Obj (<["id" := v]> u)))] ∧
        w_log (Record_delete remote r w1).2
          = w_log w ++ [(svc, delete_dns_record zid v)].
Proof.
  intros Hr Hsvc Hz Hzo Hzid Hu Hd Hold.
  pose (ro1 := mkRecord (Obj z) (Obj svc) (Obj d) (Obj (<["id" := v]> u))).
  pose (w1 := with_records (insert r ro1) w).
  assert (w_records w1 !! r = Some ro1) as Hr1 by apply lookup_insert_eq.
  assert (Record_getattr "id" r w1 = (Ok v, w1)) as Hget.
  { eapply Record_getattr_staged; [exact Hr1 | reflexivity | apply lookup_insert_eq]. }
  exists w1. split; [|split; [done|split]].
  - unfold Record_setattr. run.
    assert (bool_decide ("id" ∈ Record_own_attributes) = false) as ->
      by reflexivity.
    rewrite (dict_has_true _ _ _ Hold). run. reflexivity.
  - change (w_log w) with (w_log w1).
    eapply Record_save_log; eauto. apply insert_non_empty.
  - change (w_log w) with (w_log w1).
    eapply Record_delete_log; eauto.
Qed.

(** ** Deleting a zone *)

Lemma fresh_lookup_None {A} (m : gmap loc A) : m !! fresh (dom m) = None.
Proof. apply not_elem_of_dom, is_fresh. Qed.

(** The loop of [User.iter_zones]: one new [Zone] per listed blob. *)
Lemma iter_zones_spec u uo items : ∀ acc w,
  w_users w !! u = Some uo →
  ∃ zs w',
    for_each items (λ acc zone, bind (new_Zone u zone) (λ z, ret (acc ++ [z]))) acc w
      = (Ok (acc ++ zs), w') ∧
    w_users w' = w_users w ∧ w_log w' = w_log w ∧ w_remote w' = w_remote w ∧
    w_zones w ⊆ w_zones w' ∧
    Forall2 (λ z item,
               w_zones w' !! z = Some (mkZone u (u_service uo) item None None) ∧
               w_zones w !! z = None) zs items.
Proof.
  induction items as [|item items IH]; intros acc w Hu.
  - exists [], w. rewrite app_nil_r. by repeat split.
  - set (z := fresh (dom (w_zones w))).
    set (w1 := with_zones (insert z (mkZone u (u_service uo) item None None)) w).
    destruct (IH (acc ++ [z]) w1 Hu) as (zs & w' & Hrun & Husers & Hlog & Hrem & Hsub & Hall).
    assert (w_zones w !! z = None) as Hfresh by apply fresh_lookup_None.
    assert (w_zones w ⊆ w_zones w1) as Hsub1 by by apply insert_subseteq.
    exists (z :: zs), w'. split; [|repeat split]; try done.
    + erewrite for_each_cons; [rewrite Hrun; by rewrite <- app_assoc|].
      unfold new_Zone. run. done.
    + by etrans.
    + constructor.
      * split; [|done]. eapply lookup_weaken; [|exact Hsub]. apply lookup_insert_eq.
      * eapply Forall2_impl; [exact Hall|]. intros z' item' [? Hnone]. split; [done|].
        eapply lookup_weaken_None; eauto.
Qed.

(** [User.zones] when nothing is cached: the listing is fetched, and the
    zones returned are new objects, one per listed blob. *)
Lemma User_zones_miss w u uo items fail s' :
  w_users w !! u = Some uo → u_zones uo = None →
  remote get_zones (u_service uo) (w_remote w) = ((items, fail), s') →
  ∃ zs w',
    User_zones remote u w
      = (match fail with None => Ok zs | Some e => Raise e end, w') ∧
    w_log w' = w_log w ++ [(u_service uo, get_zones)] ∧
    Forall2 (λ z item,
               w_zones w' !! z = Some (mkZone u (u_service uo) item None None) ∧
               w_zones w !! z = None) zs items.
Proof.
  intros Hu Hc Hrem.
  set (w0 := mkWorld (w_users w) (w_zones w) (w_settings w) (w_records w) s'
                     (w_log w ++ [(u_service uo, get_zones)])).
  destruct (iter_zones_spec u uo items [] w0 Hu)
    as (zs & w1 & Hrun & Husers & Hlog & Hrem1 & Hsub & Hall).
  exists zs. destruct fail as [e|].
  - exists w1. split; [|done].
    unfold User_zones.
    erewrite bind_Ok; [|unfold get_user; rewrite Hu; reflexivity].
    rewrite Hc.
    erewrite bind_Ok; [|unfold call; rewrite Hrem; reflexivity]. fold w0.
    unfold for_listing, bind at 1 2. cbn [fst snd]. by rewrite Hrun.
  - eexists. split; [|split].
    + unfold User_zones.
      erewrite bind_Ok; [|unfold get_user; rewrite Hu; reflexivity].
      rewrite Hc.
      erewrite bind_Ok; [|unfold call; rewrite Hrem; reflexivity]. fold w0.
      unfold for_listing, bind at 1 2. cbn [fst snd]. rewrite Hrun.
      reflexivity.
    + done.
    + done.
Qed.

(** C9. [Zone.delete] sends the zone-delete request with this zone's id and
    then drops the owning user's cached zone list: the user's next [zones]
    access sends a listing request and returns new zone objects, the deleted
    one not among them. No zone object of the store, this one included, is
    modified by [delete]. *)
Theorem Zone_delete_invalidates_zones w z zo zid uo s' :
  w_zones w !! z = Some zo →
  z_data zo !! "id" = Some zid →
  w_users w !! z_user zo = Some uo →
  remote (delete_zone zid) (z_service zo) (w_remote w) = (None, s') →
  ∃ w', Zone_delete remote z w = (Ok tt, w') ∧
        w_log w' = w_log w ++ [(z_service zo, delete_zone zid)] ∧
        w_zones w' = w_zones w ∧
        u_zones <$> (w_users w' !! z_user zo) = Some None ∧
        w_log (User_zones remote (z_user zo) w').2
          = w_log w' ++ [(u_service uo, get_zones)] ∧
        (∀ zs, (User_zones remote (z_user zo) w').1 = Ok zs → z ∉ zs).
Proof.
  intros Hz Hid Hu Hrem.
  eexists. split; [|split; [|split; [|split]]].
  - unfold Zone_delete. run. unfold call. rewrite Hrem. run. reflexivity.
  - done.
  - done.
  - simpl. rewrite lookup_alter_eq, Hu. done.
  - match goal with |- context [User_zones remote _ ?w'] => set (w1 := w') end.
    assert (w_users w1 !! z_user zo
              = Some (mkUser (u_email uo) (u_service uo) None)) as Hu1.
    { simpl. by rewrite lookup_alter_eq, Hu. }
    destruct (remote get_zones (u_service uo) (w_remote w1))
      as [[items fail] s''] eqn:Hrem1.
    destruct (User_zones_miss w1 _ _ items fail s'' Hu1 eq_refl Hrem1)
      as (zs & w2 & Hrun & Hlog & Hall).
    rewrite Hrun. split; [done|].
    intros zs' Hok. simpl in Hok. destruct fail; [done|]. injection Hok as <-.
    intros Hin. apply list_elem_of_lookup in Hin as [i Hi].
    destruct (Forall2_lookup_l _ _ _ _ _ Hall Hi) as (item & _ & _ & Hnone).
    simpl in Hnone. congruence.
Qed.

(** ** Building the records index *)

(** [Record.__getattr__] looks at the records of the store only. *)
Lemma Record_getattr_ext name r w1 w2 x :
  w_records w1 = w_records w2 →
  Record_getattr name r w1 = (x, w1) → Record_getattr name r w2 = (x, w2).
Proof.
  intros Heq. unfold Record_getattr, bind, get_record, lift, raise.
  rewrite Heq. destruct (w_records w2 !! r) as [ro|]; [|by intros [= <-]].
  destruct (slot_contains _ _ (r_updates ro)) as [[|] | e |];
    try (by intros [= <-]).
  destruct (slot_contains _ _ (r_data ro)) as [[|] | e |];
    by intros [= <-].
Qed.

Lemma Record_getattr_new w r z svc item name :
  w_records w !! r = Some (mkRecord (Obj z) (Obj svc) (Obj item) (Obj ∅)) →
  Record_getattr name r w
  = (match item !! name with Some v => Ok v | None => Raise AttributeError end, w).
Proof.
  intros Hr. destruct (item !! name) as [v|] eqn:Hv.
  - eapply Record_getattr_fetched; eauto.
  - eapply Record_getattr_unknown; eauto.
Qed.

(** One turn of the loop of [Zone.records]: a new [Record] is made from
    the blob and filed under its name. *)
Lemma records_loop_step z zo (acc : pydict (list loc)) item w :
  w_zones w !! z = Some zo →
  bind (new_Record z item)
       (λ r, bind (Record_getattr "name" r)
                  (λ name, ret (setdefault_append name r acc))) w
  = (match item !! "name" with
     | Some name => Ok (setdefault_append name (fresh (dom (w_records w))) acc)
     | None => Raise AttributeError
     end,
     with_records
       (insert (fresh (dom (w_records w)))
               (mkRecord (Obj z) (Obj (z_service zo)) (Obj item) (Obj ∅))) w).
Proof.
  intros Hz.
  erewrite bind_Ok; [|unfold new_Record; run; reflexivity].
  unfold bind at 1. erewrite Record_getattr_new; [|apply lookup_insert_eq].
  by destruct (item !! "name").
Qed.

Lemma records_loop_spec z zo items : ∀ (acc : pydict (list loc)) w by_name w',
  w_zones w !! z = Some zo →
  for_each items
    (λ acc record,
       bind (new_Record z record)
            (λ r, bind (Record_getattr "name" r)
                       (λ name, ret (setdefault_append name r acc)))) acc w
    = (Ok by_name, w') →
  ∃ new : list (value * loc),
    by_name = foldl (λ acc nr, setdefault_append nr.1 nr.2 acc) acc new ∧
    Forall2 (λ nr item,
               item !! "name" = Some nr.1 ∧
               w_records w !! nr.2 = None ∧
               w_records w' !! nr.2
                 = Some (mkRecord (Obj z) (Obj (z_service zo)) (Obj item) (Obj ∅)))
            new items ∧
    w_records w ⊆ w_records w' ∧ w_zones w' = w_zones w ∧
    w_users w' = w_users w ∧ w_settings w' = w_settings w ∧
    w_log w' = w_log w ∧ w_remote w' = w_remote w.
Proof.
  induction items as [|item items IH]; intros acc w by_name w' Hz.
  - simpl. intros [= <- <-]. exists []. by repeat split.
  - cbn [for_each]. unfold bind at 1. rewrite (records_loop_step z zo) by done.
    destruct (item !! "name") as [name|] eqn:Hname; [|done].
    set (r := fresh (dom (w_records w))).
    set (w1 := with_records _ w).
    intros Hrun.
    destruct (IH _ w1 _ _ Hz Hrun)
      as (new & Hby & Hall & Hsub & Hzs & Hus & Hss & Hlog & Hrem).
    assert (w_records w !! r = None) as Hfresh by apply fresh_lookup_None.
    assert (w_records w ⊆ w_records w1) as Hsub1 by by apply insert_subseteq.
    exists ((name, r) :: new). split; [done|]. split; [|repeat split; try done].
    + constructor; [repeat split; try done|].
      * eapply lookup_weaken; [|exact Hsub]. apply lookup_insert_eq.
      * eapply Forall2_impl; [exact Hall|]. intros nr it (? & Hnone & ?).
        repeat split; try done. eapply lookup_weaken_None; eauto.
    + by etrans.
Qed.

(** Filing keeps what was filed before. *)
Lemma setdefault_append_keeps k r k' r' (d : pydict (list loc)) l :
  pd_lookup k d = Some l → r ∈ l →
  ∃ l', pd_lookup k (setdefault_append k' r' d) = Some l' ∧ r ∈ l'.
Proof.
  intros Hl Hr. unfold setdefault_append. rewrite pd_lookup_upsert, Hl.
  destruct (py_eq k' k); [|by eauto].
  eexists. split; [done|]. simpl. set_solver.
Qed.

Lemma setdefault_append_files k r (d : pydict (list loc)) :
  ∃ l, pd_lookup k (setdefault_append k r d) = Some l ∧ r ∈ l.
Proof.
  unfold setdefault_append. rewrite pd_lookup_upsert, py_eq_refl.
  eexists. split; [done|]. set_solver.
Qed.

Lemma by_name_keeps (new : list (value * loc)) : ∀ (d : pydict (list loc)) k r l,
  pd_lookup k d = Some l → r ∈ l →
  ∃ l', pd_lookup k (foldl (λ acc nr, setdefault_append nr.1 nr.2 acc) d new)
        = Some l' ∧ r ∈ l'.
Proof.
  induction new as [|[k' r'] new IH]; intros d k r l Hl Hr; simpl; [by eauto|].
  destruct (setdefault_append_keeps k r k' r' d l Hl Hr) as (l' & Hl' & Hr').
  by eapply IH.
Qed.

(** Every record filed is found under its name. *)
Lemma by_name_complete (new : list (value * loc)) : ∀ (d : pydict (list loc)) k r,
  (k, r) ∈ new →
  ∃ l, pd_lookup k (foldl (λ acc nr, setdefault_append nr.1 nr.2 acc) d new)
       = Some l ∧ r ∈ l.
Proof.
  induction new as [|[k' r'] new IH]; intros d k r Hin; [by apply elem_of_nil in Hin|].
  apply elem_of_cons in Hin as [[= -> ->] | Hin]; simpl.
  - destruct (setdefault_append_files k' r' d) as (l & Hl & Hr).
    by eapply by_name_keeps.
  - by apply IH.
Qed.

Lemma setdefault_append_elem_of k l k' r' (d : pydict (list loc)) :
  (k, l) ∈ setdefault_append k' r' d →
  ∀ r, r ∈ l → (∃ l0, (k, l0) ∈ d ∧ r ∈ l0) ∨ (r = r' ∧ py_eq k k' = true).
Proof.
  unfold setdefault_append. induction d as [|[k0 l0] d IH]; simpl.
  - intros Hin r Hr. apply list_elem_of_singleton in Hin as [= -> ->].
    right. split; [by apply list_elem_of_singleton in Hr | apply py_eq_refl].
  - destruct (py_eq k0 k') eqn:H0.
    + intros Hin r Hr. apply elem_of_cons in Hin as [[= -> ->] | Hin].
      * simpl in Hr. apply elem_of_app in Hr as [Hr | Hr].
        -- left. exists l0. split; [left | done].
        -- right. split; [by apply list_elem_of_singleton in Hr | done].
      * left. exists l. split; [by right | done].
    + intros Hin r Hr. apply elem_of_cons in Hin as [[= -> ->] | Hin].
      * left. exists l0. split; [left | done].
      * destruct (IH Hin r Hr) as [(l1 & ? & ?) | ?]; [|by right].
        left. exists l1. split; [by right | done].
Qed.

(** Every record found in the index was filed, under a name equal to the
    key it is found under. *)
Lemma by_name_sound (new : list (value * loc)) : ∀ (d : pydict (list loc)) k l r,
  (k, l) ∈ foldl (λ acc nr, setdefault_append nr.1 nr.2 acc) d new → r ∈ l →
  (∃ l0, (k, l0) ∈ d ∧ r ∈ l0) ∨ (∃ name, (name, r) ∈ new ∧ py_eq k name = true).
Proof.
  induction new as [|[k' r'] new IH]; intros d k l r Hin Hr; simpl in *.
  - left. eauto.
  - destruct (IH _ _ _ _ Hin Hr) as [(l0 & Hin0 & Hr0) | (name & ? & ?)].
    + destruct (setdefault_append_elem_of _ _ _ _ _ Hin0 r Hr0)
        as [? | [-> ?]]; [by left|].
      right. exists k'. split; [left | done].
    + right. exists name. split; [by right | done].
Qed.

(** The key function on a record. *)
Lemma Record_sort_key_inv r w k w' :
  Record_sort_key r w = (Ok k, w') →
  w' = w ∧ k.2 = r ∧
  Record_getattr "type" r w = (Ok k.1.1, w) ∧
  Record_getattr "content" r w = (Ok k.1.2, w).
Proof.
  intros Hrun. pose proof (readonly_Record_sort_key r w) as Hro.
  rewrite Hrun in Hro. simpl in Hro. subst w'. split; [done|].
  unfold Record_sort_key in Hrun.
  apply bind_Ok_inv in Hrun as (t & w1 & Ht & Hrun).
  pose proof (readonly_Record_getattr "type" r w) as Hro. rewrite Ht in Hro.
  simpl in Hro. subst w1.
  apply bind_Ok_inv in Hrun as (c & w1 & Hc & Hrun).
  pose proof (readonly_Record_getattr "content" r w) as Hro. rewrite Hc in Hro.
  simpl in Hro. subst w1.
  injection Hrun as <-. done.
Qed.

Lemma keyed_loop_spec (l : list loc) : ∀ acc w keyed w',
  for_each l (λ acc r, bind (Record_sort_key r) (λ k, ret (acc ++ [k]))) acc w
    = (Ok keyed, w') →
  w' = w ∧ ∃ ks, keyed = acc ++ ks ∧
                 Forall2 (λ r k, Record_sort_key r w = (Ok k, w)) l ks.
Proof.
  induction l as [|r l IH]; intros acc w keyed w'.
  - simpl. intros [= <- <-]. split; [done|]. exists []. by rewrite app_nil_r.
  - cbn [for_each]. intros Hrun.
    apply bind_Ok_inv in Hrun as (acc1 & w1 & Hstep & Hrun).
    apply bind_Ok_inv in Hstep as (k & w2 & Hk & Hret).
    injection Hret as <- <-.
    destruct (Record_sort_key_inv _ _ _ _ Hk) as (-> & _).
    destruct (IH _ _ _ _ Hrun) as (-> & ks & -> & Hall).
    split; [done|]. exists (k :: ks). split; [by rewrite <- app_assoc|].
    by constructor.
Qed.

(** [sort] permutes the list, and the keys of the result are in order. *)
Lemma sort_records_spec (l : list loc) w l' w' :
  sort_records l w = (Ok l', w') →
  w' = w ∧ l' ≡ₚ l ∧
  ∃ keys,
    Forall2 (λ r key, Record_getattr "type" r w = (Ok key.1, w) ∧
                      Record_getattr "content" r w = (Ok key.2, w)) l' keys ∧
    StronglySorted key_le keys.
Proof.
  unfold sort_records. intros Hrun.
  apply bind_Ok_inv in Hrun as (keyed & w1 & Hkeyed & Hrun).
  apply keyed_loop_spec in Hkeyed as (-> & ks & -> & Hall). simpl in Hrun.
  apply bind_Ok_inv in Hrun as (sorted & w1 & Hsort & Hret).
  injection Hret as <- <-. unfold lift in Hsort.
  injection Hsort as Hsort <-. split; [done|].
  pose proof (sort_decorated_perm _ _ _ Hsort) as Hperm.
  assert (Forall (λ k, k.2 ∈ l ∧
                       Record_getattr "type" k.2 w = (Ok k.1.1, w) ∧
                       Record_getattr "content" k.2 w = (Ok k.1.2, w)) ks)
    as Hks.
  { apply Forall_forall. intros k Hk.
    apply list_elem_of_lookup in Hk as [i Hi].
    destruct (Forall2_lookup_r _ _ _ _ _ Hall Hi) as (r & Hr & Hkey).
    apply Record_sort_key_inv in Hkey as (_ & Hk2 & ? & ?).
    cbv beta. rewrite Hk2.
    split; [|done]. apply list_elem_of_lookup. eauto. }
  assert (ks.*2 = l) as Hsnd.
  { clear -Hall. induction Hall as [|r k l ks Hk _ IH]; [done|].
    apply Record_sort_key_inv in Hk as (_ & Hk2 & _). rewrite fmap_cons.
    by f_equal. }
  split; [|exists (sorted.*1); split].
  - rewrite <- Hsnd. by apply fmap_Permutation.
  - apply Forall2_fmap, Forall_Forall2_diag.
    rewrite Hperm. eapply Forall_impl; [exact Hks|]. by intros k (_ & ? & ?).
  - eapply sort_decorated_sorted; [apply tuple_lt_asym | | exact Hsort].
    intros a b c. apply key_le_trans.
Qed.

(** The second loop of [Zone.records]: each list is replaced by its sorted
    self, under the same key. *)
Lemma sort_loop_spec (by_name : pydict (list loc)) : ∀ acc w idx w',
  for_each by_name
    (λ acc kv, bind (sort_records kv.2) (λ l, ret (acc ++ [(kv.1, l)]))) acc w
    = (Ok idx, w') →
  w' = w ∧ ∃ sorted, idx = acc ++ sorted ∧
    Forall2 (λ kv kv', kv'.1 = kv.1 ∧ sort_records kv.2 w = (Ok kv'.2, w))
            by_name sorted.
Proof.
  induction by_name as [|[k l] by_name IH]; intros acc w idx w'.
  - simpl. intros [= <- <-]. split; [done|]. exists []. by rewrite app_nil_r.
  - cbn [for_each]. intros Hrun.
    apply bind_Ok_inv in Hrun as (acc1 & w1 & Hstep & Hrun).
    apply bind_Ok_inv in Hstep as (l' & w2 & Hl & Hret).
    injection Hret as <- <-. simpl in Hl.
    destruct (sort_records_spec _ _ _ _ Hl) as (-> & _).
    destruct (IH _ _ _ _ Hrun) as (-> & sorted & -> & Hall).
    split; [done|]. exists ((k, l') :: sorted). split; [by rewrite <- app_assoc|].
    by constructor.
Qed.

Lemma pd_lookup_Forall2 {A B} (P : A → B → Prop) (d : pydict A) (d' : pydict B) k a :
  Forall2 (λ kv kv', kv'.1 = kv.1 ∧ P kv.2 kv'.2) d d' →
  pd_lookup k d = Some a → ∃ b, pd_lookup k d' = Some b ∧ P a b.
Proof.
  induction 1 as [|[k0 a0] [k1 b1] d d' [Hk HP] _ IH]; simpl in *; [done|].
  subst k1. destruct (py_eq k0 k); [|done]. intros [= <-]. eauto.
Qed.

(** What a successful first read of [Zone.records] did. *)
Lemma Zone_records_miss_inv w z zo idx w' :
  w_zones w !! z = Some zo → z_records zo = None →
  Zone_records remote z w = (Ok idx, w') →
  ∃ zid items s' (new : list (value * loc)) w1,
    z_data zo !! "id" = Some zid ∧
    remote (get_dns_records zid) (z_service zo) (w_remote w) = ((items, None), s') ∧
    Forall2 (λ nr item,
               item !! "name" = Some nr.1 ∧
               w_records w !! nr.2 = None ∧
               w_records w1 !! nr.2
                 = Some (mkRecord (Obj z) (Obj (z_service zo)) (Obj item) (Obj ∅)))
            new items ∧
    Forall2 (λ kv kv', kv'.1 = kv.1 ∧ sort_records kv.2 w1 = (Ok kv'.2, w1))
            (foldl (λ acc nr, setdefault_append nr.1 nr.2 acc) [] new) idx ∧
    w_zones w1 = w_zones w ∧
    w_log w1 = w_log w ++ [(z_service zo, get_dns_records zid)] ∧
    w' = with_zones
           (alter (λ o, mkZone (z_user o) (z_service o) (z_data o) (z_settings o)
                               (Some idx)) z) w1.
Proof.
  intros Hz Hc. unfold Zone_records.
  erewrite bind_Ok; [|unfold get_zone; rewrite Hz; reflexivity].
  rewrite Hc. intros Hrun.
  apply bind_Ok_inv in Hrun as (idx0 & w1 & Hbody & Hset).
  apply bind_Ok_inv in Hset as ([] & w2 & Hset & Hret).
  injection Hset as <-. injection Hret as <- <-.
  unfold Zone_records_body in Hbody.
  apply bind_Ok_inv in Hbody as (by_name & w2 & Hiter & Hsort).
  apply sort_loop_spec in Hsort as (-> & sorted & -> & Hsorted).
  unfold Zone_iter_records in Hiter.
  erewrite bind_Ok in Hiter; [|unfold get_zone; rewrite Hz; reflexivity].
  apply bind_Ok_inv in Hiter as (zid & w3 & Hid & Hiter).
  unfold Zone_getattr in Hid.
  erewrite bind_Ok in Hid; [|unfold get_zone; rewrite Hz; reflexivity].
  destruct (z_data zo !! "id") as [zid'|] eqn:Hzid; [|done].
  injection Hid as <- <-.
  apply bind_Ok_inv in Hiter as ([items fail] & w0 & Hcall & Hiter).
  unfold call in Hcall.
  destruct (remote (get_dns_records zid') (z_service zo) (w_remote w))
    as [reply s'] eqn:Hrem.
  injection Hcall as -> <-.
  unfold for_listing in Hiter. cbn [fst snd] in Hiter.
  apply bind_Ok_inv in Hiter as (acc' & w3 & Hloop & Hfail).
  destruct fail as [e|]; [done|]. injection Hfail as <- <-.
  eapply (records_loop_spec z zo) in Hloop; [|exact Hz].
  destruct Hloop as (new & -> & Hall & Hsub & Hzs & Hus & Hss & Hlog & Hremote).
  exists zid', items, s', new, w3. by repeat split.
Qed.

(** C2. A first read of [Zone.records] that returns has fetched the
    listing of the zone's records and made one [Record] per listed blob;
    each of them is in the list found under its own name, nothing else is in
    the index (a record is only under a key equal to its name), and every
    list of the index is sorted in ascending order of the pair
    ([type], [content]): no record's key is greater than the key of a record
    that follows it. The index is kept as the zone's cached value. *)
Theorem Zone_records_index w z zo idx w' :
  w_zones w !! z = Some zo → z_records zo = None →
  Zone_records remote z w = (Ok idx, w') →
  ∃ zid items s' rs,
    z_data zo !! "id" = Some zid ∧
    remote (get_dns_records zid) (z_service zo) (w_remote w) = ((items, None), s') ∧
    w_log w' = w_log w ++ [(z_service zo, get_dns_records zid)] ∧
    Forall2 (λ r item,
               w_records w !! r = None ∧
               w_records w' !! r
                 = Some (mkRecord (Obj z) (Obj (z_service zo)) (Obj item) (Obj ∅)) ∧
               ∃ name l, item !! "name" = Some name ∧
                         pd_lookup name idx = Some l ∧ r ∈ l)
            rs items ∧
    (∀ k l r, (k, l) ∈ idx → r ∈ l →
       ∃ i item name, rs !! i = Some r ∧ items !! i = Some item ∧
                      item !! "name" = Some name ∧ py_eq k name = true) ∧
    (∀ k l, (k, l) ∈ idx →
       ∃ keys,
         Forall2 (λ r key, Record_getattr "type" r w' = (Ok key.1, w') ∧
                           Record_getattr "content" r w' = (Ok key.2, w'))
                 l keys ∧
         StronglySorted key_le keys) ∧
    w_zones w' !! z
      = Some (mkZone (z_user zo) (z_service zo) (z_data zo) (z_settings zo)
                     (Some idx)).
Proof.
  intros Hz Hc Hrun.
  destruct (Zone_records_miss_inv _ _ _ _ _ Hz Hc Hrun)
    as (zid & items & s' & new & w1 & Hzid & Hrem & Hnew & Hidx & Hzs & Hlog & ->).
  exists zid, items, s', (new.*2).
  split; [done|]. split; [done|]. split; [done|].
  split; [|split; [|split]].
  - apply Forall2_fmap_l. apply Forall2_same_length_lookup.
    split; [by eapply Forall2_length|].
    intros i [name r] item Hi Hitem.
    destruct (Forall2_lookup_lr _ _ _ _ _ _ Hnew Hi Hitem) as (Hname & Hnone & Hsome).
    simpl in *. split; [done|]. split; [done|].
    destruct (by_name_complete new [] name r) as (l & Hl & Hr).
    { apply list_elem_of_lookup. eauto. }
    destruct (pd_lookup_Forall2 (λ l l', sort_records l w1 = (Ok l', w1))
                _ _ _ _ Hidx Hl) as (l' & Hl' & Hs).
    apply sort_records_spec in Hs as (_ & Hperm & _).
    exists name, l'. split; [done|]. split; [done|]. by rewrite Hperm.
  - intros k l' r Hin Hr.
    apply list_elem_of_lookup in Hin as [j Hj].
    destruct (Forall2_lookup_r _ _ _ _ _ Hidx Hj) as ([k0 l] & Hby & Hk & Hs).
    simpl in *. subst k0.
    apply sort_records_spec in Hs as (_ & Hperm & _). rewrite Hperm in Hr.
    destruct (by_name_sound new [] k l r) as [(l0 & Hnil & _) | (name & Hnew' & Heq)];
      [apply list_elem_of_lookup; eauto | done | by apply elem_of_nil in Hnil |].
    apply list_elem_of_lookup in Hnew' as [i Hi].
    destruct (Forall2_lookup_l _ _ _ _ _ Hnew Hi) as (item & Hitem & Hname & _).
    exists i, item, name. rewrite list_lookup_fmap, Hi. repeat split; try done.
  - intros k l' Hin.
    apply list_elem_of_lookup in Hin as [j Hj].
    destruct (Forall2_lookup_r _ _ _ _ _ Hidx Hj) as ([k0 l] & Hby & Hk & Hs).
    apply sort_records_spec in Hs as (_ & _ & keys & Hkeys & Hsorted).
    exists keys. split; [|done].
    eapply Forall2_impl; [exact Hkeys|]. intros r key [Ht Hcn].
    split; (eapply Record_getattr_ext; [|eassumption]; reflexivity).
  - simpl. by rewrite lookup_alter_eq, Hzs, Hz.
Qed.

(** ** Invalidation of the records index *)

Lemma bind_quiet_r {A B} (m : M A) (k : A → M B) w :
  (∀ a, quiet (k a)) → w_log (bind m k w).2 = w_log (m w).2.
Proof.
  intros Hk. unfold bind. destruct (m w) as [[a | e |] w1]; [|done|done].
  apply Hk.
Qed.

Lemma quiet_records_loop z (l : list dict * option exn) (acc : pydict (list loc)) :
  quiet (for_listing l
           (λ acc record,
              bind (new_Record z record)
                   (λ r, bind (Record_getattr "name" r)
                              (λ name, ret (setdefault_append name r acc)))) acc).
Proof.
  apply quiet_for_listing. intros acc' record.
  apply quiet_bind; [apply quiet_new_Record|]. intros r.
  apply readonly_quiet, readonly_bind; [apply readonly_Record_getattr | done].
Qed.

Lemma quiet_sort_loop (by_name : pydict (list loc)) acc :
  quiet (for_each by_name
           (λ acc kv, bind (sort_records kv.2) (λ l, ret (acc ++ [(kv.1, l)]))) acc).
Proof.
  apply readonly_quiet, readonly_for_each. intros acc' kv.
  apply readonly_bind; [apply readonly_sort_records | done].
Qed.

(** With nothing cached, reading [Zone.records] sends the listing request
    for this zone, and no other, whatever comes of it. *)
Lemma Zone_records_miss_log w z zo zid :
  w_zones w !! z = Some zo → z_records zo = None →
  z_data zo !! "id" = Some zid →
  w_log (Zone_records remote z w).2
    = w_log w ++ [(z_service zo, get_dns_records zid)].
Proof.
  intros Hz Hc Hid. unfold Zone_records.
  erewrite bind_Ok; [|unfold get_zone; rewrite Hz; reflexivity].
  rewrite Hc.
  rewrite bind_quiet_r;
    [|intros by_name; apply quiet_bind; [done | intros; by apply readonly_quiet]].
  unfold Zone_records_body.
  rewrite bind_quiet_r; [|intros by_name; apply quiet_sort_loop].
  unfold Zone_iter_records.
  erewrite bind_Ok; [|unfold get_zone; rewrite Hz; reflexivity].
  erewrite bind_Ok; [|unfold Zone_getattr; run; reflexivity].
  unfold bind at 1, call.
  destruct (remote _ _ _) as [l s'].
  destruct (quiet_records_loop z l []
              (mkWorld (w_users w) (w_zones w) (w_settings w) (w_records w) s'
                       (w_log w ++ [(z_service zo, get_dns_records zid)])))
    as [Hlog _].
  exact Hlog.
Qed.

Lemma records_invalidated_intro z w zo zid :
  w_zones w !! z = Some zo → z_records zo = None →
  z_data zo !! "id" = Some zid → records_invalidated remote z w.
Proof.
  intros Hz Hc Hid. exists zo, zid. repeat split; try done.
  by apply Zone_records_miss_log.
Qed.

Lemma Zone_getattr_Ok_inv name z zo w v w' :
  w_zones w !! z = Some zo → Zone_getattr name z w = (Ok v, w') →
  w' = w ∧ z_data zo !! name = Some v.
Proof.
  intros Hz. unfold Zone_getattr.
  erewrite bind_Ok; [|unfold get_zone; rewrite Hz; reflexivity].
  destruct (z_data zo !! name); [|done]. by intros [= <- <-].
Qed.

Lemma lift_Ok_inv {A} (x : result A) w a w' :
  lift x w = (Ok a, w') → x = Ok a ∧ w' = w.
Proof. by intros [= -> <-]. Qed.

Lemma returned_Ok_inv {A} (x : exn + A) w a w' :
  returned x w = (Ok a, w') → x = inr a ∧ w' = w.
Proof. destruct x; [done|]. by intros [= -> <-]. Qed.

Lemma completed_Ok_inv (x : option exn) w u w' :
  completed x w = (Ok u, w') → x = None ∧ w' = w.
Proof. destruct x; [done|]. by intros [= _ <-]. Qed.

Lemma Record_getattr_Ok_inv name r w v w' :
  Record_getattr name r w = (Ok v, w') → w' = w.
Proof.
  intros H. pose proof (readonly_Record_getattr name r w) as Hro.
  by rewrite H in Hro.
Qed.

Lemma Zone_create_record_invalidates w z zo
    (name type content ttl proxied priority : value) r w' :
  w_zones w !! z = Some zo →
  Zone_create_record remote z name type content ttl proxied priority w = (Ok r, w') →
  records_invalidated remote z w'.
Proof.
  intros Hz. unfold Zone_create_record.
  erewrite bind_Ok; [|unfold get_zone; rewrite Hz; reflexivity].
  intros H. apply bind_Ok_inv in H as (zid & w1 & Hid & H).
  apply (Zone_getattr_Ok_inv _ _ _ _ _ _ Hz) in Hid as [-> Hid].
  apply bind_Ok_inv in H as (reply & w0 & Hcall & H).
  unfold call in Hcall. destruct (remote _ _ _) as [reply' s'].
  injection Hcall as -> <-.
  apply bind_Ok_inv in H as (record & w2 & Hret & H).
  apply returned_Ok_inv in Hret as [-> ->].
  apply bind_Ok_inv in H as ([] & w3 & Hset & H). injection Hset as <-.
  unfold new_Record in H. apply bind_Ok_inv in H as (zo' & w4 & Hget & H).
  injection H as <- <-.
  unfold get_zone in Hget. simpl in Hget. rewrite lookup_alter_eq, Hz in Hget.
  injection Hget as <- <-.
  eapply records_invalidated_intro;
    [simpl; by rewrite lookup_alter_eq, Hz | done | done].
Qed.

Lemma Record_save_invalidates w z zo r ro u w' :
  w_zones w !! z = Some zo →
  w_records w !! r = Some ro → r_zone ro = Obj z →
  r_updates ro = Obj u → is_Some (u !! "name") →
  Record_save remote r w = (Ok tt, w') →
  records_invalidated remote z w'.
Proof.
  intros Hz Hr Hzone Hu [x Hname]. unfold Record_save.
  erewrite bind_Ok; [|unfold get_record; rewrite Hr; reflexivity].
  rewrite Hu, Hzone. cbn [slot_truthy].
  rewrite dict_nonempty_true; [|intros ->; by rewrite lookup_empty in Hname].
  intros H. apply bind_Ok_inv in H as (svc & w1 & Hsvc & H).
  apply lift_Ok_inv in Hsvc as [_ ->].
  erewrite bind_Ok in H; [|reflexivity].
  apply bind_Ok_inv in H as (zid & w1 & Hid & H).
  apply (Zone_getattr_Ok_inv _ _ _ _ _ _ Hz) in Hid as [-> Hid].
  apply bind_Ok_inv in H as (rid & w1 & Hrid & H).
  apply Record_getattr_Ok_inv in Hrid as ->.
  apply bind_Ok_inv in H as (reply & w0 & Hcall & H).
  unfold call in Hcall. destruct (remote _ _ _) as [reply' s'].
  injection Hcall as -> <-.
  apply bind_Ok_inv in H as (res & w2 & Hret & H).
  apply returned_Ok_inv in Hret as [-> ->].
  apply bind_Ok_inv in H as (d & w2 & Hd & H).
  apply lift_Ok_inv in Hd as [_ ->].
  apply bind_Ok_inv in H as ([] & w2 & Hput & H). injection Hput as <-.
  cbn [slot_contains] in H. rewrite (dict_has_true _ _ _ Hname) in H.
  erewrite bind_Ok in H; [|reflexivity].
  apply bind_Ok_inv in H as ([] & w2 & Hset & H). injection Hset as <-.
  injection H as <-.
  eapply records_invalidated_intro;
    [simpl; by rewrite lookup_alter_eq, Hz | done | done].
Qed.

Lemma Record_delete_invalidates w z zo r ro w' :
  w_zones w !! z = Some zo →
  w_records w !! r = Some ro → r_zone ro = Obj z →
  Record_delete remote r w = (Ok tt, w') →
  records_invalidated remote z w'.
Proof.
  intros Hz Hr Hzone. unfold Record_delete.
  erewrite bind_Ok; [|unfold get_record; rewrite Hr; reflexivity].
  rewrite Hzone.
  intros H. apply bind_Ok_inv in H as (svc & w1 & Hsvc & H).
  apply lift_Ok_inv in Hsvc as [_ ->].
  erewrite bind_Ok in H; [|reflexivity].
  apply bind_Ok_inv in H as (zid & w1 & Hid & H).
  apply (Zone_getattr_Ok_inv _ _ _ _ _ _ Hz) in Hid as [-> Hid].
  apply bind_Ok_inv in H as (rid & w1 & Hrid & H).
  apply Record_getattr_Ok_inv in Hrid as ->.
  apply bind_Ok_inv in H as (reply & w0 & Hcall & H).
  unfold call in Hcall. destruct (remote _ _ _) as [reply' s'].
  injection Hcall as -> <-.
  apply bind_Ok_inv in H as ([] & w2 & Hdone & H).
  apply completed_Ok_inv in Hdone as [-> ->].
  injection H as <-.
  eapply records_invalidated_intro;
    [simpl; by rewrite lookup_alter_eq, Hz | done | done].
Qed.

(** The three operations do return when the ids they send exist and the
    provider accepts the request. *)
Lemma Zone_create_record_returns w z zo zid
    (name type content ttl proxied priority : value) record s' :
  w_zones w !! z = Some zo → z_data zo !! "id" = Some zid →
  remote (create_dns_record zid
            (create_record_data name type content ttl proxied priority))
         (z_service zo) (w_remote w) = (inr record, s') →
  ∃ r w', Zone_create_record remote z name type content ttl proxied priority w
          = (Ok r, w').
Proof.
  intros Hz Hid Hrem. eexists _, _. unfold Zone_create_record. run.
  unfold call. rewrite Hrem. run. unfold new_Record. run.
  rewrite lookup_alter_eq, Hz. run. reflexivity.
Qed.

Lemma Record_save_returns w r ro svc z zo zid u d rid res s' :
  w_records w !! r = Some ro →
  r_service ro = Obj svc → r_zone ro = Obj z →
  w_zones w !! z = Some zo → z_data zo !! "id" = Some zid →
  r_updates ro = Obj u → r_data ro = Obj d →
  (u ∪ d) !! "id" = Some rid →
  remote (update_dns_record zid rid (Obj u)) svc (w_remote w) = (inr res, s') →
  ∃ w', Record_save remote r w = (Ok tt, w').
Proof.
  intros Hr Hsvc Hz Hzo Hzid Hu Hd Hrid Hrem.
  pose proof (Record_getattr_union _ _ _ _ _ _ _ Hr Hu Hd Hrid) as Hget.
  unfold Record_save. run.
  destruct (dict_nonempty u); [|by eexists].
  run. unfold call. run.
  destruct (dict_has "name" u); run; by eexists.
Qed.

Lemma Record_delete_returns w r ro svc z zo zid u d rid s' :
  w_records w !! r = Some ro →
  r_service ro = Obj svc → r_zone ro = Obj z →
  w_zones w !! z = Some zo → z_data zo !! "id" = Some zid →
  r_updates ro = Obj u → r_data ro = Obj d →
  (u ∪ d) !! "id" = Some rid →
  remote (delete_dns_record zid rid) svc (w_remote w) = (None, s') →
  ∃ w', Record_delete remote r w = (Ok tt, w').
Proof.
  intros Hr Hsvc Hz Hzo Hzid Hu Hd Hrid Hrem.
  pose proof (Record_getattr_union _ _ _ _ _ _ _ Hr Hu Hd Hrid) as Hget.
  unfold Record_delete. run. unfold call. run. by eexists.
Qed.

(** C1. On a zone whose records index has been built, each of
    [Zone.create_record] on the zone, [Record.save] on one of its records
    with a pending edit to [name], and [Record.delete] on one of its
    records, when it returns, leaves the zone without a cached index, so
    that the next read of [records] sends the listing request again. *)
Theorem records_index_invalidated w z zo idx :
  w_zones w !! z = Some zo →
  z_records zo = Some idx →
  (∀ (name type content ttl proxied priority : value) r w',
     Zone_create_record remote z name type content ttl proxied priority w
       = (Ok r, w') →
     records_invalidated remote z w') ∧
  (∀ r ro u w',
     w_records w !! r = Some ro → r_zone ro = Obj z →
     r_updates ro = Obj u → is_Some (u !! "name") →
     Record_save remote r w = (Ok tt, w') →
     records_invalidated remote z w') ∧
  (∀ r ro w',
     w_records w !! r = Some ro → r_zone ro = Obj z →
     Record_delete remote r w = (Ok tt, w') →
     records_invalidated remote z w').
Proof.
  intros Hz _. split; [|split].
  - intros. by eapply Zone_create_record_invalidates.
  - intros. by eapply Record_save_invalidates.
  - intros. by eapply Record_delete_invalidates.
Qed.

(** ** A listing of well-formed blobs is indexed without an exception *)

Lemma tuple_lt_strings (t c t' c' : string) :
  ∃ b, tuple_lt (VStr t, VStr c) (VStr t', VStr c') = Ok b.
Proof.
  unfold tuple_lt. cbn [fst snd py_eq py_lt].
  destruct (String.eqb t t'); [destruct (String.eqb c c')|]; eauto.
Qed.

Lemma insert_sorted_strings (x : value * value * loc) l :
  has_string_key x → Forall has_string_key l →
  ∃ r, insert_sorted tuple_lt x l = Ok r ∧ Forall has_string_key r.
Proof.
  intros Hx. induction 1 as [|y l Hy Hl IH]; simpl.
  - eexists. split; [done|]. by constructor.
  - destruct Hx as (t & c & Hx), Hy as (t' & c' & Hyk).
    rewrite Hx, Hyk. destruct (tuple_lt_strings t' c' t c) as [[|] ->].
    + destruct IH as (r & -> & Hr). eexists. split; [done|].
      constructor; [by exists t', c' | done].
    + eexists. split; [done|].
      constructor; [by exists t, c|]. constructor; [by exists t', c' | done].
Qed.

Lemma sort_decorated_strings_total (l : list (value * value * loc)) :
  Forall has_string_key l →
  ∃ r, sort_decorated tuple_lt l = Ok r ∧ Forall has_string_key r.
Proof.
  induction 1 as [|x l Hx Hl IH]; simpl.
  - exists []. by split.
  - destruct IH as (r & -> & Hr). by apply insert_sorted_strings.
Qed.

Lemma keyed_loop_total (l : list loc) w :
  Forall (λ r, ∃ k, Record_sort_key r w = (Ok k, w) ∧ has_string_key k) l →
  ∀ acc, ∃ ks,
    for_each l (λ acc r, bind (Record_sort_key r) (λ k, ret (acc ++ [k]))) acc w
      = (Ok (acc ++ ks), w) ∧
    Forall has_string_key ks.
Proof.
  induction 1 as [|r l (k & Hk & Hstr) _ IH]; intros acc.
  - exists []. split; [by rewrite app_nil_r | done].
  - destruct (IH (acc ++ [k])) as (ks & Hrun & Hks).
    exists (k :: ks). split; [|by constructor].
    erewrite for_each_cons; [rewrite Hrun; by rewrite <- app_assoc|].
    erewrite bind_Ok; [|exact Hk]. done.
Qed.

Lemma sort_records_total (l : list loc) w :
  Forall (λ r, ∃ k, Record_sort_key r w = (Ok k, w) ∧ has_string_key k) l →
  ∃ l', sort_records l w = (Ok l', w).
Proof.
  intros Hl. destruct (keyed_loop_total l w Hl []) as (ks & Hrun & Hks).
  destruct (sort_decorated_strings_total ks Hks) as (sorted & Hsort & _).
  exists (sorted.*2). unfold sort_records.
  erewrite bind_Ok; [|exact Hrun]. simpl.
  erewrite bind_Ok; [|unfold lift; rewrite Hsort; reflexivity]. done.
Qed.

Lemma sort_loop_total (by_name : pydict (list loc)) w :
  Forall (λ kv,
            Forall (λ r, ∃ k, Record_sort_key r w = (Ok k, w) ∧ has_string_key k)
                   kv.2) by_name →
  ∀ acc, ∃ idx,
    for_each by_name
      (λ acc kv, bind (sort_records kv.2) (λ l, ret (acc ++ [(kv.1, l)]))) acc w
      = (Ok idx, w).
Proof.
  induction 1 as [|[k l] by_name Hl _ IH]; intros acc.
  - by exists acc.
  - destruct (sort_records_total l w Hl) as (l' & Hl').
    destruct (IH (acc ++ [(k, l')])) as (idx & Hrun).
    exists idx. erewrite for_each_cons; [exact Hrun|].
    erewrite bind_Ok; [|exact Hl']. done.
Qed.

Lemma records_loop_total z zo items : ∀ (acc : pydict (list loc)) w,
  w_zones w !! z = Some zo →
  Forall (λ item : dict, is_Some (item !! "name")) items →
  ∃ by_name w',
    for_each items
      (λ acc record,
         bind (new_Record z record)
              (λ r, bind (Record_getattr "name" r)
                         (λ name, ret (setdefault_append name r acc)))) acc w
      = (Ok by_name, w').
Proof.
  induction items as [|item items IH]; intros acc w Hz Hall.
  - by exists acc, w.
  - apply Forall_cons in Hall as [[name Hname] Hall].
    edestruct (IH (setdefault_append name (fresh (dom (w_records w))) acc)) 
      as (by_name & w' & Hrun); [|exact Hall|].
    2:{ exists by_name, w'. erewrite for_each_cons; [exact Hrun|].
        rewrite (records_loop_step z zo) by done. by rewrite Hname. }
    done.
Qed.

(** [Zone.records] returns an index whenever the zone has an [id], the
    listing is delivered in full, and every listed blob has a [name] and
    string-valued [type] and [content]. *)
Lemma Zone_records_returns w z zo zid items s' :
  w_zones w !! z = Some zo → z_records zo = None →
  z_data zo !! "id" = Some zid →
  remote (get_dns_records zid) (z_service zo) (w_remote w) = ((items, None), s') →
  Forall (λ item : dict,
            is_Some (item !! "name") ∧
            (∃ t, item !! "type" = Some (VStr t)) ∧
            (∃ c, item !! "content" = Some (VStr c))) items →
  ∃ idx w', Zone_records remote z w = (Ok idx, w').
Proof.
  intros Hz Hc Hid Hrem Hitems.
  set (w0 := mkWorld (w_users w) (w_zones w) (w_settings w) (w_records w) s'
                     (w_log w ++ [(z_service zo, get_dns_records zid)])).
  destruct (records_loop_total z zo items [] w0 Hz) as (by_name & w1 & Hloop).
  { eapply Forall_impl; [exact Hitems|]. by intros item (? & _). }
  destruct (records_loop_spec z zo items [] w0 by_name w1 Hz Hloop)
    as (new & -> & Hnew & _ & Hzs & _).
  destruct (sort_loop_total
              (foldl (λ acc nr, setdefault_append nr.1 nr.2 acc) [] new) w1)
    with (acc := @nil (value * list loc)) as (idx & Hsort).
  { apply Forall_forall. intros [k l] Hkl. apply Forall_forall. intros r Hr.
    destruct (by_name_sound new [] k l r Hkl Hr)
      as [(l0 & Hnil & _) | (name & Hin & _)]; [by apply elem_of_nil in Hnil|].
    apply list_elem_of_lookup in Hin as [i Hi].
    destruct (Forall2_lookup_l _ _ _ _ _ Hnew Hi) as (item & Hitem & _ & _ & Hrec).
    simpl in Hrec.
    assert (item ∈ items) as Hin by (apply list_elem_of_lookup; eauto).
    destruct (proj1 (Forall_forall _ _) Hitems item Hin) as (_ & [t Ht] & [c Hcn]).
    exists (VStr t, VStr c, r). split; [|by exists t, c].
    unfold Record_sort_key.
    erewrite bind_Ok; [|erewrite Record_getattr_new by exact Hrec; by rewrite Ht].
    erewrite bind_Ok; [|erewrite Record_getattr_new by exact Hrec; by rewrite Hcn].
    done. }
  eexists idx, _. unfold Zone_records.
  erewrite bind_Ok; [|unfold get_zone; rewrite Hz; reflexivity].
  rewrite Hc.
  erewrite bind_Ok; [reflexivity|].
  unfold Zone_records_body.
  erewrite bind_Ok; [exact Hsort|].
  unfold Zone_iter_records.
  erewrite bind_Ok; [|unfold get_zone; rewrite Hz; reflexivity].
  erewrite bind_Ok; [|unfold Zone_getattr; run; reflexivity].
  erewrite bind_Ok; [|unfold call; rewrite Hrem; reflexivity]. fold w0.
  unfold for_listing. cbn [fst snd].
  erewrite bind_Ok; [|exact Hloop]. done.
Qed.

End properties.

(** * Closed instances *)

(** Decides a closed decidable proposition by evaluation. *)
Ltac evaluated := apply (bool_decide_unpack _); vm_compute; exact I.

(** On the example record, an unknown field is rejected and a known one
    is staged. *)
Lemma Record_setattr_field_witness :
  Record_setattr "comment" (VStr "x") 0 example_world
    = (Raise AttributeError, example_world) ∧
  ∃ w', Record_setattr "ttl" (VInt 300) 0 example_world = (Ok tt, w') ∧
        w_records w' !! 0
          = Some (mkRecord (Obj 0) (Obj example_service) (Obj example_record_data)
                           (Obj (<["ttl" := VInt 300]> (blob [("name", VStr "web")])))) ∧
        w_log w' = w_log example_world ∧ w_remote w' = w_remote example_world.
Proof.
  split.
  - apply (Record_setattr_field example_world 0 example_record example_record_data
             "comment" (VStr "x")); [reflexivity | evaluated | reflexivity | reflexivity].
  - destruct (proj2 (Record_setattr_field example_world 0 example_record
                       example_record_data "ttl" (VInt 300) eq_refl
                       ltac:(evaluated) eq_refl)
                (mk_is_Some _ _ eq_refl) _ eq_refl)
      as (w' & Hrun & Hrec & Hlog & Hrem & _).
    exists w'. split; [exact Hrun|]. split; [|split; assumption].
    rewrite Hrec. apply lookup_insert_eq.
Defined.

(** C5 as stated fails on a record's own attribute names: [_updates] is not
    in the snapshot, yet writing it raises nothing and replaces the pending
    edits. *)
Lemma Record_setattr_own_attribute_accepted :
  w_records example_world !! 0 = Some example_record ∧
  r_data example_record = Obj example_record_data ∧
  example_record_data !! "_updates" = None ∧
  (Record_setattr "_updates" (VInt 7) 0 example_world).1 = Ok tt ∧
  r_updates <$> (w_records (Record_setattr "_updates" (VInt 7) 0 example_world).2 !! 0)
    = Some (Raw (VInt 7)) ∧
  Record_setattr "_updates" (VInt 7) 0 example_world
    ≠ (Raise AttributeError, example_world).
Proof. repeat split; try reflexivity. discriminate. Qed.

(** The setting [plan] of the example is not editable: writing it is
    refused. *)
Lemma ZoneSettings_setattr_not_editable_witness :
  ZoneSettings_setattr "plan" (VStr "pro") 0 example_world
    = (Raise ValueError, example_world).
Proof.
  apply (ZoneSettings_setattr_not_editable example_world 0 example_settings
           example_descriptors "plan" (VStr "pro")
           (blob [("id", VStr "plan"); ("value", VStr "free");
                  ("editable", VBool false)])
           (VBool false));
    [reflexivity | evaluated | reflexivity | reflexivity | reflexivity | reflexivity].
Defined.

(** C4 as stated fails on the settings' own attribute names: a setting that
    the provider calls [zone], not editable, is written without an
    exception, and the [zone] attribute is rebound. *)
Lemma ZoneSettings_setattr_own_attribute_accepted :
  w_settings example_world !! 2 = Some example_settings_odd ∧
  (∃ st setting,
     s_settings example_settings_odd = Obj st ∧
     pd_lookup (VStr "zone") st = Some setting ∧
     setting !! "editable" = Some (VBool false)) ∧
  (ZoneSettings_setattr "zone" (VStr "y") 2 example_world).1 = Ok tt ∧
  s_zone <$> (w_settings (ZoneSettings_setattr "zone" (VStr "y") 2 example_world).2 !! 2)
    = Some (Raw (VStr "y")) ∧
  ZoneSettings_setattr "zone" (VStr "y") 2 example_world
    ≠ (Raise ValueError, example_world).
Proof.
  split; [reflexivity|]. split; [|repeat split; try reflexivity; discriminate].
  eexists _, _. repeat split; reflexivity.
Qed.

(** Saving the example settings that have no edit changes nothing. *)
Lemma ZoneSettings_save_nothing_pending_witness :
  ZoneSettings_save example_remote 0 example_world = (Ok tt, example_world).
Proof.
  apply (ZoneSettings_save_nothing_pending example_remote example_world 0
           example_settings); reflexivity.
Defined.

(** Saving the record with a pending rename: the provider answers with
    the [name] alone, and the other fields of the snapshot stay. *)
Lemma Record_save_merges_response_witness :
  ∃ w', Record_save example_remote 0 example_world = (Ok tt, w') ∧
        w_log w'
          = [(example_service,
              update_dns_record (VStr "z1") (VStr "r0")
                                (Obj (blob [("name", VStr "web")])))] ∧
        w_records w' !! 0
          = Some (mkRecord (Obj 0) (Obj example_service)
                           (Obj (blob [("name", VStr "web")] ∪ example_record_data))
                           (Obj ∅)) ∧
        (blob [("name", VStr "web")] ∪ example_record_data) !! "content"
          = example_record_data !! "content".
Proof.
  destruct (Record_save_merges_response example_remote example_world 0
              example_record example_service 0 example_zone (VStr "z1")
              (blob [("name", VStr "web")]) example_record_data (VStr "r0")
              (blob [("name", VStr "web")]) 1)
    as (w' & Hrun & Hlog & _ & Hrec & _ & Hkeep);
    [reflexivity | reflexivity | reflexivity | reflexivity | reflexivity
    | reflexivity | evaluated | reflexivity | reflexivity | reflexivity |].
  exists w'. split; [exact Hrun|]. split; [exact Hlog|]. split; [exact Hrec|].
  apply Hkeep. reflexivity.
Defined.

(** The payloads posted for an [MX] record and for an [A] record. *)
Lemma create_record_payload_witness :
  (∃ data,
     w_log (Zone_create_record example_remote 0 (VStr "mail") (VStr "MX")
              (VStr "mx2.example.com") (VInt 1) (VBool false) (VInt 20)
              example_world).2
       = [(example_service, create_dns_record (VStr "z1") data)] ∧
     data !! "priority" = Some (VInt 20) ∧ data !! "type" = Some (VStr "MX")) ∧
  (∃ data,
     w_log (Zone_create_record example_remote 0 (VStr "www") (VStr "A")
              (VStr "1.2.3.4") (VInt 300) (VBool false) (VInt 10)
              example_world).2
       = [(example_service, create_dns_record (VStr "z1") data)] ∧
     data !! "priority" = None ∧ data !! "ttl" = Some (VInt 300)).
Proof.
  split.
  - destruct (create_record_payload example_remote example_world 0 example_zone
                (VStr "z1") (VStr "mail") (VStr "MX") (VStr "mx2.example.com")
                (VInt 1) (VBool false) (VInt 20) eq_refl eq_refl)
      as (data & Hlog & _ & Hmx & _ & Htype & _).
    exists data. split; [exact Hlog|]. split; [by apply Hmx | exact Htype].
  - destruct (create_record_payload example_remote example_world 0 example_zone
                (VStr "z1") (VStr "www") (VStr "A") (VStr "1.2.3.4")
                (VInt 300) (VBool false) (VInt 10) eq_refl eq_refl)
      as (data & Hlog & Hiff & _ & _ & _ & _ & Httl & _).
    exists data. split; [exact Hlog|]. split; [|exact Httl].
    destruct (data !! "priority") as [x|] eqn:Hx; [|reflexivity].
    pose proof (proj1 Hiff (mk_is_Some _ _ eq_refl)) as Habs. discriminate Habs.
Defined.

(** With [id] staged as ["r7"], the update and the delete requests name
    ["r7"], not the snapshot's ["r0"]. *)
Lemma staged_id_redirects_requests_witness :
  ∃ w1, Record_setattr "id" (VStr "r7") 0 example_world = (Ok tt, w1) ∧
        Record_getattr "id" 0 w1 = (Ok (VStr "r7"), w1) ∧
        w_log (Record_save example_remote 0 w1).2
          = [(example_service,
              update_dns_record (VStr "z1") (VStr "r7")
                (Obj (<["id" := VStr "r7"]> (blob [("name", VStr "web")]))))] ∧
        w_log (Record_delete example_remote 0 w1).2
          = [(example_service, delete_dns_record (VStr "z1") (VStr "r7"))].
Proof.
  apply (staged_id_redirects_requests example_remote example_world 0
           example_record example_service 0 example_zone (VStr "z1")
           (blob [("name", VStr "web")]) example_record_data (VStr "r0")
           (VStr "r7")); reflexivity.
Defined.

(** Deleting the first zone of the example store. *)
Lemma Zone_delete_invalidates_zones_witness :
  ∃ w', Zone_delete example_remote 0 example_world = (Ok tt, w') ∧
        w_log w' = [(example_service, delete_zone (VStr "z1"))] ∧
        w_zones w' = w_zones example_world ∧
        u_zones <$> (w_users w' !! 0) = Some None ∧
        w_log (User_zones example_remote 0 w').2
          = w_log w' ++ [(example_service, get_zones)] ∧
        (∀ zs, (User_zones example_remote 0 w').1 = Ok zs → 0 ∉ zs).
Proof.
  apply (Zone_delete_invalidates_zones example_remote example_world 0
           example_zone (VStr "z1") example_user 1); reflexivity.
Defined.

(** Reading the records of the zone that was not read yet: the
    four listed records are filed under [www] and [mail], the three under
    [www] in the order [A 1.1.1.1], [A 2.2.2.2], [TXT]. *)
Lemma Zone_records_index_witness :
  ∃ w', Zone_records example_remote 1 example_world
          = (Ok [(VStr "www", [4; 2; 1]); (VStr "mail", [3])], w') ∧
        w_log w' = [(example_service, get_dns_records (VStr "z2"))] ∧
        (∀ k l, (k, l) ∈ [(VStr "www", [4; 2; 1]); (VStr "mail", [3])] →
           ∃ keys,
             Forall2 (λ r key,
                        Record_getattr "type" r w' = (Ok key.1, w') ∧
                        Record_getattr "content" r w' = (Ok key.2, w')) l keys ∧
             StronglySorted key_le keys) ∧
        z_records <$> (w_zones w' !! 1)
          = Some (Some [(VStr "www", [4; 2; 1]); (VStr "mail", [3])]).
Proof.
  exists (Zone_records example_remote 1 example_world).2.
  assert (Zone_records example_remote 1 example_world
          = (Ok [(VStr "www", [4; 2; 1]); (VStr "mail", [3])],
             (Zone_records example_remote 1 example_world).2)) as Hrun
    by (vm_compute; reflexivity).
  destruct (Zone_records_index example_remote example_world 1
              example_zone_unread _ _ eq_refl eq_refl Hrun)
    as (zid & items & s' & rs & Hzid & _ & Hlog & _ & _ & Hsorted & Hcache).
  split; [exact Hrun|]. split; [|split; [exact Hsorted|]].
  - rewrite Hlog. injection Hzid as <-. reflexivity.
  - exact (f_equal (fmap z_records) Hcache).
Defined.

(** On the zone whose index is built: after a
    creation, after the save of the pending rename and after a deletion,
    the next read of [records] lists the zone again. *)
Lemma records_index_invalidated_witness :
  records_invalidated example_remote 0
    (Zone_create_record example_remote 0 (VStr "www") (VStr "A")
       (VStr "1.2.3.4") (VInt 300) (VBool false) (VInt 10) example_world).2 ∧
  records_invalidated example_remote 0
    (Record_save example_remote 0 example_world).2 ∧
  records_invalidated example_remote 0
    (Record_delete example_remote 0 example_world).2.
Proof.
  destruct (records_index_invalidated example_remote example_world 0
              example_zone _ eq_refl eq_refl) as (Hcreate & Hsave & Hdelete).
  split; [|split].
  - apply (Hcreate (VStr "www") (VStr "A") (VStr "1.2.3.4") (VInt 300)
             (VBool false) (VInt 10) 1).
    vm_compute; reflexivity.
  - apply (Hsave 0 example_record (blob [("name", VStr "web")]));
      [reflexivity | reflexivity | reflexivity | evaluated |].
    vm_compute; reflexivity.
  - apply (Hdelete 0 example_record); [reflexivity | reflexivity |].
    vm_compute; reflexivity.
Defined.

(** * Further properties of the module *)

Section more_properties.
Context {server : Type}.
Variable remote : ∀ q : request, service → server → response q * server.

Implicit Types (w : world (server := server)) (v : value).
Local Abbreviation M := (M (server := server)).
Local Abbreviation readonly := (@readonly server _).
Local Abbreviation preserves := (@preserves server _ _).

(** Evaluates the straight-line part of a method on a store whose relevant
    objects are known. *)
Ltac walk :=
  repeat first
    [ progress
        cbv beta delta
          [bind ret raise lift get_user get_zone get_settings get_record
           put_record put_settings set_cache_zones set_cache_records
           set_cache_settings returned completed Zone_getattr]
    | progress
        cbn beta iota zeta delta
          [slot_contains slot_getitem slot_setitem slot_object slot_truthy
           fst snd w_users w_zones w_settings w_records w_remote w_log
           with_users with_zones with_settings with_records]
    | match goal with
      | H : ?x = _ |- context [?x] => rewrite H
      end ].

(** ** Writing and reading back *)

(** X1. Writing a [ZoneSettings] attribute whose name is neither one of the
    object's own attributes nor a setting of the snapshot raises
    [AttributeError] and leaves the whole store as it was. *)
Theorem ZoneSettings_setattr_unknown_setting w s so st (name : string) v :
  w_settings w !! s = Some so →
  name ∉ ZoneSettings_own_attributes →
  s_settings so = Obj st →
  pd_lookup (VStr name) st = None →
  ZoneSettings_setattr name v s w = (Raise AttributeError, w).
Proof.
  intros Hs Hown Hst Hl. unfold ZoneSettings_setattr. walk.
  rewrite (not_own_attribute _ _ Hown). walk.
  rewrite (settings_has_false _ _ Hl). walk. done.
Qed.





(** ** Saving and deleting a record *)

(** X4. [Record.save] empties the pending edits: a second [save] right
    after one that returned sends no request and changes nothing. *)
Theorem Record_save_twice w r w' :
  Record_save remote r w = (Ok tt, w') →
  Record_save remote r w' = (Ok tt, w').
Proof.
  intros Hrun. unfold Record_save in Hrun.
  apply bind_Ok_inv in Hrun as (ro & w0 & Hget & Hrun).
  unfold get_record in Hget.
  destruct (w_records w !! r) as [ro0|] eqn:Hr; [|done].
  injection Hget as -> <-.
  destruct (slot_truthy dict_nonempty (r_updates ro)) eqn:Hpending.
  - do 10 (apply bind_Ok_inv in Hrun as (? & ? & _ & Hrun)).
    unfold put_record in Hrun. injection Hrun as <-.
    unfold Record_save. walk. by rewrite lookup_insert_eq.
  - injection Hrun as <-. unfold Record_save, bind, get_record.
    by rewrite Hr, Hpending.
Qed.

(** X5. A [Record.save] whose pending edits do not include [name] leaves
    every zone object as it was, so the zone's cached records index is
    kept. *)
Theorem Record_save_keeps_index_without_rename w r ro svc z zo zid u d rid res s' :
  w_records w !! r = Some ro →
  r_service ro = Obj svc → r_zone ro = Obj z →
  w_zones w !! z = Some zo → z_data zo !! "id" = Some zid →
  r_updates ro = Obj u → u ≠ ∅ → u !! "name" = None →
  r_data ro = Obj d →
  (u ∪ d) !! "id" = Some rid →
  remote (update_dns_record zid rid (Obj u)) svc (w_remote w) = (inr res, s') →
  ∃ w', Record_save remote r w = (Ok tt, w') ∧
        w_zones w' = w_zones w ∧ w_users w' = w_users w ∧
        w_settings w' = w_settings w.
Proof.
  intros Hr Hsvc Hz Hzo Hzid Hu Hne Hname Hd Hrid Hrem.
  pose proof (Record_getattr_union _ _ _ _ _ _ _ Hr Hu Hd Hrid) as Hget.
  pose proof (dict_nonempty_true _ Hne) as Hnonempty.
  pose proof (dict_has_false _ _ Hname) as Hhas.
  eexists. split.
  - unfold Record_save. walk. unfold call. walk. reflexivity.
  - done.
Qed.

(** X6. When the provider refuses the update, [Record.save] raises the
    provider's exception after that one request, and every object of the
    store is as before: the pending edits are still staged, the snapshot is
    not touched and no cache is dropped. *)
Theorem Record_save_refused_keeps_edits w r ro svc z zo zid u d rid e s' :
  w_records w !! r = Some ro →
  r_service ro = Obj svc → r_zone ro = Obj z →
  w_zones w !! z = Some zo → z_data zo !! "id" = Some zid →
  r_updates ro = Obj u → u ≠ ∅ →
  r_data ro = Obj d →
  (u ∪ d) !! "id" = Some rid →
  remote (update_dns_record zid rid (Obj u)) svc (w_remote w) = (inl e, s') →
  ∃ w', Record_save remote r w = (Raise e, w') ∧
        w_log w' = w_log w ++ [(svc, update_dns_record zid rid (Obj u))] ∧
        w_records w' = w_records w ∧ w_zones w' = w_zones w ∧
        w_users w' = w_users w ∧ w_settings w' = w_settings w.
Proof.
  intros Hr Hsvc Hz Hzo Hzid Hu Hne Hd Hrid Hrem.
  pose proof (Record_getattr_union _ _ _ _ _ _ _ Hr Hu Hd Hrid) as Hget.
  pose proof (dict_nonempty_true _ Hne) as Hnonempty.
  eexists. split.
  - unfold Record_save. walk. unfold call. walk. reflexivity.
  - done.
Qed.

(** [Record.save] that the provider accepts: the record afterwards holds
    the merged snapshot and no pending edit. *)
Lemma Record_save_merged w r ro svc z zo zid u d rid res s' :
  w_records w !! r = Some ro →
  r_service ro = Obj svc → r_zone ro = Obj z →
  w_zones w !! z = Some zo → z_data zo !! "id" = Some zid →
  r_updates ro = Obj u → u ≠ ∅ →
  r_data ro = Obj d →
  (u ∪ d) !! "id" = Some rid →
  remote (update_dns_record zid rid (Obj u)) svc (w_remote w) = (inr res, s') →
  ∃ w', Record_save remote r w = (Ok tt, w') ∧
        w_records w' !! r = Some (mkRecord (Obj z) (Obj svc) (Obj (res ∪ d)) (Obj ∅)).
Proof.
  intros Hr Hsvc Hz Hzo Hzid Hu Hne Hd Hrid Hrem.
  pose proof (Record_getattr_union _ _ _ _ _ _ _ Hr Hu Hd Hrid) as Hget.
  pose proof (dict_nonempty_true _ Hne) as Hnonempty.
  destruct (dict_has "name" u) eqn:Hname;
    (eexists; split;
     [ unfold Record_save; walk; unfold call; walk; reflexivity
     | simpl; apply lookup_insert_eq ]).
Qed.

(** X8. When the provider refuses the deletion, [Record.delete] raises the
    provider's exception and drops no cache: every object of the store is as
    before. *)
Theorem Record_delete_refused_keeps_index w r ro svc z zo zid u d rid e s' :
  w_records w !! r = Some ro →
  r_service ro = Obj svc → r_zone ro = Obj z →
  w_zones w !! z = Some zo → z_data zo !! "id" = Some zid →
  r_updates ro = Obj u → r_data ro = Obj d →
  (u ∪ d) !! "id" = Some rid →
  remote (delete_dns_record zid rid) svc (w_remote w) = (Some e, s') →
  ∃ w', Record_delete remote r w = (Raise e, w') ∧
        w_log w' = w_log w ++ [(svc, delete_dns_record zid rid)] ∧
        w_records w' = w_records w ∧ w_zones w' = w_zones w ∧
        w_users w' = w_users w ∧ w_settings w' = w_settings w.
Proof.
  intros Hr Hsvc Hz Hzo Hzid Hu Hd Hrid Hrem.
  pose proof (Record_getattr_union _ _ _ _ _ _ _ Hr Hu Hd Hrid) as Hget.
  eexists. split.
  - unfold Record_delete. walk. unfold call. walk. reflexivity.
  - done.
Qed.

(** X9. A successful [Record.delete] changes one thing in the store: the
    records index of the record's zone is dropped. The record object itself
    (its snapshot and its pending edits), the zone's snapshot and cached
    settings, and every other zone are as before. *)
Theorem Record_delete_touches_only_index w r ro svc z zo zid u d rid s' :
  w_records w !! r = Some ro →
  r_service ro = Obj svc → r_zone ro = Obj z →
  w_zones w !! z = Some zo → z_data zo !! "id" = Some zid →
  r_updates ro = Obj u → r_data ro = Obj d →
  (u ∪ d) !! "id" = Some rid →
  remote (delete_dns_record zid rid) svc (w_remote w) = (None, s') →
  ∃ w', Record_delete remote r w = (Ok tt, w') ∧
        w_records w' = w_records w ∧
        w_zones w' !! z
          = Some (mkZone (z_user zo) (z_service zo) (z_data zo) (z_settings zo) None) ∧
        (∀ z', z' ≠ z → w_zones w' !! z' = w_zones w !! z') ∧
        w_users w' = w_users w ∧ w_settings w' = w_settings w.
Proof.
  intros Hr Hsvc Hz Hzo Hzid Hu Hd Hrid Hrem.
  pose proof (Record_getattr_union _ _ _ _ _ _ _ Hr Hu Hd Hrid) as Hget.
  eexists. split; [|split; [|split; [|split]]].
  - unfold Record_delete. walk. unfold call. walk. reflexivity.
  - done.
  - simpl. by rewrite lookup_alter_eq, Hzo.
  - intros z' Hne. simpl. by rewrite lookup_alter_ne.
  - done.
Qed.

(** ** Deleting a zone, creating a record *)

(** X10. When the provider refuses the deletion, [Zone.delete] raises the
    provider's exception and the user's cached zone list is kept. *)
Theorem Zone_delete_refused_keeps_zones w z zo zid e s' :
  w_zones w !! z = Some zo →
  z_data zo !! "id" = Some zid →
  remote (delete_zone zid) (z_service zo) (w_remote w) = (Some e, s') →
  ∃ w', Zone_delete remote z w = (Raise e, w') ∧
        w_log w' = w_log w ++ [(z_service zo, delete_zone zid)] ∧
        w_users w' = w_users w ∧ w_zones w' = w_zones w.
Proof.
  intros Hz Hid Hrem. eexists. split.
  - unfold Zone_delete. walk. unfold call. walk. reflexivity.
  - done.
Qed.

(** X11. [Zone.create_record] returns a new [Record] that wraps the
    provider's response, not the payload that was posted: its snapshot is the
    response, it has no pending edit, and it belongs to this zone. The
    records that existed are untouched. *)
Theorem Zone_create_record_wraps_response w z zo zid
    (name type content ttl proxied priority : value) record s' :
  w_zones w !! z = Some zo → z_data zo !! "id" = Some zid →
  remote (create_dns_record zid
            (create_record_data name type content ttl proxied priority))
         (z_service zo) (w_remote w) = (inr record, s') →
  ∃ r w', Zone_create_record remote z name type content ttl proxied priority w
            = (Ok r, w') ∧
          w_records w !! r = None ∧
          w_records w' !! r
            = Some (mkRecord (Obj z) (Obj (z_service zo)) (Obj record) (Obj ∅)) ∧
          (∀ r0, r0 ≠ r → w_records w' !! r0 = w_records w !! r0).
Proof.
  intros Hz Hid Hrem.
  eexists _, _. split; [|split; [|split]].
  - unfold Zone_create_record. walk. unfold call. rewrite Hrem. walk.
    unfold new_Record. walk. rewrite lookup_alter_eq, Hz. walk. reflexivity.
  - apply fresh_lookup_None.
  - simpl. apply lookup_insert_eq.
  - intros r0 Hne. simpl. by rewrite lookup_insert_ne.
Qed.

(** X12. When the provider refuses the creation, [Zone.create_record]
    raises the provider's exception, makes no [Record] and keeps the zone's
    cached records index. *)
Theorem Zone_create_record_refused_keeps_index w z zo zid
    (name type content ttl proxied priority : value) e s' :
  w_zones w !! z = Some zo → z_data zo !! "id" = Some zid →
  remote (create_dns_record zid
            (create_record_data name type content ttl proxied priority))
         (z_service zo) (w_remote w) = (inl e, s') →
  ∃ w', Zone_create_record remote z name type content ttl proxied priority w
          = (Raise e, w') ∧
        w_records w' = w_records w ∧ w_zones w' = w_zones w.
Proof.
  intros Hz Hid Hrem. eexists. split.
  - unfold Zone_create_record. walk. unfold call. rewrite Hrem. walk. reflexivity.
  - done.
Qed.

(** ** Zone settings: fetching, saving *)

(** The loop of [_get_settings] files each listed setting under its id. *)
Lemma settings_loop_spec s (items : list dict) : ∀ w so st,
  w_settings w !! s = Some so → s_settings so = Obj st →
  Forall (λ setting : dict, is_Some (setting !! "id")) items →
  ∃ w',
    for_each items
      (λ (_ : unit) (setting : dict),
         match setting !! "id" with
         | None => raise KeyError
         | Some id =>
             bind (get_settings s)
               (λ so',
                  bind (lift (slot_setitem (pd_insert id setting) (s_settings so')))
                    (λ st',
                       put_settings s
                         (mkSettings (s_zone so') (s_service so') st' (s_updates so'))))
         end) tt w
      = (Ok tt, w') ∧
    w_settings w'
      = <[s := mkSettings (s_zone so) (s_service so)
                (Obj (foldl (λ st setting, pd_insert (setting_id setting) setting st)
                            st items))
                (s_updates so)]> (w_settings w) ∧
    w_zones w' = w_zones w ∧ w_users w' = w_users w ∧
    w_records w' = w_records w ∧ w_log w' = w_log w ∧ w_remote w' = w_remote w.
Proof.
  induction items as [|setting items IH]; intros w so st Hs Hst Hids.
  - exists w. split; [done|]. split; [|done]. simpl.
    destruct so as [zn sv sn up]. simpl in *. subst sn. by rewrite insert_id.
  - apply Forall_cons in Hids as [[id Hid] Hids].
    set (so1 := mkSettings (s_zone so) (s_service so)
                           (Obj (pd_insert id setting st)) (s_updates so)).
    destruct (IH (with_settings (insert s so1) w) so1 (pd_insert id setting st))
      as (w' & Hrun & Hset & Hrest); [apply lookup_insert_eq | done | done |].
    exists w'. split; [|split; [|exact Hrest]].
    + erewrite for_each_cons; [exact Hrun|].
      rewrite Hid. walk. reflexivity.
    + rewrite Hset. cbn [w_settings with_settings foldl s_zone s_service s_updates so1].
      rewrite insert_insert_eq.
      replace (setting_id setting) with id by (unfold setting_id; by rewrite Hid).
      done.
Qed.

(** [_get_settings] on a listing whose items all have an id: the snapshot
    is rebuilt from the items that were listed, whether or not the listing
    then fails. *)
Lemma ZoneSettings_get_settings_spec w s so svc z zo zid items fail s' :
  w_settings w !! s = Some so →
  s_service so = Obj svc → s_zone so = Obj z →
  w_zones w !! z = Some zo → z_data zo !! "id" = Some zid →
  remote (get_zone_settings zid) svc (w_remote w) = ((items, fail), s') →
  Forall (λ setting : dict, is_Some (setting !! "id")) items →
  ∃ w',
    ZoneSettings_get_settings remote s w
      = (match fail with None => Ok tt | Some e => Raise e end, w') ∧
    w_settings w'
      = <[s := mkSettings (Obj z) (Obj svc) (Obj (settings_snapshot items))
                          (s_updates so)]> (w_settings w) ∧
    w_zones w' = w_zones w ∧ w_users w' = w_users w ∧
    w_records w' = w_records w ∧
    w_log w' = w_log w ++ [(svc, get_zone_settings zid)] ∧ w_remote w' = s'.
Proof.
  intros Hs Hsvc Hz Hzo Hzid Hrem Hids.
  destruct so as [zn sv sn up]. simpl in Hsvc, Hz. subst zn sv.
  set (so := mkSettings (Obj z) (Obj svc) sn up) in *.
  set (so0 := mkSettings (s_zone so) (s_service so) (Obj []) (s_updates so)).
  set (w0 := mkWorld (w_users w) (w_zones w) (<[s := so0]> (w_settings w))
                     (w_records w) s' (w_log w ++ [(svc, get_zone_settings zid)])).
  destruct (settings_loop_spec s items w0 so0 [])
    as (w' & Hrun & Hset & Hzs & Hus & Hrs & Hlog & Hremote);
    [apply lookup_insert_eq | done | done |].
  exists w'. split; [|split; [|done]].
  - unfold ZoneSettings_get_settings.
    erewrite bind_Ok; [|unfold get_settings; rewrite Hs; reflexivity].
    erewrite bind_Ok; [|reflexivity].
    erewrite bind_Ok; [|reflexivity].
    erewrite bind_Ok; [|reflexivity].
    erewrite bind_Ok; [|unfold Zone_getattr; walk; reflexivity].
    erewrite bind_Ok; [|unfold call; cbn [w_remote with_settings]; rewrite Hrem;
                        reflexivity].
    unfold for_listing. cbn [fst snd].
    erewrite bind_Ok; [|exact Hrun]. by destruct fail.
  - rewrite Hset. simpl. by rewrite insert_insert_eq.
Qed.

(** The state in which [_get_settings] starts once the bulk update was
    accepted. *)
Lemma ZoneSettings_save_submit w s so svc z zo zid u reply s1 :
  w_settings w !! s = Some so →
  s_service so = Obj svc → s_zone so = Obj z →
  s_updates so = Obj u → u ≠ ∅ →
  w_zones w !! z = Some zo → z_data zo !! "id" = Some zid →
  remote (set_zone_settings zid (settings_items u)) svc (w_remote w) = (reply, s1) →
  ZoneSettings_save remote s w
  = bind (completed reply)
      (λ _, bind (ZoneSettings_get_settings remote s)
              (λ _, bind (get_settings s)
                      (λ so', put_settings s
                                (mkSettings (s_zone so') (s_service so')
                                            (s_settings so') (Obj ∅)))))
      (mkWorld (w_users w) (w_zones w) (w_settings w) (w_records w) s1
               (w_log w ++ [(svc, set_zone_settings zid (settings_items u))])).
Proof.
  intros Hs Hsvc Hz Hu Hne Hzo Hzid Hrem.
  pose proof (dict_nonempty_true _ Hne) as Hnonempty.
  unfold ZoneSettings_save.
  erewrite bind_Ok; [|unfold get_settings; rewrite Hs; reflexivity].
  rewrite Hu, Hsvc, Hz. cbn [slot_truthy]. rewrite Hnonempty. cbn [negb].
  erewrite bind_Ok; [|reflexivity].
  erewrite bind_Ok; [|reflexivity].
  erewrite bind_Ok; [|reflexivity].
  erewrite bind_Ok; [|unfold Zone_getattr; walk; reflexivity].
  erewrite bind_Ok; [|unfold call; rewrite Hrem; reflexivity].
  reflexivity.
Qed.

(** X13. [ZoneSettings.save] with pending edits sends two requests, in this
    order: the bulk update, carrying one [{id, value}] item per pending edit
    and nothing else, and then the listing of the zone's settings. The
    snapshot is replaced by what was listed and the pending edits are
    emptied. *)
Theorem ZoneSettings_save_submits_and_refetches w s so svc z zo zid u items s1 s2 :
  w_settings w !! s = Some so →
  s_service so = Obj svc → s_zone so = Obj z →
  s_updates so = Obj u → u ≠ ∅ →
  w_zones w !! z = Some zo → z_data zo !! "id" = Some zid →
  remote (set_zone_settings zid (settings_items u)) svc (w_remote w) = (None, s1) →
  remote (get_zone_settings zid) svc s1 = ((items, None), s2) →
  Forall (λ setting : dict, is_Some (setting !! "id")) items →
  ∃ w', ZoneSettings_save remote s w = (Ok tt, w') ∧
        w_log w' = w_log w ++ [(svc, set_zone_settings zid (settings_items u));
                               (svc, get_zone_settings zid)] ∧
        w_remote w' = s2 ∧
        w_settings w' !! s
          = Some (mkSettings (Obj z) (Obj svc) (Obj (settings_snapshot items)) (Obj ∅)) ∧
        (∀ (name : string) v,
           u !! name = Some v ↔
           <["id" := VStr name]> (<["value" := v]> (∅ : dict)) ∈ settings_items u).
Proof.
  intros Hs Hsvc Hz Hu Hne Hzo Hzid Hrem1 Hrem2 Hids.
  set (w1 := mkWorld (w_users w) (w_zones w) (w_settings w) (w_records w) s1
                     (w_log w ++ [(svc, set_zone_settings zid (settings_items u))])).
  destruct (ZoneSettings_get_settings_spec w1 s so svc z zo zid items None s2)
    as (w2 & Hrun & Hset & Hzs & Hus & Hrs & Hlog & Hremote); try done.
  eexists. split; [|split; [|split; [|split]]].
  - erewrite ZoneSettings_save_submit by eauto.
    fold w1. erewrite bind_Ok; [|reflexivity].
    erewrite bind_Ok; [|exact Hrun].
    erewrite bind_Ok;
      [|unfold get_settings; rewrite Hset, lookup_insert_eq; reflexivity].
    reflexivity.
  - cbn [put_settings snd w_log with_settings]. rewrite Hlog. simpl.
    by rewrite <- app_assoc.
  - done.
  - cbn [put_settings snd w_settings with_settings]. by rewrite lookup_insert_eq.
  - intros name v. unfold settings_items. rewrite list_elem_of_fmap. split.
    + intros Hv. exists (name, v). split; [done|]. by apply elem_of_map_to_list.
    + intros ([name' v'] & Heq & Hin). apply elem_of_map_to_list in Hin.
      simpl in Heq.
      assert (VStr name = VStr name') as [= ->].
      { apply (f_equal (λ m : dict, m !! "id")) in Heq.
        vm_compute in Heq. by injection Heq as ->. }
      assert (v = v') as ->; [|done].
      apply (f_equal (λ m : dict, m !! "value")) in Heq.
      vm_compute in Heq. by injection Heq as ->.
Qed.

(** X14. When the provider refuses the bulk update, [ZoneSettings.save]
    raises the provider's exception after that one request: the settings are
    not listed again, and the snapshot and the pending edits are as
    before. *)
Theorem ZoneSettings_save_refused_keeps_edits w s so svc z zo zid u e s1 :
  w_settings w !! s = Some so →
  s_service so = Obj svc → s_zone so = Obj z →
  s_updates so = Obj u → u ≠ ∅ →
  w_zones w !! z = Some zo → z_data zo !! "id" = Some zid →
  remote (set_zone_settings zid (settings_items u)) svc (w_remote w) = (Some e, s1) →
  ∃ w', ZoneSettings_save remote s w = (Raise e, w') ∧
        w_log w' = w_log w ++ [(svc, set_zone_settings zid (settings_items u))] ∧
        w_settings w' = w_settings w ∧ w_zones w' = w_zones w.
Proof.
  intros Hs Hsvc Hz Hu Hne Hzo Hzid Hrem.
  eexists. split.
  - erewrite ZoneSettings_save_submit by eauto.
    reflexivity.
  - done.
Qed.

(** X15. When the bulk update is accepted but the listing that follows
    fails, [ZoneSettings.save] raises the listing's exception with the
    pending edits still staged (a later [save] submits them again), and the
    snapshot holds only the settings that were listed before the failure. *)
Theorem ZoneSettings_save_refetch_failure_keeps_edits
    w s so svc z zo zid u items e s1 s2 :
  w_settings w !! s = Some so →
  s_service so = Obj svc → s_zone so = Obj z →
  s_updates so = Obj u → u ≠ ∅ →
  w_zones w !! z = Some zo → z_data zo !! "id" = Some zid →
  remote (set_zone_settings zid (settings_items u)) svc (w_remote w) = (None, s1) →
  remote (get_zone_settings zid) svc s1 = ((items, Some e), s2) →
  Forall (λ setting : dict, is_Some (setting !! "id")) items →
  ∃ w', ZoneSettings_save remote s w = (Raise e, w') ∧
        w_settings w' !! s
          = Some (mkSettings (Obj z) (Obj svc) (Obj (settings_snapshot items)) (Obj u)).
Proof.
  intros Hs Hsvc Hz Hu Hne Hzo Hzid Hrem1 Hrem2 Hids.
  set (w1 := mkWorld (w_users w) (w_zones w) (w_settings w) (w_records w) s1
                     (w_log w ++ [(svc, set_zone_settings zid (settings_items u))])).
  destruct (ZoneSettings_get_settings_spec w1 s so svc z zo zid items (Some e) s2)
    as (w2 & Hrun & Hset & _); try done.
  exists w2. split.
  - erewrite ZoneSettings_save_submit by eauto.
    fold w1. erewrite bind_Ok; [|reflexivity].
    unfold bind at 1. by rewrite Hrun.
  - rewrite Hset, lookup_insert_eq. simpl. by rewrite Hu.
Qed.

(** X27. [ZoneSettings.save] empties the pending edits: a second [save]
    right after one that returned sends no request and changes nothing. *)
Theorem ZoneSettings_save_twice w s w' :
  ZoneSettings_save remote s w = (Ok tt, w') →
  ZoneSettings_save remote s w' = (Ok tt, w').
Proof.
  intros Hrun. unfold ZoneSettings_save in Hrun.
  apply bind_Ok_inv in Hrun as (so & w0 & Hget & Hrun).
  unfold get_settings in Hget.
  destruct (w_settings w !! s) as [so0|] eqn:Hs; [|done].
  injection Hget as -> <-.
  destruct (slot_truthy dict_nonempty (s_updates so)) eqn:Hpending; simpl in Hrun.
  - do 8 (apply bind_Ok_inv in Hrun as (? & ? & _ & Hrun)).
    unfold put_settings in Hrun. injection Hrun as <-.
    unfold ZoneSettings_save. walk. by rewrite lookup_insert_eq.
  - injection Hrun as <-. unfold ZoneSettings_save, bind, get_settings.
    by rewrite Hs, Hpending.
Qed.

(** X16. The first read of [Zone.settings] makes a new [ZoneSettings] for
    the zone: it sends the listing request for the zone's settings, takes
    the listed settings as its snapshot, has no pending edit, and is kept as
    the zone's cached value, so that a second read returns the same object
    and sends nothing. *)
Theorem Zone_settings_built_once w z zo zid items s' :
  w_zones w !! z = Some zo → z_settings zo = None →
  z_data zo !! "id" = Some zid →
  remote (get_zone_settings zid) (z_service zo) (w_remote w) = ((items, None), s') →
  Forall (λ setting : dict, is_Some (setting !! "id")) items →
  ∃ s w', Zone_settings remote z w = (Ok s, w') ∧
          w_settings w !! s = None ∧
          w_settings w' !! s
            = Some (mkSettings (Obj z) (Obj (z_service zo))
                               (Obj (settings_snapshot items)) (Obj ∅)) ∧
          w_log w' = w_log w ++ [(z_service zo, get_zone_settings zid)] ∧
          Zone_settings remote z w' = (Ok s, w').
Proof.
  intros Hz Hc Hzid Hrem Hids.
  set (s := fresh (dom (w_settings w))).
  set (so0 := mkSettings (Obj z) (Obj (z_service zo)) (Obj []) (Obj ∅)).
  set (wa := with_settings (insert s so0) w).
  destruct (ZoneSettings_get_settings_spec wa s so0 (z_service zo) z zo zid items
              None s')
    as (w2 & Hrun & Hset & Hzs & Hus & Hrs & Hlog & Hremote);
    [apply lookup_insert_eq | done..|].
  set (so2 := mkSettings (Obj z) (Obj (z_service zo))
                         (Obj (settings_snapshot items)) (Obj ∅)).
  assert (new_ZoneSettings remote z w = (Ok s, with_settings (insert s so2) w2))
    as Hnew.
  { unfold new_ZoneSettings.
    erewrite bind_Ok; [|unfold get_zone; rewrite Hz; reflexivity].
    erewrite bind_Ok; [|reflexivity]. fold s so0 wa.
    erewrite bind_Ok; [|exact Hrun].
    erewrite bind_Ok;
      [|unfold get_settings; rewrite Hset, lookup_insert_eq; reflexivity].
    reflexivity. }
  eexists s, _. split; [|split; [|split; [|split]]].
  - unfold Zone_settings.
    erewrite bind_Ok; [|unfold get_zone; rewrite Hz; reflexivity].
    rewrite Hc. erewrite bind_Ok; [|exact Hnew]. reflexivity.
  - apply fresh_lookup_None.
  - simpl. apply lookup_insert_eq.
  - simpl. exact Hlog.
  - unfold Zone_settings.
    erewrite bind_Ok;
      [|unfold get_zone; cbn [w_zones with_zones with_settings];
        rewrite lookup_alter_eq, Hzs; cbn [wa w_zones with_settings];
        rewrite Hz; reflexivity].
    reflexivity.
Qed.

Lemma snapshot_lookup (items : list dict) : ∀ (st : pydict dict) k,
  pd_lookup k (foldl (λ st setting, pd_insert (setting_id setting) setting st) st items)
  = match last (filter (λ setting, py_eq (setting_id setting) k = true) items) with
    | Some setting => Some setting
    | None => pd_lookup k st
    end.
Proof.
  induction items as [|setting items IH]; intros st k; [done|].
  cbn [foldl]. rewrite IH. unfold pd_insert. rewrite pd_lookup_upsert.
  rewrite filter_cons. destruct (decide (py_eq (setting_id setting) k = true)) as [Heq|Hne].
  - rewrite Heq. rewrite last_cons. by destruct (last _).
  - apply not_true_is_false in Hne. rewrite Hne. done.
Qed.

(** X17. After [_get_settings] a name is a known setting exactly when the
    listing has an item with that id, and its descriptor is then the last
    such item: an id that is listed twice keeps the later descriptor. *)
Theorem ZoneSettings_get_settings_last_wins w s so svc z zo zid items s' :
  w_settings w !! s = Some so →
  s_service so = Obj svc → s_zone so = Obj z →
  w_zones w !! z = Some zo → z_data zo !! "id" = Some zid →
  remote (get_zone_settings zid) svc (w_remote w) = ((items, None), s') →
  Forall (λ setting : dict, is_Some (setting !! "id")) items →
  ∃ w' st,
    ZoneSettings_get_settings remote s w = (Ok tt, w') ∧
    s_settings <$> (w_settings w' !! s) = Some (Obj st) ∧
    ∀ name : string,
      pd_lookup (VStr name) st
      = last (filter (λ setting, py_eq (setting_id setting) (VStr name) = true) items).
Proof.
  intros Hs Hsvc Hz Hzo Hzid Hrem Hids.
  destruct (ZoneSettings_get_settings_spec w s so svc z zo zid items None s')
    as (w' & Hrun & Hset & _); try done.
  exists w', (settings_snapshot items). split; [exact Hrun|]. split.
  - by rewrite Hset, lookup_insert_eq.
  - intros name. unfold settings_snapshot. rewrite snapshot_lookup.
    by destruct (last _).
Qed.

(** X18. A descriptor that lacks a field makes the access raise [KeyError],
    not [AttributeError]: reading a setting whose descriptor has no [value],
    and writing one whose descriptor has no [editable]. Nothing is staged
    by the failed write. *)
Theorem ZoneSettings_descriptor_missing_field w s so st u (name : string) v setting :
  w_settings w !! s = Some so →
  name ∉ ZoneSettings_own_attributes →
  s_settings so = Obj st → s_updates so = Obj u →
  u !! name = None →
  pd_lookup (VStr name) st = Some setting →
  (setting !! "value" = None →
     ZoneSettings_getattr name s w = (Raise KeyError, w)) ∧
  (setting !! "editable" = None →
     ZoneSettings_setattr name v s w = (Raise KeyError, w)).
Proof.
  intros Hs Hown Hst Hu Hn Hl. split; intros Hmiss.
  - unfold ZoneSettings_getattr. walk.
    rewrite (dict_has_false _ _ Hn). walk.
    rewrite (settings_has_true _ _ _ Hl). walk. done.
  - unfold ZoneSettings_setattr. walk.
    rewrite (not_own_attribute _ _ Hown). walk.
    rewrite (settings_has_true _ _ _ Hl). walk. done.
Qed.

(** ** Cached properties: built once, and only when the build returns *)

Lemma preserves_readonly {X A} (part : world → X) (m : M A) :
  readonly m → preserves part m.
Proof. intros H w. by rewrite H. Qed.

Lemma preserves_bind {X A B} (part : world → X) (m : M A) (k : A → M B) :
  preserves part m → (∀ a, preserves part (k a)) → preserves part (bind m k).
Proof.
  intros Hm Hk w. unfold bind. specialize (Hm w).
  destruct (m w) as [[a | e |] w1]; simpl in *; [|done|done].
  by rewrite Hk.
Qed.

Lemma preserves_for_each {X A B} (part : world → X) (items : list A)
    (body : B → A → M B) acc :
  (∀ acc x, preserves part (body acc x)) → preserves part (for_each items body acc).
Proof.
  intros Hbody. revert acc. induction items as [|x items IH]; intros acc; simpl.
  - by apply preserves_readonly.
  - apply preserves_bind; [apply Hbody | intros a; apply IH].
Qed.

Lemma preserves_for_listing {X A B} (part : world → X) (l : list A * option exn)
    (body : B → A → M B) acc :
  (∀ acc x, preserves part (body acc x)) → preserves part (for_listing l body acc).
Proof.
  intros Hbody. apply preserves_bind; [by apply preserves_for_each|].
  intros a. destruct l.2; by apply preserves_readonly.
Qed.

Lemma call_preserves_zones svc q : preserves w_zones (call remote svc q).
Proof. intros w. unfold call. by destruct (remote _ _ _). Qed.

Lemma call_preserves_users svc q : preserves w_users (call remote svc q).
Proof. intros w. unfold call. by destruct (remote _ _ _). Qed.

Lemma Zone_getattr_readonly name z : readonly (Zone_getattr name z).
Proof.
  apply readonly_bind; [done|]. intros zo. by destruct (z_data zo !! name).
Qed.

Lemma Zone_records_body_preserves {X} (part : world → X) z :
  (∀ svc q, preserves part (call remote svc q)) →
  (∀ f w, part (with_records f w) = part w) →
  preserves part (Zone_records_body remote z).
Proof.
  intros Hcall Hrec. unfold Zone_records_body. apply preserves_bind.
  - unfold Zone_iter_records.
    apply preserves_bind; [by apply preserves_readonly|]. intros zo.
    apply preserves_bind; [apply preserves_readonly, Zone_getattr_readonly|].
    intros zid. apply preserves_bind; [apply Hcall|]. intros l.
    apply preserves_for_listing. intros acc record.
    apply preserves_bind.
    + unfold new_Record. apply preserves_bind; [by apply preserves_readonly|].
      intros zo' w. apply Hrec.
    + intros r. apply preserves_readonly, readonly_bind;
        [apply readonly_Record_getattr | done].
  - intros by_name. apply preserves_readonly, readonly_for_each. intros acc kv.
    apply readonly_bind; [apply readonly_sort_records | done].
Qed.

(** X19. Reading [Zone.records] again right after a read that returned
    gives the same index, sends no request and changes nothing: the listing
    is fetched once. *)
Theorem Zone_records_read_again w z idx w' :
  Zone_records remote z w = (Ok idx, w') →
  Zone_records remote z w' = (Ok idx, w').
Proof.
  intros Hrun.
  destruct (w_zones w !! z) as [zo|] eqn:Hz.
  - destruct (z_records zo) as [idx0|] eqn:Hc.
    + unfold Zone_records in Hrun.
      erewrite bind_Ok in Hrun; [|unfold get_zone; rewrite Hz; reflexivity].
      rewrite Hc in Hrun. injection Hrun as <- <-.
      unfold Zone_records.
      erewrite bind_Ok; [|unfold get_zone; rewrite Hz; reflexivity].
      by rewrite Hc.
    + destruct (Zone_records_miss_inv remote _ _ _ _ _ Hz Hc Hrun)
        as (zid & items & s' & new & w1 & _ & _ & _ & _ & Hzs & _ & ->).
      unfold Zone_records.
      erewrite bind_Ok;
        [|unfold get_zone; cbn [w_zones with_zones];
          rewrite lookup_alter_eq, Hzs, Hz; reflexivity].
      reflexivity.
  - unfold Zone_records, bind, get_zone in Hrun. by rewrite Hz in Hrun.
Qed.

(** X20. When [Zone.records] raises, whether the listing failed or a listed
    blob lacks [name], [type] or [content], nothing is cached and no zone or
    user object has changed: the next read sends the listing request
    again. *)
Theorem Zone_records_failure_not_cached w z zo zid e w' :
  w_zones w !! z = Some zo → z_records zo = None →
  z_data zo !! "id" = Some zid →
  Zone_records remote z w = (Raise e, w') →
  w_zones w' = w_zones w ∧ w_users w' = w_users w ∧
  w_log (Zone_records remote z w').2
    = w_log w' ++ [(z_service zo, get_dns_records zid)].
Proof.
  intros Hz Hc Hzid Hrun.
  assert (w_zones w' = w_zones w ∧ w_users w' = w_users w) as [Hzs Hus].
  { unfold Zone_records in Hrun.
    erewrite bind_Ok in Hrun; [|unfold get_zone; rewrite Hz; reflexivity].
    rewrite Hc in Hrun. unfold bind at 1 in Hrun.
    pose proof (Zone_records_body_preserves w_zones z call_preserves_zones
                  (λ _ _, eq_refl) w) as Hpz.
    pose proof (Zone_records_body_preserves w_users z call_preserves_users
                  (λ _ _, eq_refl) w) as Hpu.
    destruct (Zone_records_body remote z w) as [[idx | e' |] w1]; [done| |done].
    injection Hrun as <- <-. done. }
  split; [done|]. split; [done|].
  eapply Zone_records_miss_log; [by rewrite Hzs | done | done].
Qed.

(** X21. Reading [User.zones] again right after a read that returned gives
    the same list of zone objects, sends no request and changes nothing. *)
Theorem User_zones_read_again w u zs w' :
  User_zones remote u w = (Ok zs, w') →
  User_zones remote u w' = (Ok zs, w').
Proof.
  intros Hrun.
  destruct (w_users w !! u) as [uo|] eqn:Hu.
  - destruct (u_zones uo) as [zs0|] eqn:Hc.
    + unfold User_zones in Hrun.
      erewrite bind_Ok in Hrun; [|unfold get_user; rewrite Hu; reflexivity].
      rewrite Hc in Hrun. injection Hrun as <- <-.
      unfold User_zones.
      erewrite bind_Ok; [|unfold get_user; rewrite Hu; reflexivity].
      by rewrite Hc.
    + unfold User_zones in Hrun.
      erewrite bind_Ok in Hrun; [|unfold get_user; rewrite Hu; reflexivity].
      rewrite Hc in Hrun.
      apply bind_Ok_inv in Hrun as (l & w0 & Hcall & Hrun).
      apply bind_Ok_inv in Hrun as (zs1 & w1 & Hloop & Hrun).
      apply bind_Ok_inv in Hrun as ([] & w2 & Hset & Hret).
      injection Hset as <-. injection Hret as <- <-.
      assert (w_users w1 = w_users w) as Hus.
      { pose proof (call_preserves_users (u_service uo) get_zones w) as H0.
        rewrite Hcall in H0. simpl in H0. rewrite <- H0.
        assert (preserves w_users
                  (for_listing l
                     (λ acc zone, bind (new_Zone u zone) (λ z, ret (acc ++ [z])))
                     ([] : list loc))) as H1.
        { apply preserves_for_listing. intros acc zone.
          apply preserves_bind; [|intros; by apply preserves_readonly].
          unfold new_Zone. apply preserves_bind; [by apply preserves_readonly|].
          by intros uo' w3. }
        specialize (H1 w0). by rewrite Hloop in H1. }
      unfold User_zones.
      erewrite bind_Ok;
        [|unfold get_user; cbn [w_users with_users];
          rewrite lookup_alter_eq, Hus, Hu; reflexivity].
      reflexivity.
  - unfold User_zones, bind, get_user in Hrun. by rewrite Hu in Hrun.
Qed.

(** X22. When the listing of zones fails, [User.zones] raises and caches
    nothing: no user object has changed, so the next read fetches again. *)
Theorem User_zones_failure_not_cached w u e w' :
  User_zones remote u w = (Raise e, w') →
  w_users w' = w_users w.
Proof.
  intros Hrun.
  destruct (w_users w !! u) as [uo|] eqn:Hu;
    [|unfold User_zones, bind, get_user in Hrun; by rewrite Hu in Hrun].
  unfold User_zones in Hrun.
  erewrite bind_Ok in Hrun; [|unfold get_user; rewrite Hu; reflexivity].
  destruct (u_zones uo) as [zs0|]; [done|].
  assert (preserves w_users
            (bind (call remote (u_service uo) get_zones)
               (λ l, for_listing l
                       (λ acc zone, bind (new_Zone u zone) (λ z, ret (acc ++ [z])))
                       ([] : list loc)))) as Hp.
  { apply preserves_bind; [apply call_preserves_users|]. intros l.
    apply preserves_for_listing. intros acc zone.
    apply preserves_bind; [|intros; by apply preserves_readonly].
    unfold new_Zone. apply preserves_bind; [by apply preserves_readonly|].
    by intros uo' w3. }
  specialize (Hp w). unfold bind at 1 in Hp.
  unfold bind at 1 in Hrun.
  destruct (call remote (u_service uo) get_zones w) as [[l | e0 |] w0]; [| |done].
  - unfold bind at 1 in Hrun.
    destruct (for_listing l _ [] w0) as [[zs1 | e1 |] w1]; [done| |done].
    injection Hrun as <- <-. exact Hp.
  - injection Hrun as <- <-. exact Hp.
Qed.

Lemma new_ZoneSettings_preserves_zones z :
  preserves w_zones (new_ZoneSettings remote z).
Proof.
  unfold new_ZoneSettings.
  apply preserves_bind; [by apply preserves_readonly|]. intros zo.
  apply preserves_bind; [by intros w|]. intros s.
  apply preserves_bind.
  - unfold ZoneSettings_get_settings.
    apply preserves_bind; [by apply preserves_readonly|]. intros so.
    apply preserves_bind; [by intros w|]. intros _.
    apply preserves_bind; [by apply preserves_readonly|]. intros svc.
    apply preserves_bind; [by apply preserves_readonly|]. intros z'.
    apply preserves_bind; [apply preserves_readonly, Zone_getattr_readonly|].
    intros zid. apply preserves_bind; [apply call_preserves_zones|]. intros l.
    apply preserves_for_listing. intros [] setting.
    destruct (setting !! "id"); [|by apply preserves_readonly].
    apply preserves_bind; [by apply preserves_readonly|]. intros so'.
    apply preserves_bind; [by apply preserves_readonly|]. by intros st w.
  - intros _. apply preserves_bind; [by apply preserves_readonly|]. intros so.
    apply preserves_bind; [by intros w|]. intros _. by apply preserves_readonly.
Qed.

(** X23. When the first read of [Zone.settings] raises (the listing of the
    settings failed, or a listed setting has no id), no [ZoneSettings] is
    cached and no zone object has changed. *)
Theorem Zone_settings_failure_not_cached w z e w' :
  Zone_settings remote z w = (Raise e, w') →
  w_zones w' = w_zones w.
Proof.
  intros Hrun.
  destruct (w_zones w !! z) as [zo|] eqn:Hz;
    [|unfold Zone_settings, bind, get_zone in Hrun; by rewrite Hz in Hrun].
  unfold Zone_settings in Hrun.
  erewrite bind_Ok in Hrun; [|unfold get_zone; rewrite Hz; reflexivity].
  destruct (z_settings zo); [done|].
  unfold bind at 1 in Hrun.
  pose proof (new_ZoneSettings_preserves_zones z w) as Hp.
  destruct (new_ZoneSettings remote z w) as [[s | e' |] w1]; [done| |done].
  injection Hrun as <- <-. exact Hp.
Qed.

(** ** Iterating the settings *)

Lemma sorted_values_spec (xs ys : list value) :
  sorted_values xs = Ok ys →
  ys ≡ₚ xs ∧ StronglySorted (not_after py_lt) ys.
Proof.
  unfold sorted_values.
  destruct (sort_decorated py_lt _) as [r | e |] eqn:Hsort; try done.
  intros [= <-]. split.
  - rewrite (sort_decorated_perm _ _ _ Hsort).
    rewrite <- list_fmap_compose. by rewrite list_fmap_id.
  - eapply sort_decorated_sorted; [apply py_lt_asym | | exact Hsort].
    intros a b c. apply py_nlt_trans.
Qed.

(** X24. Iterating a [ZoneSettings] yields the ids of its snapshot, each
    as often as the snapshot has it, in ascending order; the store is not
    changed and no request is sent. *)
Theorem ZoneSettings_iter_sorted_ids w s so st ids w' :
  w_settings w !! s = Some so →
  s_settings so = Obj st →
  ZoneSettings_iter s w = (Ok ids, w') →
  w' = w ∧ ids ≡ₚ st.*1 ∧ StronglySorted (not_after py_lt) ids.
Proof.
  intros Hs Hst. unfold ZoneSettings_iter.
  erewrite bind_Ok; [|unfold get_settings; rewrite Hs; reflexivity].
  rewrite Hst. intros Hrun. apply lift_Ok_inv in Hrun as [Hsorted ->].
  split; [done|]. by apply sorted_values_spec.
Qed.

(** ** A user and its requests *)

(** X25. A [User] made from an email and an API key has nothing cached, and
    its first [zones] read sends the zone listing through the service handle
    built from that API key and that email. *)
Theorem User_fetches_with_its_credentials w (email api_key : value) :
  ∃ u w1, new_User email api_key w = (Ok u, w1) ∧
          w_users w !! u = None ∧
          w_users w1 !! u
            = Some (mkUser email (CloudFlareService api_key email) None) ∧
          w_log (User_zones remote u w1).2
            = w_log w ++ [(CloudFlareService api_key email, get_zones)].
Proof.
  eexists _, _. split; [reflexivity|]. split; [apply fresh_lookup_None|].
  split; [simpl; apply lookup_insert_eq|].
  match goal with |- context [User_zones remote ?u ?w1] =>
    destruct (remote get_zones (CloudFlareService api_key email) (w_remote w1))
      as [[items fail] s'] eqn:Hrem;
    destruct (User_zones_miss remote w1 u _ items fail s'
                (lookup_insert_eq _ _ _) eq_refl Hrem)
      as (zs & w2 & Hrun & Hlog & _)
  end.
  rewrite Hrun. exact Hlog.
Qed.

(** ** The sort is stable *)

Lemma same_key_not_lt a b k :
  same_key a k → same_key b k → tuple_lt a b = Ok false.
Proof.
  intros [Ha1 Ha2] [Hb1 Hb2]. unfold tuple_lt.
  rewrite (py_eq_sym b.1 k.1) in Hb1. rewrite (py_eq_sym b.2 k.2) in Hb2.
  by rewrite (py_eq_trans _ _ _ Ha1 Hb1), (py_eq_trans _ _ _ Ha2 Hb2).
Qed.

Lemma insert_sorted_stable {A} (x : value * value * A) l r k :
  insert_sorted tuple_lt x l = Ok r →
  filter (λ y, same_key y.1 k) r = filter (λ y, same_key y.1 k) (x :: l).
Proof.
  revert r. induction l as [|y l IH]; intros r; simpl.
  - by intros [= <-].
  - destruct (tuple_lt y.1 x.1) as [[|] | e |] eqn:Hlt; try done; [|by intros [= <-]].
    destruct (insert_sorted tuple_lt x l) as [r' | e |]; try done.
    intros [= <-]. rewrite filter_cons, (IH r' eq_refl), !filter_cons.
    destruct (decide (same_key x.1 k)) as [Hx|Hx]; [|done].
    destruct (decide (same_key y.1 k)) as [Hy|Hy]; [|done].
    by rewrite (same_key_not_lt _ _ _ Hy Hx) in Hlt.
Qed.

Lemma sort_decorated_stable {A} (l r : list (value * value * A)) k :
  sort_decorated tuple_lt l = Ok r →
  filter (λ y, same_key y.1 k) r = filter (λ y, same_key y.1 k) l.
Proof.
  revert r. induction l as [|x l IH]; intros r; simpl.
  - by intros [= <-].
  - destruct (sort_decorated tuple_lt l) as [r' | e |]; try done.
    intros Hins. rewrite (insert_sorted_stable _ _ _ k Hins), !filter_cons.
    by rewrite (IH r' eq_refl).
Qed.

Lemma filter_fmap_agree {A B} (f : A → B) (P : B → Prop) (Q : A → Prop)
    `{∀ x, Decision (P x)} `{∀ x, Decision (Q x)} (l : list A) :
  Forall (λ x, P (f x) ↔ Q x) l → filter P (f <$> l) = f <$> filter Q l.
Proof.
  induction 1 as [|x l Hx _ IH]; [done|].
  rewrite fmap_cons, !filter_cons, IH.
  destruct (decide (P (f x))), (decide (Q x)); tauto.
Qed.

(** X26. The sort of [Zone.records] is stable: in the sorted list of one
    name, the records whose [(type, content)] equal a given key are in the
    order in which they were before the sort, which is the order of the
    listing. *)
Theorem sort_keeps_order_of_equal_keys (l l' : list loc) w w' k :
  sort_records l w = (Ok l', w') →
  filter (keyed_as w k) l' = filter (keyed_as w k) l.
Proof.
  unfold sort_records. intros Hrun.
  apply bind_Ok_inv in Hrun as (keyed & w1 & Hkeyed & Hrun).
  apply keyed_loop_spec in Hkeyed as (-> & ks & -> & Hall). simpl in Hrun.
  apply bind_Ok_inv in Hrun as (sorted & w1 & Hsort & Hret).
  injection Hret as <- <-. unfold lift in Hsort. injection Hsort as Hsort <-.
  assert (Forall (λ y : value * value * loc,
                    keyed_as w k y.2 ↔ same_key y.1 k) ks) as Hks.
  { clear -Hall. induction Hall as [|r y l ks Hy _ IH]; constructor; [|done].
    destruct (Record_sort_key_inv _ _ _ _ Hy) as (_ & -> & _).
    unfold keyed_as, same_key. by rewrite Hy. }
  assert (ks.*2 = l) as <-.
  { clear -Hall. induction Hall as [|r y l ks Hy _ IH]; [done|].
    apply Record_sort_key_inv in Hy as (_ & Hy & _). rewrite fmap_cons.
    by f_equal. }
  rewrite (filter_fmap_agree snd (keyed_as w k) (λ y, same_key y.1 k) ks Hks).
  rewrite <- (sort_decorated_stable _ _ k Hsort).
  apply filter_fmap_agree.
  by rewrite (sort_decorated_perm _ _ _ Hsort).
Qed.

End more_properties.

(** * Reading attributes *)

Section attribute_reads.
Context {server : Type}.
Variable remote : ∀ q : request, service → server → response q * server.
Variable object_has : string → bool.

Implicit Types (w : world (server := server)) (v : value).

(** A name that the instance, the class and [object] do not have is
    handed to [__getattr__]. *)
Lemma Record_read_hook w (name : string) r :
  name ∉ Record_own_attributes → name ∉ Record_methods →
  object_has name = false →
  Record_read object_has name r w
  = bind (Record_getattr name r) (λ v, ret (Value v)) w.
Proof.
  intros Hown Hmeth Hobj. unfold Record_read.
  unfold bind at 1. unfold get_record at 1.
  destruct (w_records w !! r) as [ro|] eqn:Hr.
  - unfold Record_own_attributes in Hown.
    repeat (destruct (decide _) as [->|_]; [exfalso; apply Hown; set_solver|]).
    by rewrite (not_own_attribute _ _ Hmeth), Hobj.
  - unfold Record_getattr, bind, get_record. by rewrite Hr.
Qed.

Lemma ZoneSettings_read_hook w (name : string) s :
  name ∉ ZoneSettings_own_attributes → name ∉ ZoneSettings_methods →
  object_has name = false →
  ZoneSettings_read object_has name s w
  = bind (ZoneSettings_getattr name s) (λ v, ret (Value v)) w.
Proof.
  intros Hown Hmeth Hobj. unfold ZoneSettings_read.
  unfold bind at 1. unfold get_settings at 1.
  destruct (w_settings w !! s) as [so|] eqn:Hs.
  - unfold ZoneSettings_own_attributes in Hown.
    repeat (destruct (decide _) as [->|_]; [exfalso; apply Hown; set_solver|]).
    by rewrite (not_own_attribute _ _ Hmeth), Hobj.
  - unfold ZoneSettings_getattr, bind, get_settings. by rewrite Hs.
Qed.

(** A read that goes through [__getattr__] gives what it returns. *)
Lemma hooked_value {A} (m : M (server := server) A) (f : A → attribute) w x :
  m w = (x, w) →
  bind m (λ a, ret (f a)) w
  = (match x with Ok a => Ok (f a) | Raise e => Raise e | Wrong => Wrong end, w).
Proof. intros H. unfold bind. rewrite H. by destruct x. Qed.


(** C6, amended. Reading an attribute of a [Record] or of a [ZoneSettings]
    under a name that is none of the object's four own attributes, no
    function of its class and no attribute that every object has: the read
    returns the pending edit staged under the name when there is one,
    otherwise the last-fetched value (for a setting, the [value] field of
    its descriptor), and raises [AttributeError] when the name is neither
    staged nor in the snapshot. The store is left as it was. *)
Theorem read_pending_then_snapshot w (name : string) :
  object_has name = false →
  (name ∉ Record_own_attributes → name ∉ Record_methods →
   ∀ r ro u, w_records w !! r = Some ro → r_updates ro = Obj u →
     (∀ v, u !! name = Some v →
        Record_read object_has name r w = (Ok (Value v), w)) ∧
     (u !! name = None → ∀ d, r_data ro = Obj d →
        (∀ v, d !! name = Some v →
           Record_read object_has name r w = (Ok (Value v), w)) ∧
        (d !! name = None →
           Record_read object_has name r w = (Raise AttributeError, w)))) ∧
  (name ∉ ZoneSettings_own_attributes → name ∉ ZoneSettings_methods →
   ∀ s so u, w_settings w !! s = Some so → s_updates so = Obj u →
     (∀ v, u !! name = Some v →
        ZoneSettings_read object_has name s w = (Ok (Value v), w)) ∧
     (u !! name = None → ∀ st, s_settings so = Obj st →
        (∀ setting v, pd_lookup (VStr name) st = Some setting →
           setting !! "value" = Some v →
           ZoneSettings_read object_has name s w = (Ok (Value v), w)) ∧
        (pd_lookup (VStr name) st = None →
           ZoneSettings_read object_has name s w = (Raise AttributeError, w)))).
Proof.
  intros Hobj. split.
  - intros Hown Hmeth r ro u Hr Hu. rewrite (Record_read_hook _ _ _ Hown Hmeth Hobj).
    split.
    + intros v Hv. by erewrite hooked_value by (eapply Record_getattr_staged; eauto).
    + intros Hn d Hd. split.
      * intros v Hv.
        by erewrite hooked_value by (eapply Record_getattr_fetched; eauto).
      * intros Hv.
        by erewrite hooked_value by (eapply Record_getattr_unknown; eauto).
  - intros Hown Hmeth s so u Hs Hu.
    rewrite (ZoneSettings_read_hook _ _ _ Hown Hmeth Hobj). split.
    + intros v Hv.
      by erewrite hooked_value by (eapply ZoneSettings_getattr_staged; eauto).
    + intros Hn st Hst. split.
      * intros setting v Hl Hv.
        by erewrite hooked_value by (eapply ZoneSettings_getattr_fetched; eauto).
      * intros Hl.
        by erewrite hooked_value by (eapply ZoneSettings_getattr_unknown; eauto).
Qed.



(** X7. After a [Record.save] that the provider accepts, a field (a name
    that is none of the record's own attributes, no function of the class
    and no attribute of every object) reads from the merged snapshot alone:
    the response's value where the response has the field, the previous
    snapshot's otherwise, and [AttributeError] when neither has it. A staged
    value that the response does not carry is therefore gone. The own
    attributes [_data] and [_updates] read as the merged snapshot and as no
    pending edit. *)
Theorem Record_save_then_read w r ro svc z zo zid u d rid res s' :
  w_records w !! r = Some ro →
  r_service ro = Obj svc → r_zone ro = Obj z →
  w_zones w !! z = Some zo → z_data zo !! "id" = Some zid →
  r_updates ro = Obj u → u ≠ ∅ →
  r_data ro = Obj d →
  (u ∪ d) !! "id" = Some rid →
  remote (update_dns_record zid rid (Obj u)) svc (w_remote w) = (inr res, s') →
  ∃ w', Record_save remote r w = (Ok tt, w') ∧
        Record_read object_has "_data" r w' = (Ok (TheDict (Obj (res ∪ d))), w') ∧
        Record_read object_has "_updates" r w' = (Ok (TheDict (Obj ∅)), w') ∧
        ∀ name : string,
          name ∉ Record_own_attributes → name ∉ Record_methods →
          object_has name = false →
          Record_read object_has name r w'
          = (match res !! name with
             | Some x => Ok (Value x)
             | None => match d !! name with
                       | Some x => Ok (Value x)
                       | None => Raise AttributeError
                       end
             end, w').
Proof.
  intros Hr Hsvc Hz Hzo Hzid Hu Hne Hd Hrid Hrem.
  destruct (Record_save_merged remote w r ro svc z zo zid u d rid res s')
    as (w' & Hrun & Hrec); try done.
  exists w'. split; [done|]. split; [|split].
  - unfold Record_read, bind, get_record. by rewrite Hrec.
  - unfold Record_read, bind, get_record. by rewrite Hrec.
  - intros name Hown Hmeth Hobj. rewrite (Record_read_hook _ _ _ Hown Hmeth Hobj).
    erewrite hooked_value by (by eapply Record_getattr_new).
    rewrite lookup_union. by destruct (res !! name), (d !! name).
Qed.

End attribute_reads.

(** * Closed instances of the further properties *)

(** [ipv6] is not among the example settings. *)
Lemma ZoneSettings_setattr_unknown_setting_witness :
  ZoneSettings_setattr "ipv6" (VStr "on") 0 example_world
    = (Raise AttributeError, example_world).
Proof.
  apply (ZoneSettings_setattr_unknown_setting example_world 0 example_settings
           example_descriptors "ipv6" (VStr "on"));
    [reflexivity | evaluated | reflexivity | reflexivity].
Defined.

(** Saving the renamed example record, twice. *)
Lemma Record_save_twice_witness :
  Record_save example_remote 0 (Record_save example_remote 0 example_world).2
  = (Ok tt, (Record_save example_remote 0 example_world).2).
Proof.
  apply (Record_save_twice example_remote example_world 0).
  vm_compute; reflexivity.
Defined.

(** Saving a new [ttl]: the zone's index stays cached. *)
Lemma Record_save_keeps_index_without_rename_witness :
  ∃ w', Record_save example_remote 1 example_world_more = (Ok tt, w') ∧
        w_zones w' = w_zones example_world_more ∧
        w_users w' = w_users example_world_more ∧
        w_settings w' = w_settings example_world_more.
Proof.
  apply (Record_save_keeps_index_without_rename example_remote example_world_more
           1 example_record_retimed example_service 0 example_zone (VStr "z1")
           (blob [("ttl", VInt 300)]) example_record_data (VStr "r0")
           (blob [("ttl", VInt 300)]) 1);
    [reflexivity | reflexivity | reflexivity | reflexivity | reflexivity
    | reflexivity | evaluated | reflexivity | reflexivity | reflexivity
    | reflexivity].
Defined.

(** The rename is refused: it stays staged. *)
Lemma Record_save_refused_keeps_edits_witness :
  ∃ w', Record_save refusing_remote 0 example_world = (Raise (ServiceError 503), w') ∧
        w_log w'
          = w_log example_world
            ++ [(example_service,
                 update_dns_record (VStr "z1") (VStr "r0")
                                   (Obj (blob [("name", VStr "web")])))] ∧
        w_records w' = w_records example_world ∧
        w_zones w' = w_zones example_world ∧
        w_users w' = w_users example_world ∧
        w_settings w' = w_settings example_world.
Proof.
  apply (Record_save_refused_keeps_edits refusing_remote example_world 0
           example_record example_service 0 example_zone (VStr "z1")
           (blob [("name", VStr "web")]) example_record_data (VStr "r0")
           (ServiceError 503) 1);
    [reflexivity | reflexivity | reflexivity | reflexivity | reflexivity
    | reflexivity | evaluated | reflexivity | reflexivity | reflexivity].
Defined.

(** The deletion is refused: the index stays cached. *)
Lemma Record_delete_refused_keeps_index_witness :
  ∃ w', Record_delete refusing_remote 0 example_world
          = (Raise (ServiceError 503), w') ∧
        w_log w'
          = w_log example_world
            ++ [(example_service, delete_dns_record (VStr "z1") (VStr "r0"))] ∧
        w_records w' = w_records example_world ∧
        w_zones w' = w_zones example_world ∧
        w_users w' = w_users example_world ∧
        w_settings w' = w_settings example_world.
Proof.
  apply (Record_delete_refused_keeps_index refusing_remote example_world 0
           example_record example_service 0 example_zone (VStr "z1")
           (blob [("name", VStr "web")]) example_record_data (VStr "r0")
           (ServiceError 503) 1); reflexivity.
Defined.

(** The deletion is accepted: only the index of zone [0] goes. *)
Lemma Record_delete_touches_only_index_witness :
  ∃ w', Record_delete example_remote 0 example_world = (Ok tt, w') ∧
        w_records w' = w_records example_world ∧
        w_zones w' !! 0
          = Some (mkZone (z_user example_zone) (z_service example_zone)
                         (z_data example_zone) (z_settings example_zone) None) ∧
        (∀ z', z' ≠ 0 → w_zones w' !! z' = w_zones example_world !! z') ∧
        w_users w' = w_users example_world ∧
        w_settings w' = w_settings example_world.
Proof.
  apply (Record_delete_touches_only_index example_remote example_world 0
           example_record example_service 0 example_zone (VStr "z1")
           (blob [("name", VStr "web")]) example_record_data (VStr "r0") 1);
    reflexivity.
Defined.

(** The deletion of the zone is refused: the user's list stays cached. *)
Lemma Zone_delete_refused_keeps_zones_witness :
  ∃ w', Zone_delete refusing_remote 0 example_world = (Raise (ServiceError 503), w') ∧
        w_log w' = w_log example_world ++ [(example_service, delete_zone (VStr "z1"))] ∧
        w_users w' = w_users example_world ∧ w_zones w' = w_zones example_world.
Proof.
  apply (Zone_delete_refused_keeps_zones refusing_remote example_world 0
           example_zone (VStr "z1") (ServiceError 503) 1); reflexivity.
Defined.

(** The record that comes back from a creation carries the id that the
    provider gave it. *)
Lemma Zone_create_record_wraps_response_witness :
  ∃ r w', Zone_create_record example_remote 0 (VStr "www") (VStr "A")
            (VStr "1.2.3.4") (VInt 300) (VBool false) (VInt 10) example_world
            = (Ok r, w') ∧
          w_records example_world !! r = None ∧
          w_records w' !! r
            = Some (mkRecord (Obj 0) (Obj example_service)
                      (Obj (<["id" := VStr "r9"]>
                              (create_record_data (VStr "www") (VStr "A")
                                 (VStr "1.2.3.4") (VInt 300) (VBool false) (VInt 10))))
                      (Obj ∅)) ∧
          (∀ r0, r0 ≠ r → w_records w' !! r0 = w_records example_world !! r0).
Proof.
  apply (Zone_create_record_wraps_response example_remote example_world 0
           example_zone (VStr "z1") (VStr "www") (VStr "A") (VStr "1.2.3.4")
           (VInt 300) (VBool false) (VInt 10)
           (<["id" := VStr "r9"]>
              (create_record_data (VStr "www") (VStr "A") (VStr "1.2.3.4")
                 (VInt 300) (VBool false) (VInt 10))) 1); reflexivity.
Defined.

(** The creation is refused. *)
Lemma Zone_create_record_refused_keeps_index_witness :
  ∃ w', Zone_create_record refusing_remote 0 (VStr "www") (VStr "A")
          (VStr "1.2.3.4") (VInt 300) (VBool false) (VInt 10) example_world
          = (Raise (ServiceError 503), w') ∧
        w_records w' = w_records example_world ∧
        w_zones w' = w_zones example_world.
Proof.
  apply (Zone_create_record_refused_keeps_index refusing_remote example_world 0
           example_zone (VStr "z1") (VStr "www") (VStr "A") (VStr "1.2.3.4")
           (VInt 300) (VBool false) (VInt 10) (ServiceError 503) 1); reflexivity.
Defined.

(** Saving the settings with one pending edit: the edit is submitted and
    the settings are listed again. *)
Lemma ZoneSettings_save_submits_and_refetches_witness :
  ∃ w', ZoneSettings_save example_remote 1 example_world = (Ok tt, w') ∧
        w_log w'
          = [(example_service,
              set_zone_settings (VStr "z1")
                [blob [("id", VStr "always_online"); ("value", VStr "off")]]);
             (example_service, get_zone_settings (VStr "z1"))] ∧
        w_settings w' !! 1
          = Some (mkSettings (Obj 0) (Obj example_service)
                             (Obj (settings_snapshot example_setting_blobs)) (Obj ∅)).
Proof.
  destruct (ZoneSettings_save_submits_and_refetches example_remote example_world 1
              example_settings_edited example_service 0 example_zone (VStr "z1")
              (blob [("always_online", VStr "off")]) example_setting_blobs 1 2)
    as (w' & Hrun & Hlog & _ & Hset & _);
    [reflexivity | reflexivity | reflexivity | reflexivity | evaluated
    | reflexivity | reflexivity | reflexivity | reflexivity
    | repeat constructor; by eexists |].
  exists w'. split; [exact Hrun|]. split; [exact Hlog | exact Hset].
Defined.

(** The bulk update is refused: the edit stays staged. *)
Lemma ZoneSettings_save_refused_keeps_edits_witness :
  ∃ w', ZoneSettings_save refusing_remote 1 example_world
          = (Raise (ServiceError 503), w') ∧
        w_log w'
          = w_log example_world
            ++ [(example_service,
                 set_zone_settings (VStr "z1")
                   (settings_items (blob [("always_online", VStr "off")])))] ∧
        w_settings w' = w_settings example_world ∧
        w_zones w' = w_zones example_world.
Proof.
  apply (ZoneSettings_save_refused_keeps_edits refusing_remote example_world 1
           example_settings_edited example_service 0 example_zone (VStr "z1")
           (blob [("always_online", VStr "off")]) (ServiceError 503) 1);
    [reflexivity | reflexivity | reflexivity | reflexivity | evaluated
    | reflexivity | reflexivity | reflexivity].
Defined.

(** The bulk update is accepted and the listing then fails: the edit stays
    staged. *)
Lemma ZoneSettings_save_refetch_failure_keeps_edits_witness :
  ∃ w', ZoneSettings_save flaky_remote 1 example_world
          = (Raise (ServiceError 502), w') ∧
        w_settings w' !! 1
          = Some (mkSettings (Obj 0) (Obj example_service)
                             (Obj (settings_snapshot example_setting_blobs))
                             (Obj (blob [("always_online", VStr "off")]))).
Proof.
  apply (ZoneSettings_save_refetch_failure_keeps_edits flaky_remote example_world 1
           example_settings_edited example_service 0 example_zone (VStr "z1")
           (blob [("always_online", VStr "off")]) example_setting_blobs
           (ServiceError 502) 1 2);
    [reflexivity | reflexivity | reflexivity | reflexivity | evaluated
    | reflexivity | reflexivity | reflexivity | reflexivity
    | repeat constructor; by eexists].
Defined.

(** The settings of the zone that was not read yet. *)
Lemma Zone_settings_built_once_witness :
  ∃ s w', Zone_settings example_remote 1 example_world = (Ok s, w') ∧
          w_settings example_world !! s = None ∧
          w_settings w' !! s
            = Some (mkSettings (Obj 1) (Obj example_service)
                               (Obj (settings_snapshot example_setting_blobs)) (Obj ∅)) ∧
          w_log w' = w_log example_world
                     ++ [(example_service, get_zone_settings (VStr "z2"))] ∧
          Zone_settings example_remote 1 w' = (Ok s, w').
Proof.
  apply (Zone_settings_built_once example_remote example_world 1
           example_zone_unread (VStr "z2") example_setting_blobs 1);
    [reflexivity | reflexivity | reflexivity | reflexivity
    | repeat constructor; by eexists].
Defined.

(** Listing the settings again for the settings object [0]. *)
Lemma ZoneSettings_get_settings_last_wins_witness :
  ∃ w' st,
    ZoneSettings_get_settings example_remote 0 example_world = (Ok tt, w') ∧
    s_settings <$> (w_settings w' !! 0) = Some (Obj st) ∧
    ∀ name : string,
      pd_lookup (VStr name) st
      = last (filter (λ setting, py_eq (setting_id setting) (VStr name) = true)
                     example_setting_blobs).
Proof.
  apply (ZoneSettings_get_settings_last_wins example_remote example_world 0
           example_settings example_service 0 example_zone (VStr "z1")
           example_setting_blobs 1);
    [reflexivity | reflexivity | reflexivity | reflexivity | reflexivity
    | reflexivity | repeat constructor; by eexists].
Defined.

(** The descriptor of [beta] has an id and nothing else. *)
Lemma ZoneSettings_descriptor_missing_field_witness :
  ZoneSettings_getattr "beta" 3 example_world_more
    = (Raise KeyError, example_world_more) ∧
  ZoneSettings_setattr "beta" (VStr "on") 3 example_world_more
    = (Raise KeyError, example_world_more).
Proof.
  destruct (ZoneSettings_descriptor_missing_field example_world_more 3
              example_settings_bare [(VStr "beta", blob [("id", VStr "beta")])]
              ∅ "beta" (VStr "on") (blob [("id", VStr "beta")]))
    as [Hget Hset];
    [reflexivity | evaluated | reflexivity | reflexivity | reflexivity
    | reflexivity |].
  split; [apply Hget | apply Hset]; reflexivity.
Defined.

(** The records of the unread zone, read twice. *)
Lemma Zone_records_read_again_witness :
  Zone_records example_remote 1 (Zone_records example_remote 1 example_world).2
  = (Ok [(VStr "www", [4; 2; 1]); (VStr "mail", [3])],
     (Zone_records example_remote 1 example_world).2).
Proof.
  apply (Zone_records_read_again example_remote example_world 1).
  vm_compute; reflexivity.
Defined.

(** A listing whose third blob has no [name]. *)
Lemma Zone_records_failure_not_cached_witness :
  w_zones (Zone_records flaky_remote 1 example_world).2 = w_zones example_world ∧
  w_users (Zone_records flaky_remote 1 example_world).2 = w_users example_world ∧
  w_log (Zone_records flaky_remote 1 (Zone_records flaky_remote 1 example_world).2).2
    = w_log (Zone_records flaky_remote 1 example_world).2
      ++ [(example_service, get_dns_records (VStr "z2"))].
Proof.
  apply (Zone_records_failure_not_cached flaky_remote example_world 1
           example_zone_unread (VStr "z2") AttributeError);
    [reflexivity | reflexivity | reflexivity |].
  vm_compute; reflexivity.
Defined.

(** The zones of the user that has not read them yet, read twice. *)
Lemma User_zones_read_again_witness :
  User_zones example_remote 1 (User_zones example_remote 1 example_world_more).2
  = (Ok [2], (User_zones example_remote 1 example_world_more).2).
Proof.
  apply (User_zones_read_again example_remote example_world_more 1).
  vm_compute; reflexivity.
Defined.

(** The listing of zones is refused. *)
Lemma User_zones_failure_not_cached_witness :
  w_users (User_zones refusing_remote 1 example_world_more).2
  = w_users example_world_more.
Proof.
  apply (User_zones_failure_not_cached refusing_remote example_world_more 1
           (ServiceError 503)).
  vm_compute; reflexivity.
Defined.

(** The listing of settings is refused. *)
Lemma Zone_settings_failure_not_cached_witness :
  w_zones (Zone_settings refusing_remote 1 example_world).2 = w_zones example_world.
Proof.
  apply (Zone_settings_failure_not_cached refusing_remote example_world 1
           (ServiceError 503)).
  vm_compute; reflexivity.
Defined.

(** The ids of the example settings, in order. *)
Lemma ZoneSettings_iter_sorted_ids_witness :
  ZoneSettings_iter 0 example_world
    = (Ok [VStr "always_online"; VStr "plan"], example_world) ∧
  [VStr "always_online"; VStr "plan"] ≡ₚ example_descriptors.*1 ∧
  StronglySorted (not_after py_lt) [VStr "always_online"; VStr "plan"].
Proof.
  assert (ZoneSettings_iter 0 example_world
          = (Ok [VStr "always_online"; VStr "plan"], example_world)) as Hrun
    by (vm_compute; reflexivity).
  destruct (ZoneSettings_iter_sorted_ids example_world 0 example_settings
              example_descriptors _ _ eq_refl eq_refl Hrun) as (_ & Hperm & Hsorted).
  split; [exact Hrun|]. split; [exact Hperm | exact Hsorted].
Defined.

(** Three records with the key [("A", "3.3.3.3")] and one of type [TXT]. *)
Lemma sort_keeps_order_of_equal_keys_witness :
  sort_records [3; 2; 0; 1] example_world_more = (Ok [2; 0; 1; 3], example_world_more) ∧
  filter (keyed_as example_world_more (VStr "A", VStr "3.3.3.3")) [2; 0; 1; 3]
  = filter (keyed_as example_world_more (VStr "A", VStr "3.3.3.3")) [3; 2; 0; 1].
Proof.
  assert (sort_records [3; 2; 0; 1] example_world_more
          = (Ok [2; 0; 1; 3], example_world_more)) as Hrun by (vm_compute; reflexivity).
  split; [exact Hrun|].
  exact (sort_keeps_order_of_equal_keys [3; 2; 0; 1] [2; 0; 1; 3]
           example_world_more example_world_more (VStr "A", VStr "3.3.3.3") Hrun).
Defined.

(** Saving the edited example settings, twice. *)
Lemma ZoneSettings_save_twice_witness :
  ZoneSettings_save example_remote 1 (ZoneSettings_save example_remote 1 example_world).2
  = (Ok tt, (ZoneSettings_save example_remote 1 example_world).2).
Proof.
  apply (ZoneSettings_save_twice example_remote example_world 1).
  vm_compute; reflexivity.
Defined.

(** * Closed instances of the reads *)

(** The record with a pending rename and the settings with a pending edit,
    read name by name: a staged name, a fetched one, an unknown one. *)
Lemma read_pending_then_snapshot_witness :
  Record_read object_has_attribute "name" 0 example_world
    = (Ok (Value (VStr "web")), example_world) ∧
  Record_read object_has_attribute "content" 0 example_world
    = (Ok (Value (VStr "3.3.3.3")), example_world) ∧
  Record_read object_has_attribute "comment" 0 example_world
    = (Raise AttributeError, example_world) ∧
  ZoneSettings_read object_has_attribute "always_online" 1 example_world
    = (Ok (Value (VStr "off")), example_world) ∧
  ZoneSettings_read object_has_attribute "plan" 1 example_world
    = (Ok (Value (VStr "free")), example_world) ∧
  ZoneSettings_read object_has_attribute "ipv6" 1 example_world
    = (Raise AttributeError, example_world).
Proof.
  split; [|split; [|split; [|split; [|split]]]].
  - apply (proj1 (proj1 (read_pending_then_snapshot object_has_attribute
                           example_world "name" eq_refl)
                    ltac:(evaluated) ltac:(evaluated)
                    0 example_record _ eq_refl eq_refl)).
    reflexivity.
  - apply (proj1 (proj2 (proj1 (read_pending_then_snapshot object_has_attribute
                                  example_world "content" eq_refl)
                           ltac:(evaluated) ltac:(evaluated)
                           0 example_record _ eq_refl eq_refl)
                   eq_refl example_record_data eq_refl)).
    reflexivity.
  - apply (proj2 (proj2 (proj1 (read_pending_then_snapshot object_has_attribute
                                  example_world "comment" eq_refl)
                           ltac:(evaluated) ltac:(evaluated)
                           0 example_record _ eq_refl eq_refl)
                   eq_refl example_record_data eq_refl)).
    reflexivity.
  - apply (proj1 (proj2 (read_pending_then_snapshot object_has_attribute
                           example_world "always_online" eq_refl)
                    ltac:(evaluated) ltac:(evaluated)
                    1 example_settings_edited _ eq_refl eq_refl)).
    reflexivity.
  - apply (proj1 (proj2 (proj2 (read_pending_then_snapshot object_has_attribute
                                  example_world "plan" eq_refl)
                           ltac:(evaluated) ltac:(evaluated)
                           1 example_settings_edited _ eq_refl eq_refl)
                   eq_refl example_descriptors eq_refl)
             (blob [("id", VStr "plan"); ("value", VStr "free");
                    ("editable", VBool false)])); reflexivity.
  - apply (proj2 (proj2 (proj2 (read_pending_then_snapshot object_has_attribute
                                  example_world "ipv6" eq_refl)
                           ltac:(evaluated) ltac:(evaluated)
                           1 example_settings_edited _ eq_refl eq_refl)
                   eq_refl example_descriptors eq_refl)).
    reflexivity.
Defined.

(** C6 as stated fails on the names that a read finds without calling
    [__getattr__]. On the example record [zone] and [save] are neither
    staged nor in the snapshot, yet reading them raises nothing: the reads
    give the zone that [__init__] stored and the method. On the settings
    whose snapshot has a setting called [zone] with the value [apex] and
    nothing staged, reading [zone] gives the zone object, not [apex]. *)
Lemma read_own_attribute_not_hooked :
  (w_records example_world !! 0 = Some example_record ∧
   r_updates example_record = Obj (blob [("name", VStr "web")]) ∧
   r_data example_record = Obj example_record_data ∧
   blob [("name", VStr "web")] !! "zone" = None ∧
   example_record_data !! "zone" = None ∧
   blob [("name", VStr "web")] !! "save" = None ∧
   example_record_data !! "save" = None) ∧
  Record_read object_has_attribute "zone" 0 example_world
    = (Ok (TheZone (Obj 0)), example_world) ∧
  Record_read object_has_attribute "zone" 0 example_world
    ≠ (Raise AttributeError, example_world) ∧
  Record_read object_has_attribute "save" 0 example_world
    = (Ok (BoundMethod "save"), example_world) ∧
  Record_read object_has_attribute "save" 0 example_world
    ≠ (Raise AttributeError, example_world) ∧
  (w_settings example_world !! 2 = Some example_settings_odd ∧
   s_updates example_settings_odd = Obj ∅ ∧
   ∃ st setting,
     s_settings example_settings_odd = Obj st ∧
     pd_lookup (VStr "zone") st = Some setting ∧
     setting !! "value" = Some (VStr "apex")) ∧
  ZoneSettings_read object_has_attribute "zone" 2 example_world
    = (Ok (TheZone (Obj 0)), example_world) ∧
  ZoneSettings_read object_has_attribute "zone" 2 example_world
    ≠ (Ok (Value (VStr "apex")), example_world).
Proof.
  split; [repeat split; reflexivity|].
  split; [reflexivity|]. split; [discriminate|].
  split; [reflexivity|]. split; [discriminate|].
  split; [|split; [reflexivity | discriminate]].
  split; [reflexivity|]. split; [reflexivity|].
  eexists _, _. repeat split; reflexivity.
Qed.



(** After the rename is saved, [name] reads as the response has it,
    [content] as the snapshot had it, and [comment] is still unknown. *)
Lemma Record_save_then_read_witness :
  ∃ w', Record_save example_remote 0 example_world = (Ok tt, w') ∧
        Record_read object_has_attribute "name" 0 w' = (Ok (Value (VStr "web")), w') ∧
        Record_read object_has_attribute "content" 0 w'
          = (Ok (Value (VStr "3.3.3.3")), w') ∧
        Record_read object_has_attribute "comment" 0 w' = (Raise AttributeError, w') ∧
        Record_read object_has_attribute "_updates" 0 w' = (Ok (TheDict (Obj ∅)), w').
Proof.
  destruct (Record_save_then_read example_remote object_has_attribute example_world 0
              example_record example_service 0 example_zone (VStr "z1")
              (blob [("name", VStr "web")]) example_record_data (VStr "r0")
              (blob [("name", VStr "web")]) 1)
    as (w' & Hrun & _ & Hupd & Hread);
    [reflexivity | reflexivity | reflexivity | reflexivity | reflexivity
    | reflexivity | evaluated | reflexivity | reflexivity | reflexivity |].
  exists w'. split; [exact Hrun|]. split; [|split; [|split]].
  - exact (Hread "name" ltac:(evaluated) ltac:(evaluated) eq_refl).
  - exact (Hread "content" ltac:(evaluated) ltac:(evaluated) eq_refl).
  - exact (Hread "comment" ltac:(evaluated) ltac:(evaluated) eq_refl).
  - exact Hupd.
Defined.
